(** * RPiNWR.Si4707.commands: the command layer of the Si4707 weather-band receiver

    A shallow embedding of [RPiNWR/Si4707/commands.py].  Every command class of
    the module is a function on an explicit machine state: the command object
    ([self]) and the controller ([radio]).  Python exceptions are an outcome of
    their own, [while] loops carry fuel and are out of it an outcome of their
    own too, and what the module only calls (the bus, the clock, the SAME
    decoder, the patch decompression) is gathered in one record of
    collaborators, [Env].

    Conventions:
    - Python [int] is [Z]; a [bool] used as a number goes through [Z.b2z];
    - Python [float] is [Q], extended with the two infinities where the module
      uses them ([float("inf")], [float("-inf")]). Where the module turns a
      float into an integer ([int(400 * frequency)]) the float is the
      binary64 number Python computes: literals and the product are rounded
      to nearest, ties to even ([float], [float_mul]). Sums and differences
      of clock readings and the quotient a tuning returns are kept exact:
      no decision of the module hangs on their last bit;
    - a Python [str] is the list of its code points;
    - the reception buffer [radio.same_messages] is a Python list shared by
      reference with the events that carry it, so lists of receptions live in
      a store ([heap]) and the radio and the events hold addresses. *)

From Stdlib Require Import ZArith QArith Qabs Qround Lia Lqa.
From stdpp Require Import base list strings.

Local Open Scope Z_scope.

(** ** The class hierarchy *)

Inductive Class :=
| Command
| PowerUp
| PatchCommand
| CommandRequiringPowerUp
| GetRevision
| PowerDown
| SetProperty
| GetProperty
| TuneFrequency
| TuneStatus
| InterruptHandler
| ReceivedSignalQualityCheck
| AlertToneCheck
| SameInterruptCheck.

(** [class X(Y)]: the direct base class of each class of the module
    ([Command] derives from [Symbol], which is outside the module). *)
Definition base_class (c : Class) : option Class :=
  match c with
  | Command => None
  | PowerUp => Some Command
  | PatchCommand => Some PowerUp
  | CommandRequiringPowerUp => Some Command
  | GetRevision => Some CommandRequiringPowerUp
  | PowerDown => Some CommandRequiringPowerUp
  | SetProperty => Some CommandRequiringPowerUp
  | GetProperty => Some CommandRequiringPowerUp
  | TuneFrequency => Some CommandRequiringPowerUp
  | TuneStatus => Some CommandRequiringPowerUp
  | InterruptHandler => Some CommandRequiringPowerUp
  | ReceivedSignalQualityCheck => Some InterruptHandler
  | AlertToneCheck => Some InterruptHandler
  | SameInterruptCheck => Some InterruptHandler
  end.

Definition Class_eqb (a b : Class) : bool :=
  match a, b with
  | Command, Command | PowerUp, PowerUp | PatchCommand, PatchCommand
  | CommandRequiringPowerUp, CommandRequiringPowerUp
  | GetRevision, GetRevision | PowerDown, PowerDown
  | SetProperty, SetProperty | GetProperty, GetProperty
  | TuneFrequency, TuneFrequency | TuneStatus, TuneStatus
  | InterruptHandler, InterruptHandler
  | ReceivedSignalQualityCheck, ReceivedSignalQualityCheck
  | AlertToneCheck, AlertToneCheck
  | SameInterruptCheck, SameInterruptCheck => true
  | _, _ => false
  end.

(** [issubclass(c, d)], by walking up the chain of base classes (the
    hierarchy is three levels deep below [Command]). *)
Fixpoint issubclass_within (depth : nat) (c d : Class) : bool :=
  Class_eqb c d ||
  match depth with
  | O => false
  | S depth' =>
      match base_class c with
      | Some b => issubclass_within depth' b d
      | None => false
      end
  end.

Definition issubclass (c d : Class) : bool := issubclass_within 3 c d.

(** [get_priority]: 0 for the power transitions, 1 for the interrupt
    handlers, 2 for the rest. *)
Definition get_priority (c : Class) : Z :=
  match c with
  | PowerUp | PatchCommand | PowerDown => 0
  | InterruptHandler | ReceivedSignalQualityCheck | AlertToneCheck
  | SameInterruptCheck => 1
  | _ => 2
  end.

(** ** Exceptions and results *)

(** The texts of the [ValueError]s raised in the module ([raise ValueError(...)])
    and by the built-ins it calls. *)
Inductive Message :=
| AttemptedWhenPoweredDown (cls : Class)
| FrequencyDidntStick (requested got : Z)
| FrequencyOutOfRange (mhz : Q)
| FunctionInvalid (function : Z)
| OpmodeInvalid (opmode : Z)
| PropertyOutOfRange (new_value : Z)
| BytesOutOfRange
| ChrOutOfRange
| SAMEMessageRejected.

Inductive Exception :=
| ValueError (m : Message)
| IndexError
| StructError
| AssertionError
| OverflowError
| TypeError
| AttributeError
| ZlibError.

Inductive Outcome (A : Type) :=
| Ret (a : A)
| Raise (e : Exception)
| Diverge.
Arguments Ret {A} a.
Arguments Raise {A} e.
Arguments Diverge {A}.

(** Extended floats: [float("-inf")], a finite value, [float("inf")]. *)
Inductive PyFloat :=
| NegInf
| Fin (q : Q)
| PosInf.

(** ** Data carried by commands, events and the radio *)

(** One reception of a SAME header: [("".join(chr(c) ...), conf)]. *)
Definition Reception : Type := list Z * list Z.

(** The dictionary returned by [SameInterruptCheck.__get_status]. *)
Record Status := {
  EOMDET : bool;
  SOMDET : bool;
  PREDET : bool;
  HDRRDY : bool;
  STATE : Z;
  MSGLEN : Z;
  CONFIDENCE : list Z;
  MESSAGE : list Z
}.

(** [Revision] and [PupRevision] (module [data]) wrap the bytes read. *)
Inductive RevisionRecord :=
| Revision (bytes : list Z)
| PupRevision (bytes : list Z).

(** [Property] (module [data]): mnemonic, code and value. *)
Record Property := {
  property_mnemonic : string;
  code : Z;
  property_value : option Z
}.

(** What [do_command0] returns. [VSelf] is the command object itself
    ([return self]), [VSelfStr] the string that replaces it in [do_command],
    [VCts] what [radio.wait_for_clear_to_send()] returned. *)
Inductive Value :=
| VNone
| VSelf
| VSelfStr
| VInt (n : Z)
| VCts (status : Z)
| VRevision (r : RevisionRecord)
| VTune (rssi snr : Z) (mhz : Q)
| VTuneStatus (mhz : Q) (rssi snr : Z).

(** The per-class attributes of a command object. *)
Inductive Fields :=
| FCommand
| FPowerUp (cts_interrupt_enable gpo2_output_enable crystal_oscillator_enable patch : bool)
    (function opmode : Z)
| FPatchCommand (cts_interrupt_enable gpo2_output_enable crystal_oscillator_enable : bool)
    (opmode : Z) (patch : list Z) (patch_id : option Z)
| FGetRevision
| FPowerDown
| FSetProperty (property : Property)
| FGetProperty (property : Property)
| FTuneFrequency (frequency : Z) (rssi snr : option Z)
| FTuneStatus (ack_stc : bool) (frequency rssi snr : option Z)
| FReceivedSignalQualityCheck (ack_rsq : bool) (rssi asnr frequency_offset : option Z)
    (afc_rail valid_channel snr_high snr_low rssi_high rssi_low : option bool)
| FAlertToneCheck (int_ack : bool) (tone_start tone_end tone_on : option bool)
    (duration : option Q)
| FSameInterruptCheck (status : option Status) (intack clearbuf dispatch_message : bool).

Definition class_of (f : Fields) : Class :=
  match f with
  | FCommand => Command
  | FPowerUp _ _ _ _ _ _ => PowerUp
  | FPatchCommand _ _ _ _ _ _ => PatchCommand
  | FGetRevision => GetRevision
  | FPowerDown => PowerDown
  | FSetProperty _ => SetProperty
  | FGetProperty _ => GetProperty
  | FTuneFrequency _ _ _ => TuneFrequency
  | FTuneStatus _ _ _ _ => TuneStatus
  | FReceivedSignalQualityCheck _ _ _ _ _ _ _ _ _ _ => ReceivedSignalQualityCheck
  | FAlertToneCheck _ _ _ _ _ => AlertToneCheck
  | FSameInterruptCheck _ _ _ _ => SameInterruptCheck
  end.

(** A command object: the attributes set by [Command.__init__] and the
    per-class ones. [future] is the handle of the attached future, if any. *)
Record CommandObject := {
  mnemonic : string;
  value : Z;
  future : option nat;
  exception : option Exception;
  result : option Value;
  time_complete : option Q;
  fields : Fields
}.

Definition type (c : CommandObject) : Class := class_of (fields c).

(** Events handed to [radio._fire_event] and [radio._delay_event]. The two
    events built from the reception buffer hold the list object itself, that
    is its address in the store. *)
Inductive Event :=
| RadioPowerEvent (on : bool)
| ReadyToTuneEvent
| SAMEMessageReceivedEvent (message : Reception)
| InvalidSAMEMessageReceivedEvent (messages : nat)
| EndOfMessage
| SAMEHeaderReceived (messages : nat).

(** Calls that reach the bus: the methods of [radio.hardware_io] and the two
    polling methods of the controller. *)
Inductive IoOp :=
| write8 (reg v : Z)
| writeList (reg : Z) (payload : list Z)
| readList (reg : Z) (count : Z)
| wait_for_clear_to_send
| check_interrupts.

(** What a future was completed with: [future.result(v)] or
    [future.exception(e)]. *)
Inductive Delivery :=
| Result (v : Value)
| Failure (e : Exception).

(** The controller: the attributes the commands read and assign, the store
    of the list objects that served as reception buffer, and the logs of
    what the commands did to its collaborators. *)
Record Radio := {
  radio_power : bool;
  tune_after : PyFloat;
  same_timeout : PyFloat;
  last_EOM : Q;
  tone_start : option Q;
  revision : option RevisionRecord;
  (** the list objects, by address, and the address [radio.same_messages]
      refers to *)
  heap : list (list Reception);
  same_messages : nat;
  (** the events given to [_fire_event] and to [_delay_event], the commands
      given to [radio.do_command], the completions of futures *)
  fired : list Event;
  delayed : list (Event * Q);
  submitted : list CommandObject;
  delivered : list (nat * Delivery);
  (** the calls that reached the bus and the number of clock readings *)
  io : list IoOp;
  ticks : nat;
  (** the arguments of the calls of [SAME.average_message] *)
  averaged : list (list Reception)
}.

(** The collaborators of the module. *)
Record Env := {
  (** [time.time()]: the successive readings of the clock *)
  clock : nat -> Q;
  (** the bytes the chip answers to a [readList], given the calls so far *)
  chip : list IoOp -> list Z;
  (** the status [radio.wait_for_clear_to_send()] returns *)
  cts_status : list IoOp -> Z;
  (** [radio.check_interrupts().is_seek_tune_complete()] *)
  seek_tune_complete : list IoOp -> bool;
  (** [SAME.average_message], taken to return for every list of receptions *)
  average_message : list Reception -> Reception;
  (** whether the constructor [SAME.SAMEMessage], applied to the unpacked
      [avg_message], accepts it; it raises [ValueError] when it does not *)
  SAMEMessage_valid : Reception -> bool;
  (** [zlib.decompress(base64.b64decode(patch))] *)
  decompress_patch : list Z -> option (list Z);
  (** [new_rev.patch_id] *)
  patch_id_of : RevisionRecord -> Z
}.

(** ** Assignments to the attributes of the radio and of the command *)

Definition set_radio_power (v : bool) (r : Radio) : Radio :=
  {| radio_power := v; tune_after := tune_after r; same_timeout := same_timeout r;
     last_EOM := last_EOM r; tone_start := tone_start r; revision := revision r; heap :=
     heap r; same_messages := same_messages r; fired := fired r; delayed := delayed r;
     submitted := submitted r; delivered := delivered r; io := io r; ticks := ticks r;
     averaged := averaged r |}.

Definition set_tune_after (v : PyFloat) (r : Radio) : Radio :=
  {| radio_power := radio_power r; tune_after := v; same_timeout := same_timeout r;
     last_EOM := last_EOM r; tone_start := tone_start r; revision := revision r; heap :=
     heap r; same_messages := same_messages r; fired := fired r; delayed := delayed r;
     submitted := submitted r; delivered := delivered r; io := io r; ticks := ticks r;
     averaged := averaged r |}.

Definition set_same_timeout (v : PyFloat) (r : Radio) : Radio :=
  {| radio_power := radio_power r; tune_after := tune_after r; same_timeout := v;
     last_EOM := last_EOM r; tone_start := tone_start r; revision := revision r; heap :=
     heap r; same_messages := same_messages r; fired := fired r; delayed := delayed r;
     submitted := submitted r; delivered := delivered r; io := io r; ticks := ticks r;
     averaged := averaged r |}.

Definition set_last_EOM (v : Q) (r : Radio) : Radio :=
  {| radio_power := radio_power r; tune_after := tune_after r; same_timeout :=
     same_timeout r; last_EOM := v; tone_start := tone_start r; revision := revision r;
     heap := heap r; same_messages := same_messages r; fired := fired r; delayed :=
     delayed r; submitted := submitted r; delivered := delivered r; io := io r; ticks :=
     ticks r; averaged := averaged r |}.

Definition set_tone_start (v : option Q) (r : Radio) : Radio :=
  {| radio_power := radio_power r; tune_after := tune_after r; same_timeout :=
     same_timeout r; last_EOM := last_EOM r; tone_start := v; revision := revision r;
     heap := heap r; same_messages := same_messages r; fired := fired r; delayed :=
     delayed r; submitted := submitted r; delivered := delivered r; io := io r; ticks :=
     ticks r; averaged := averaged r |}.

Definition set_revision (v : option RevisionRecord) (r : Radio) : Radio :=
  {| radio_power := radio_power r; tune_after := tune_after r; same_timeout :=
     same_timeout r; last_EOM := last_EOM r; tone_start := tone_start r; revision := v;
     heap := heap r; same_messages := same_messages r; fired := fired r; delayed :=
     delayed r; submitted := submitted r; delivered := delivered r; io := io r; ticks :=
     ticks r; averaged := averaged r |}.

Definition set_heap (v : list (list Reception)) (r : Radio) : Radio :=
  {| radio_power := radio_power r; tune_after := tune_after r; same_timeout :=
     same_timeout r; last_EOM := last_EOM r; tone_start := tone_start r; revision :=
     revision r; heap := v; same_messages := same_messages r; fired := fired r; delayed
     := delayed r; submitted := submitted r; delivered := delivered r; io := io r; ticks
     := ticks r; averaged := averaged r |}.

Definition set_same_messages (v : nat) (r : Radio) : Radio :=
  {| radio_power := radio_power r; tune_after := tune_after r; same_timeout :=
     same_timeout r; last_EOM := last_EOM r; tone_start := tone_start r; revision :=
     revision r; heap := heap r; same_messages := v; fired := fired r; delayed := delayed
     r; submitted := submitted r; delivered := delivered r; io := io r; ticks := ticks r;
     averaged := averaged r |}.

Definition set_fired (v : list Event) (r : Radio) : Radio :=
  {| radio_power := radio_power r; tune_after := tune_after r; same_timeout :=
     same_timeout r; last_EOM := last_EOM r; tone_start := tone_start r; revision :=
     revision r; heap := heap r; same_messages := same_messages r; fired := v; delayed :=
     delayed r; submitted := submitted r; delivered := delivered r; io := io r; ticks :=
     ticks r; averaged := averaged r |}.

Definition set_delayed (v : list (Event * Q)) (r : Radio) : Radio :=
  {| radio_power := radio_power r; tune_after := tune_after r; same_timeout :=
     same_timeout r; last_EOM := last_EOM r; tone_start := tone_start r; revision :=
     revision r; heap := heap r; same_messages := same_messages r; fired := fired r;
     delayed := v; submitted := submitted r; delivered := delivered r; io := io r; ticks
     := ticks r; averaged := averaged r |}.

Definition set_submitted (v : list CommandObject) (r : Radio) : Radio :=
  {| radio_power := radio_power r; tune_after := tune_after r; same_timeout :=
     same_timeout r; last_EOM := last_EOM r; tone_start := tone_start r; revision :=
     revision r; heap := heap r; same_messages := same_messages r; fired := fired r;
     delayed := delayed r; submitted := v; delivered := delivered r; io := io r; ticks :=
     ticks r; averaged := averaged r |}.

Definition set_delivered (v : list (nat * Delivery)) (r : Radio) : Radio :=
  {| radio_power := radio_power r; tune_after := tune_after r; same_timeout :=
     same_timeout r; last_EOM := last_EOM r; tone_start := tone_start r; revision :=
     revision r; heap := heap r; same_messages := same_messages r; fired := fired r;
     delayed := delayed r; submitted := submitted r; delivered := v; io := io r; ticks :=
     ticks r; averaged := averaged r |}.

Definition set_io (v : list IoOp) (r : Radio) : Radio :=
  {| radio_power := radio_power r; tune_after := tune_after r; same_timeout :=
     same_timeout r; last_EOM := last_EOM r; tone_start := tone_start r; revision :=
     revision r; heap := heap r; same_messages := same_messages r; fired := fired r;
     delayed := delayed r; submitted := submitted r; delivered := delivered r; io := v;
     ticks := ticks r; averaged := averaged r |}.

Definition set_ticks (v : nat) (r : Radio) : Radio :=
  {| radio_power := radio_power r; tune_after := tune_after r; same_timeout :=
     same_timeout r; last_EOM := last_EOM r; tone_start := tone_start r; revision :=
     revision r; heap := heap r; same_messages := same_messages r; fired := fired r;
     delayed := delayed r; submitted := submitted r; delivered := delivered r; io := io
     r; ticks := v; averaged := averaged r |}.

Definition set_averaged (v : list (list Reception)) (r : Radio) : Radio :=
  {| radio_power := radio_power r; tune_after := tune_after r; same_timeout :=
     same_timeout r; last_EOM := last_EOM r; tone_start := tone_start r; revision :=
     revision r; heap := heap r; same_messages := same_messages r; fired := fired r;
     delayed := delayed r; submitted := submitted r; delivered := delivered r; io := io
     r; ticks := ticks r; averaged := v |}.

Definition set_future (v : option nat) (c : CommandObject) : CommandObject :=
  {| mnemonic := mnemonic c; value := value c; future := v; exception := exception c;
     result := result c; time_complete := time_complete c; fields := fields c |}.

Definition set_exception (v : option Exception) (c : CommandObject) : CommandObject :=
  {| mnemonic := mnemonic c; value := value c; future := future c; exception := v;
     result := result c; time_complete := time_complete c; fields := fields c |}.

Definition set_result (v : option Value) (c : CommandObject) : CommandObject :=
  {| mnemonic := mnemonic c; value := value c; future := future c; exception :=
     exception c; result := v; time_complete := time_complete c; fields := fields c |}.

Definition set_time_complete (v : option Q) (c : CommandObject) : CommandObject :=
  {| mnemonic := mnemonic c; value := value c; future := future c; exception :=
     exception c; result := result c; time_complete := v; fields := fields c |}.

Definition set_fields (v : Fields) (c : CommandObject) : CommandObject :=
  {| mnemonic := mnemonic c; value := value c; future := future c; exception :=
     exception c; result := result c; time_complete := time_complete c; fields := v |}.

(** ** The machine: a command object executing against the radio *)

Record Machine := {
  self : CommandObject;
  radio : Radio
}.

Definition on_radio (f : Radio -> Radio) (m : Machine) : Machine :=
  {| self := self m; radio := f (radio m) |}.

Definition on_self (f : CommandObject -> CommandObject) (m : Machine) : Machine :=
  {| self := f (self m); radio := radio m |}.

(** Computations that read and write the machine and may raise or, for a
    loop out of fuel, not return. The state reached when an exception is
    raised is kept: Python does not roll assignments back. *)
Definition M (A : Type) : Type := Machine -> Outcome A * Machine.

Definition ret {A} (a : A) : M A := fun m => (Ret a, m).

Definition raise {A} (e : Exception) : M A := fun m => (Raise e, m).

Definition diverge {A} : M A := fun m => (Diverge, m).

Definition bind {A B} (c : M A) (k : A -> M B) : M B :=
  fun m =>
    match c m with
    | (Ret a, m') => k a m'
    | (Raise e, m') => (Raise e, m')
    | (Diverge, m') => (Diverge, m')
    end.

Notation "x <- c ;; k" := (bind c (fun x => k))
  (at level 100, c at next level, right associativity).
Notation "c ;; k" := (bind c (fun _ => k))
  (at level 100, right associativity).

Definition update (f : Radio -> Radio) : M unit :=
  fun m => (Ret tt, on_radio f m).

Definition update_self (f : CommandObject -> CommandObject) : M unit :=
  fun m => (Ret tt, on_self f m).

Definition read {A} (f : Radio -> A) : M A :=
  fun m => (Ret (f (radio m)), m).

Definition read_self {A} (f : CommandObject -> A) : M A :=
  fun m => (Ret (f (self m)), m).

Definition when (b : bool) (c : M unit) : M unit :=
  if b then c else ret tt.

(** [[f(x) for x in l]], left to right. *)
Fixpoint mapM {A B} (f : A -> M B) (l : list A) : M (list B) :=
  match l with
  | [] => ret []
  | x :: l' => y <- f x ;; ys <- mapM f l' ;; ret (y :: ys)
  end.

(** [for x in l: f(x)]. *)
Fixpoint forM_ {A} (f : A -> M unit) (l : list A) : M unit :=
  match l with
  | [] => ret tt
  | x :: l' => f x ;; forM_ f l'
  end.

(** [l[i]] for an index that is not negative. *)
Definition getitem (l : list Z) (i : Z) : M Z :=
  match l !! Z.to_nat i with
  | Some x => ret x
  | None => raise IndexError
  end.

(** [l[0:stop]]: a negative [stop] counts from the end. *)
Definition slice_to {A} (l : list A) (stop : Z) : list A :=
  if stop <? 0
  then take (Z.to_nat (Z.of_nat (length l) + stop)) l
  else take (Z.to_nat stop) l.

(** [l[start:stop]] for bounds that are not negative. *)
Definition slice {A} (l : list A) (start stop : Z) : list A :=
  take (Z.to_nat (stop - start)) (drop (Z.to_nat start) l).

(** [_bit(value, offset)] for a [bool]: [(value and True) << offset]. *)
Definition _bit (value : bool) (offset : Z) : Z :=
  Z.shiftl (Z.b2z (value && true)) offset.

Definition is_byte (b : Z) : bool := (0 <=? b) && (b <? 256).

(** [bytes(l)]: every item must be in [range(0, 256)]. *)
Definition bytes (l : list Z) : M (list Z) :=
  if forallb is_byte l then ret l else raise (ValueError BytesOutOfRange).

(** [chr(c)]: the code point must be in [range(0x110000)]; an argument that
    does not fit a C [int] is an [OverflowError]. *)
Definition chr (c : Z) : M Z :=
  if (0 <=? c) && (c <? 1114112) then ret c
  else if (c <? -2147483648) || (2147483648 <=? c) then raise OverflowError
  else raise (ValueError ChrOutOfRange).

(** Big-endian unsigned 16-bit field ([H]) and signed byte ([b]) of
    [struct.unpack], on bytes already checked by [bytes]. *)
Definition unpack_H (hi lo : Z) : Z := hi * 256 + lo.

Definition unpack_b (x : Z) : Z := if x <? 128 then x else x - 256.

(** [struct.pack] of an [H] field: two bytes, or [struct.error]. *)
Definition pack_H (n : Z) : M (list Z) :=
  if (0 <=? n) && (n <? 65536) then ret [Z.shiftr n 8; Z.land n 255]
  else raise StructError.

(** *** Floats as binary64 numbers *)

(** [floor(log2(x))] for a positive [x]. *)
Definition ilog2 (x : Q) : Z :=
  if Qle_bool 1 x then Z.log2 (Qfloor x) else - Z.log2_up (Qceiling (/ x)).

(** The integer nearest to [x], the even one of two that are equally near. *)
Definition round_half_even (x : Q) : Z :=
  let n := Qfloor x in
  let rest := (x - inject_Z n)%Q in
  if Qle_bool rest (1 # 2)
  then if Qle_bool (1 # 2) rest
       then if Z.even n then n else n + 1
       else n
  else n + 1.

(** The binary64 number nearest to [x], as a literal, [float(x)] and every
    arithmetic operation give it: 53 significant bits, so a last bit worth
    [2 ^ (ilog2 |x| - 52)], and not less than [2 ^ -1074]. A float is its own
    nearest. Overflow to infinity, from [2 ^ 1024] on, is not modelled: the
    module rounds no number beyond [400 * 162.55]. *)
Definition float (x : Q) : Q :=
  if Qeq_bool x 0 then 0%Q
  else
    let e := Z.max (ilog2 (Qabs x) - 52) (-1074) in
    (inject_Z (round_half_even (x / 2 ^ e)) * 2 ^ e)%Q.

(** [x * y] on floats. *)
Definition float_mul (x y : Q) : Q := float (x * y).

(** [int(x)] for a float: truncation towards zero. *)
Definition int (x : Q) : Z := Z.quot (Qnum x) (Z.pos (Qden x)).

Definition Qgtb (x y : Q) : bool := negb (Qle_bool x y).

Definition Qltb (x y : Q) : bool := negb (Qle_bool y x).

Section Commands.

Variable E : Env.

(** *** The primitives of the collaborators *)

Definition time_time : M Q :=
  fun m =>
    (Ret (clock E (ticks (radio m))),
     on_radio (fun r => set_ticks (S (ticks r)) r) m).

Definition log_io (op : IoOp) : M unit :=
  update (fun r => set_io (io r ++ [op]) r).

Definition hardware_io_write8 (reg v : Z) : M unit := log_io (write8 reg v).

Definition hardware_io_writeList (reg : Z) (payload : list Z) : M unit :=
  log_io (writeList reg payload).

Definition hardware_io_readList (reg count : Z) : M (list Z) :=
  log_io (readList reg count) ;;
  read (fun r => chip E (io r)).

Definition radio_wait_for_clear_to_send : M Z :=
  log_io wait_for_clear_to_send ;;
  read (fun r => cts_status E (io r)).

Definition radio_is_seek_tune_complete : M bool :=
  log_io check_interrupts ;;
  read (fun r => seek_tune_complete E (io r)).

Definition radio_fire_event (e : Event) : M unit :=
  update (fun r => set_fired (fired r ++ [e]) r).

Definition radio_delay_event (e : Event) (at_time : Q) : M unit :=
  update (fun r => set_delayed (delayed r ++ [(e, at_time)]) r).

(** [radio.do_command(cmd)]: the controller queues the command. *)
Definition radio_do_command (cmd : CommandObject) : M unit :=
  update (fun r => set_submitted (submitted r ++ [cmd]) r).

(** [time.sleep] has no effect of its own here: the clock is read from
    the environment. *)
Definition time_sleep : M unit := ret tt.

(** The reception buffer: the list object [radio.same_messages] refers to. *)
Definition deref (r : Radio) (a : nat) : list Reception :=
  default [] (heap r !! a).

Definition buffer (r : Radio) : list Reception := deref r (same_messages r).

(** [radio.same_messages.append(x)]: the list object is changed in place. *)
Definition same_messages_append (x : Reception) : M unit :=
  update (fun r => set_heap (<[same_messages r := buffer r ++ [x]]> (heap r)) r).

(** [radio.same_messages = []]: a new list object. *)
Definition same_messages_renew : M unit :=
  update (fun r => set_same_messages (length (heap r)) (set_heap (heap r ++ [[]]) r)).

(** *** [SameInterruptCheck.__get_status] *)

(** The first byte of the request: [clearbuf < 1 | intack], which Python
    reads as [clearbuf < (1 | intack)]. *)
Definition status_request (clearbuf intack : bool) : Z :=
  Z.b2z (Z.b2z clearbuf <? Z.lor 1 (Z.b2z intack)).

(** [data[int((7 - i) / 4) + 4] >> (i % 4 * 2) & 0x3] *)
Definition confidence_of (data : list Z) (i : Z) : M Z :=
  d <- getitem data (Z.quot (7 - i) 4 + 4) ;;
  ret (Z.land (Z.shiftr d (i mod 4 * 2)) 3).

Definition decode_status (data : list Z) : M Status :=
  confidence <- mapM (confidence_of data) [0; 1; 2; 3; 4; 5; 6; 7] ;;
  d1 <- getitem data 1 ;;
  d2 <- getitem data 2 ;;
  d3 <- getitem data 3 ;;
  ret {| EOMDET := negb (Z.land d1 8 =? 0);
         SOMDET := negb (Z.land d1 4 =? 0);
         PREDET := negb (Z.land d1 2 =? 0);
         HDRRDY := negb (Z.land d1 1 =? 0);
         STATE := d2;
         MSGLEN := d3;
         CONFIDENCE := confidence;
         MESSAGE := slice data 6 14 |}.

Definition SameInterruptCheck_get_status
    (readaddr : Z) (clearbuf intack : bool) : M Status :=
  v <- read_self value ;;
  hardware_io_writeList v [status_request clearbuf intack; readaddr] ;;
  radio_wait_for_clear_to_send ;;
  data <- hardware_io_readList 0 14 ;;
  decode_status data.

(** *** [SameInterruptCheck.do_command0] *)

(** [try: body except ValueError: handler] *)
Definition try_except_ValueError {A} (body handler : M A) : M A :=
  fun m =>
    match body m with
    | (Raise (ValueError _), m') => handler m'
    | r => r
    end.

(** The block under [if self.dispatch_message:]. The call of
    [SAME.average_message] is recorded in [averaged]. *)
Definition SameInterruptCheck_dispatch : M unit :=
  update (set_same_timeout PosInf) ;;
  messages_ref <- read same_messages ;;
  messages <- read buffer ;;
  when (0 <? Z.of_nat (length messages))
    (update (fun r => set_averaged (averaged r ++ [messages]) r) ;;
     let avg_message := average_message E messages in
     same_messages_renew ;;
     try_except_ValueError
       (message <- (if SAMEMessage_valid E avg_message
                    then ret avg_message
                    else raise (ValueError SAMEMessageRejected)) ;;
        radio_fire_event (SAMEMessageReceivedEvent message))
       (radio_fire_event (InvalidSAMEMessageReceivedEvent messages_ref))).

(** [while len(msg) < msg_len:] more reads, at offset [len(msg)]. *)
Fixpoint SameInterruptCheck_read_more
    (fuel : nat) (msg_len : Z) (msg conf : list Z) : M (list Z * list Z) :=
  if Z.of_nat (length msg) <? msg_len then
    match fuel with
    | O => diverge
    | S fuel' =>
        st <- SameInterruptCheck_get_status (Z.of_nat (length msg)) false false ;;
        SameInterruptCheck_read_more fuel' msg_len
          (msg ++ MESSAGE st) (conf ++ CONFIDENCE st)
    end
  else ret (msg, conf).

(** The branch [elif status["HDRRDY"]:]. *)
Definition SameInterruptCheck_header_ready (fuel : nat) (status : Status) : M unit :=
  let msg_len := MSGLEN status in
  mc <- SameInterruptCheck_read_more fuel msg_len (MESSAGE status) (CONFIDENCE status) ;;
  let msg := slice_to (fst mc) (msg_len + 1) in
  let conf := slice_to (snd mc) (msg_len + 1) in
  text <- mapM chr msg ;;
  same_messages_append (text, conf) ;;
  SameInterruptCheck_get_status 0 true false ;;
  messages_ref <- read same_messages ;;
  radio_fire_event (SAMEHeaderReceived messages_ref) ;;
  now <- time_time ;;
  update (set_same_timeout (Fin (now + 6))).

(** The branch [if status["EOMDET"]:]. *)
Definition SameInterruptCheck_end_of_message : M unit :=
  update (set_same_timeout (Fin 0)) ;;
  now <- time_time ;;
  last <- read last_EOM ;;
  when (Qgtb (now - last) 5)
    (stamp <- time_time ;;
     update (set_last_EOM stamp) ;;
     radio_fire_event EndOfMessage).

(** The branch [elif status["PREDET"]:]. *)
Definition SameInterruptCheck_preamble : M unit :=
  now <- time_time ;;
  update (set_same_timeout (Fin (now + 6))).

(** The statements after the dispatch block: the status poll and, under
    [if self.intack:], the flag-driven processing. *)
Definition SameInterruptCheck_poll (fuel : nat) (intack clearbuf dispatch_message : bool)
    : M unit :=
  status <- SameInterruptCheck_get_status 0 clearbuf intack ;;
  update_self (set_fields
    (FSameInterruptCheck (Some status) intack clearbuf dispatch_message)) ;;
  when intack
    (if EOMDET status then SameInterruptCheck_end_of_message
     else if PREDET status then SameInterruptCheck_preamble
     else if HDRRDY status then SameInterruptCheck_header_ready fuel status
     else ret tt).

Definition SameInterruptCheck_do_command0 (fuel : nat) : M Value :=
  f <- read_self fields ;;
  match f with
  | FSameInterruptCheck _ intack clearbuf dispatch_message =>
      when dispatch_message SameInterruptCheck_dispatch ;;
      SameInterruptCheck_poll fuel intack clearbuf dispatch_message ;;
      ret VNone
  | _ => raise AttributeError
  end.

(** *** [Command] *)

(** [try: body except Exception as e: handler(e)] *)
Definition try_except {A} (body : M A) (handler : Exception -> M A) : M A :=
  fun m =>
    match body m with
    | (Raise e, m') => handler e m'
    | r => r
    end.

(** [try: body finally: final]: [final] runs whether [body] returned or
    raised, and the outcome of [body] stands unless [final] itself fails. *)
Definition try_finally {A} (body : M A) (final : M unit) : M A :=
  fun m =>
    match body m with
    | (Diverge, m') => (Diverge, m')
    | (o, m') =>
        match final m' with
        | (Ret _, m'') => (o, m'')
        | (Raise e, m'') => (Raise e, m'')
        | (Diverge, m'') => (Diverge, m'')
        end
    end.

(** [self.future.result(v)] and [self.future.exception(e)] *)
Definition future_deliver (f : nat) (d : Delivery) : M unit :=
  update (fun r => set_delivered (delivered r ++ [(f, d)]) r).

(** [Command.do_command], for the [do_command0] of the object's class. *)
Definition Command_do_command (do_command0 : M Value) : M unit :=
  try_finally
    (try_except
       (result <- do_command0 ;;
        let result := match result with VSelf => VSelfStr | _ => result end in
        update_self (set_result (Some result)) ;;
        fut <- read_self future ;;
        match fut with
        | Some f => future_deliver f (Result result)
        | None => ret tt
        end)
       (fun e =>
          update_self (set_exception (Some e)) ;;
          fut <- read_self future ;;
          match fut with
          | Some f => future_deliver f (Failure e)
          | None => raise e
          end))
    (update_self (set_future None) ;;
     now <- time_time ;;
     update_self (set_time_complete (Some now))).

(** [Command.do_command0]: a rudimentary command with no arguments. *)
Definition Command_do_command0 : M Value :=
  v <- read_self value ;;
  hardware_io_write8 v 0 ;;
  status <- radio_wait_for_clear_to_send ;;
  ret (VCts status).

(** [CommandRequiringPowerUp.do_command]: the check of the power flag comes
    before the call of [Command.do_command]. *)
Definition CommandRequiringPowerUp_do_command (do_command0 : M Value) : M unit :=
  power <- read radio_power ;;
  cls <- read_self type ;;
  (if negb power then raise (ValueError (AttemptedWhenPoweredDown cls)) else ret tt) ;;
  Command_do_command do_command0.

(** A method called on another object: [body] runs with [obj] as its
    [self], and the caller's [self] is back afterwards. *)
Definition call_on {A} (obj : CommandObject) (body : M A) : M (A * CommandObject) :=
  fun m =>
    match body {| self := obj; radio := radio m |} with
    | (Ret a, m') => (Ret (a, self m'), {| self := self m; radio := radio m' |})
    | (Raise e, m') => (Raise e, {| self := self m; radio := radio m' |})
    | (Diverge, m') => (Diverge, {| self := self m; radio := radio m' |})
    end.

(** [Command.__init__] *)
Definition new (mnemonic : string) (value : Z) (f : Fields) : CommandObject :=
  {| mnemonic := mnemonic; value := value; future := None; exception := None;
     result := None; time_complete := None; fields := f |}.

(** *** [PowerUp] and [PatchCommand] *)

Definition PowerUp_init (cts_interrupt_enable gpo2_output_enable crystal_oscillator_enable
    patch : bool) (function opmode : Z) : Exception + CommandObject :=
  if negb ((function =? 3) || (function =? 15))
  then inl (ValueError (FunctionInvalid function))
  else if negb ((opmode =? 5) || (opmode =? 11) || (opmode =? 176) || (opmode =? 181))
  then inl (ValueError (OpmodeInvalid opmode))
  else inr (new "POWER_UP" 1
              (FPowerUp cts_interrupt_enable gpo2_output_enable
                 crystal_oscillator_enable patch function opmode)).

Definition PatchCommand_init (patch : list Z) (patch_id : option Z)
    (cts_interrupt_enable gpo2_output_enable crystal_oscillator_enable : bool)
    (opmode : Z) : Exception + CommandObject :=
  if negb ((opmode =? 5) || (opmode =? 11) || (opmode =? 176) || (opmode =? 181))
  then inl (ValueError (OpmodeInvalid opmode))
  else inr (new "POWER_UP" 1
              (FPatchCommand cts_interrupt_enable gpo2_output_enable
                 crystal_oscillator_enable opmode patch patch_id)).

(** The attributes [PowerUp.do_command00] reads. In a [PatchCommand],
    [self.patch] is the patch itself and [self.function] is 3;
    [_bit(self.patch, 5)] is then [(patch and True) << 5], which is 32 for a
    patch that is not empty and a [TypeError] for an empty one. *)
Definition PowerUp_do_command00 : M Value :=
  f <- read_self fields ;;
  v <- read_self value ;;
  match f with
  | FPowerUp cts_interrupt_enable gpo2_output_enable crystal_oscillator_enable patch
      function opmode =>
      hardware_io_writeList v
        [Z.lor (Z.lor (Z.lor (Z.lor (_bit cts_interrupt_enable 7)
            (_bit gpo2_output_enable 6)) (_bit patch 5))
            (_bit crystal_oscillator_enable 4)) function;
         opmode] ;;
      status <- radio_wait_for_clear_to_send ;;
      ret (VCts status)
  | FPatchCommand cts_interrupt_enable gpo2_output_enable crystal_oscillator_enable
      opmode patch _ =>
      match patch with
      | [] => raise TypeError
      | _ :: _ =>
          hardware_io_writeList v
            [Z.lor (Z.lor (Z.lor (Z.lor (_bit cts_interrupt_enable 7)
                (_bit gpo2_output_enable 6)) (_bit true 5))
                (_bit crystal_oscillator_enable 4)) 3;
             opmode] ;;
          status <- radio_wait_for_clear_to_send ;;
          ret (VCts status)
      end
  | _ => raise AttributeError
  end.

(** [PowerUp.do_command0], for the [do_command00] of the object's class. *)
Definition PowerUp_do_command0 (do_command00 : M Value) : M Value :=
  result <- do_command00 ;;
  f <- read_self fields ;;
  let '(function, crystal_oscillator_enable) :=
    match f with
    | FPowerUp _ _ crystal_oscillator_enable _ function _ =>
        (function, crystal_oscillator_enable)
    | FPatchCommand _ _ crystal_oscillator_enable _ _ _ => (3, crystal_oscillator_enable)
    | _ => (0, false)
    end in
  if function =? 15 then
    bl <- hardware_io_readList 0 8 ;;
    update (set_revision (Some (PupRevision bl))) ;;
    ret (VRevision (PupRevision bl))
  else
    update (set_radio_power true) ;;
    radio_fire_event (RadioPowerEvent true) ;;
    (if crystal_oscillator_enable then
       now <- time_time ;;
       update (set_tune_after (Fin (now + 0.5))) ;;
       radio_delay_event ReadyToTuneEvent (now + 0.5)
     else
       update (set_tune_after NegInf) ;;
       radio_fire_event ReadyToTuneEvent) ;;
    ret result.

(** *** [GetRevision] and [PowerDown] *)

Definition GetRevision_init : CommandObject := new "GET_REV" 16 FGetRevision.

Definition GetRevision_do_command0 : M Value :=
  Command_do_command0 ;;
  bl <- hardware_io_readList 0 9 ;;
  update (set_revision (Some (Revision bl))) ;;
  ret (VRevision (Revision bl)).

Definition PowerDown_init : CommandObject := new "POWER_DOWN" 17 FPowerDown.

Definition PowerDown_do_command0 : M Value :=
  Command_do_command0 ;;
  update (set_radio_power false) ;;
  radio_fire_event (RadioPowerEvent false) ;;
  ret VNone.

(** [range(0, n, 8)] *)
Definition range8 (n : nat) : list Z :=
  map (fun k => 8 * Z.of_nat k) (seq 0 (Nat.div (n + 7) 8)).

Definition PatchCommand_do_command00 : M Value :=
  PowerUp_do_command00 ;;
  f <- read_self fields ;;
  match f with
  | FPatchCommand _ _ _ _ blob patch_id =>
      patch <- match decompress_patch E blob with
               | Some p => ret p
               | None => raise ZlibError
               end ;;
      forM_ (fun i =>
               reg <- getitem patch i ;;
               hardware_io_writeList reg (slice patch (i + 1) (i + 8)) ;;
               radio_wait_for_clear_to_send ;;
               ret tt)
            (range8 (length patch)) ;;
      new_rev <- call_on GetRevision_init GetRevision_do_command0 ;;
      match fst new_rev, patch_id with
      | VRevision r, Some id =>
          if negb (id =? 0) && negb (patch_id_of E r =? id)
          then raise AssertionError
          else ret (fst new_rev)
      | _, _ => ret (fst new_rev)
      end
  | _ => raise AttributeError
  end.

(** *** [SetProperty] and [GetProperty] *)

(** [validator] is the predicate [Property] (module [data]) attaches to the
    mnemonic. *)
Definition SetProperty_init (p : Property) (validator : Z -> bool) (new_value : Z)
    : Exception + CommandObject :=
  if negb (validator new_value)
  then inl (ValueError (PropertyOutOfRange new_value))
  else inr (new "SET_PROPERTY" 18
              (FSetProperty {| property_mnemonic := property_mnemonic p;
                               code := code p;
                               property_value := Some new_value |})).

Definition SetProperty_do_command0 : M Value :=
  f <- read_self fields ;;
  v <- read_self value ;;
  match f with
  | FSetProperty p =>
      c <- pack_H (code p) ;;
      x <- match property_value p with
           | Some x => pack_H x
           | None => raise StructError
           end ;;
      hardware_io_writeList v (0 :: c ++ x) ;;
      ret VNone
  | _ => raise AttributeError
  end.

Definition GetProperty_init (p : Property) : CommandObject :=
  new "GET_PROPERTY" 19 (FGetProperty p).

Definition GetProperty_do_command0 : M Value :=
  f <- read_self fields ;;
  v <- read_self value ;;
  match f with
  | FGetProperty p =>
      hardware_io_writeList v [0; Z.shiftr (code p) 8; Z.land (code p) 255] ;;
      radio_wait_for_clear_to_send ;;
      bl <- hardware_io_readList 0 4 ;;
      b <- bytes bl ;;
      match b with
      | [_; _; hi; lo] =>
          update_self (set_fields
            (FGetProperty {| property_mnemonic := property_mnemonic p;
                             code := code p;
                             property_value := Some (unpack_H hi lo) |})) ;;
          ret (VInt (unpack_H hi lo))
      | _ => raise StructError
      end
  | _ => raise AttributeError
  end.

(** *** [TuneStatus] and [TuneFrequency] *)

Definition TuneStatus_init (ack_stc : bool) : CommandObject :=
  new "WB_TUNE_STATUS" 82 (FTuneStatus ack_stc None None None).

Definition TuneStatus_do_command0 : M Value :=
  f <- read_self fields ;;
  v <- read_self value ;;
  match f with
  | FTuneStatus ack_stc _ _ _ =>
      hardware_io_writeList v [Z.land (Z.b2z ack_stc) 1] ;;
      radio_wait_for_clear_to_send ;;
      bl <- hardware_io_readList 0 6 ;;
      b <- bytes bl ;;
      match b with
      | [_; _; hi; lo; r; n] =>
          let frequency := unpack_H hi lo in
          update_self (set_fields
            (FTuneStatus ack_stc (Some frequency) (Some (unpack_b r)) (Some (unpack_b n)))) ;;
          ret (VTuneStatus (inject_Z frequency / 400) (unpack_b r) (unpack_b n))
      | _ => raise StructError
      end
  | _ => raise AttributeError
  end.

(** [if not 162.4 <= frequency <= 162.55: raise ...]; [int(400 * frequency)]
    truncates the rounded product towards zero. [frequency] is a float: the
    argument stands for the binary64 number nearest to it, as the literal
    the caller writes does, and the bounds are the floats [162.4] and
    [162.55]. *)
Definition TuneFrequency_init (frequency : Q) : Exception + CommandObject :=
  let frequency := float frequency in
  if negb (Qle_bool (float 162.4) frequency && Qle_bool frequency (float 162.55))
  then inl (ValueError (FrequencyOutOfRange frequency))
  else inr (new "WB_TUNE_FREQ" 80
              (FTuneFrequency (int (float_mul 400 frequency)) None None)).

(** [while time.time() < radio.tune_after: time.sleep(max(.1, radio.tune_after - time.time()))];
    sleeping for [float("inf")] seconds is an [OverflowError]. *)
Fixpoint TuneFrequency_wait_tune_after (fuel : nat) : M unit :=
  now <- time_time ;;
  after <- read tune_after ;;
  match after with
  | NegInf => ret tt
  | Fin deadline =>
      if Qltb now deadline then
        match fuel with
        | O => diverge
        | S fuel' =>
            time_time ;;
            time_sleep ;;
            TuneFrequency_wait_tune_after fuel'
        end
      else ret tt
  | PosInf =>
      time_time ;;
      raise OverflowError
  end.

(** [while not radio.check_interrupts().is_seek_tune_complete(): time.sleep(0.02)] *)
Fixpoint TuneFrequency_wait_stc (fuel : nat) : M unit :=
  stc <- radio_is_seek_tune_complete ;;
  if stc then ret tt
  else
    match fuel with
    | O => diverge
    | S fuel' => time_sleep ;; TuneFrequency_wait_stc fuel'
    end.

Definition TuneFrequency_do_command0 (fuel : nat) : M Value :=
  f <- read_self fields ;;
  v <- read_self value ;;
  match f with
  | FTuneFrequency frequency _ _ =>
      TuneFrequency_wait_tune_after fuel ;;
      packed <- pack_H frequency ;;
      hardware_io_writeList v (0 :: packed) ;;
      update (set_tone_start None) ;;
      TuneFrequency_wait_stc fuel ;;
      ts <- call_on (TuneStatus_init true)
              (CommandRequiringPowerUp_do_command TuneStatus_do_command0) ;;
      match fields (snd ts) with
      | FTuneStatus _ (Some ts_frequency) (Some ts_rssi) (Some ts_snr) =>
          if negb (ts_frequency =? frequency)
          then raise (ValueError (FrequencyDidntStick frequency ts_frequency))
          else
            update_self (set_fields
              (FTuneFrequency frequency (Some ts_rssi) (Some ts_snr))) ;;
            ret (VTune ts_rssi ts_snr (inject_Z ts_frequency / 400))
      | _ => raise TypeError
      end
  | _ => raise AttributeError
  end.

(** *** The interrupt handlers [ReceivedSignalQualityCheck] and [AlertToneCheck] *)

Definition ReceivedSignalQualityCheck_init (ack_rsq : bool) : CommandObject :=
  new "WB_RSQ_STATUS" 83
    (FReceivedSignalQualityCheck ack_rsq None None None None None None None None None).

Definition ReceivedSignalQualityCheck_do_command0 : M Value :=
  f <- read_self fields ;;
  v <- read_self value ;;
  match f with
  | FReceivedSignalQualityCheck ack_rsq _ _ _ _ _ _ _ _ _ =>
      hardware_io_writeList v [Z.land (Z.b2z ack_rsq) 1] ;;
      radio_wait_for_clear_to_send ;;
      bl <- hardware_io_readList 0 8 ;;
      b <- bytes bl ;;
      match b with
      | [_; vf; vl; _; r; a; _; fo] =>
          let violation_flags := unpack_b vf in
          let validity := unpack_b vl in
          update_self (set_fields
            (FReceivedSignalQualityCheck ack_rsq
               (Some (unpack_b r)) (Some (unpack_b a)) (Some (unpack_b fo))
               (Some (negb (Z.land validity 2 =? 0)))
               (Some (negb (Z.land validity 1 =? 0)))
               (Some (negb (Z.land violation_flags 8 =? 0)))
               (Some (negb (Z.land violation_flags 4 =? 0)))
               (Some (negb (Z.land violation_flags 2 =? 0)))
               (Some (negb (Z.land violation_flags 1 =? 0))))) ;;
          ret VSelf
      | _ => raise StructError
      end
  | _ => raise AttributeError
  end.

Definition AlertToneCheck_init (int_ack : bool) : CommandObject :=
  new "WB_ASQ_STATUS" 85 (FAlertToneCheck int_ack None None None None).

(** [SameInterruptCheck.__init__]: [self.clearbuf = clearbuf or dispatch_message]. *)
Definition SameInterruptCheck_init (intack clearbuf dispatch_message : bool)
    : CommandObject :=
  new "WB_SAME_STATUS" 84
    (FSameInterruptCheck None intack (clearbuf || dispatch_message) dispatch_message).

Definition AlertToneCheck_do_command0 : M Value :=
  f <- read_self fields ;;
  v <- read_self value ;;
  match f with
  | FAlertToneCheck int_ack _ _ _ duration =>
      hardware_io_writeList v [Z.land (Z.b2z int_ack) 1] ;;
      radio_wait_for_clear_to_send ;;
      bl <- hardware_io_readList 0 3 ;;
      b <- bytes bl ;;
      match b with
      | [_; h; p] =>
          let history := unpack_b h in
          let present := unpack_b p in
          let self_tone_start := negb (Z.land history 1 =? 0) in
          let self_tone_end := negb (Z.land history 2 =? 0) in
          let self_tone_on := negb (present =? 0) in
          update_self (set_fields
            (FAlertToneCheck int_ack (Some self_tone_start) (Some self_tone_end) (Some self_tone_on)
               duration)) ;;
          radio_do_command (SameInterruptCheck_init false false true) ;;
          if self_tone_on then
            now <- time_time ;;
            update (set_tone_start (Some now)) ;;
            ret VNone
          else
            started <- read tone_start ;;
            match started with
            | Some t0 =>
                now <- time_time ;;
                update_self (set_fields
                  (FAlertToneCheck int_ack (Some self_tone_start) (Some self_tone_end)
                     (Some self_tone_on) (Some (now - t0)%Q))) ;;
                update (set_tone_start None) ;;
                ret VNone
            | None => ret VNone
            end
      | _ => raise StructError
      end
  | _ => raise AttributeError
  end.

(** *** Method resolution *)

(** [self.do_command0(radio)]: the method of the object's class. *)
Definition do_command0 (fuel : nat) : M Value :=
  f <- read_self fields ;;
  match f with
  | FCommand => Command_do_command0
  | FPowerUp _ _ _ _ _ _ => PowerUp_do_command0 PowerUp_do_command00
  | FPatchCommand _ _ _ _ _ _ => PowerUp_do_command0 PatchCommand_do_command00
  | FGetRevision => GetRevision_do_command0
  | FPowerDown => PowerDown_do_command0
  | FSetProperty _ => SetProperty_do_command0
  | FGetProperty _ => GetProperty_do_command0
  | FTuneFrequency _ _ _ => TuneFrequency_do_command0 fuel
  | FTuneStatus _ _ _ _ => TuneStatus_do_command0
  | FReceivedSignalQualityCheck _ _ _ _ _ _ _ _ _ _ =>
      ReceivedSignalQualityCheck_do_command0
  | FAlertToneCheck _ _ _ _ _ => AlertToneCheck_do_command0
  | FSameInterruptCheck _ _ _ _ => SameInterruptCheck_do_command0 fuel
  end.

(** [self.do_command(radio)]: [CommandRequiringPowerUp.do_command] for the
    classes that derive from it, [Command.do_command] for the others. *)
Definition do_command (fuel : nat) : M unit :=
  cls <- read_self type ;;
  if issubclass cls CommandRequiringPowerUp
  then CommandRequiringPowerUp_do_command (do_command0 fuel)
  else Command_do_command (do_command0 fuel).

(** [cmd.do_command(radio)], seen from the caller. *)
Definition execute (fuel : nat) (cmd : CommandObject) (r : Radio)
    : Outcome unit * CommandObject * Radio :=
  let '(o, m) := do_command fuel {| self := cmd; radio := r |} in
  (o, self m, radio m).

End Commands.

(** * The vocabulary of the properties *)

Section View.

Context {B : Type} (view : Machine -> B).

(** [c] leaves the view [view] of the machine as it found it, however it ends. *)
Definition keeps {A} (c : M A) : Prop :=
  forall m, view (snd (c m)) = view m.

End View.

(** [c] raises no exception but those of [allowed]. *)
Definition raises_only {A} (allowed : Exception -> Prop) (c : M A) : Prop :=
  forall m e, fst (c m) = Raise e -> allowed e.

Section Vocabulary.

Variable E : Env.

(** The dictionary [__get_status] builds from [data], as a function. *)
Definition status_of (data : list Z) : Status :=
  {| EOMDET := negb (Z.land (nth 1 data 0) 8 =? 0);
     SOMDET := negb (Z.land (nth 1 data 0) 4 =? 0);
     PREDET := negb (Z.land (nth 1 data 0) 2 =? 0);
     HDRRDY := negb (Z.land (nth 1 data 0) 1 =? 0);
     STATE := nth 2 data 0;
     MSGLEN := nth 3 data 0;
     CONFIDENCE :=
       map (fun i => Z.land (Z.shiftr (nth (Z.to_nat (Z.quot (7 - i) 4 + 4)) data 0)
                               (i mod 4 * 2)) 3)
           [0; 1; 2; 3; 4; 5; 6; 7];
     MESSAGE := slice data 6 14 |}.

(** The 2-bit field of [byte] at bit offset [offset]. *)
Definition two_bit_field (byte offset : Z) : Z := (byte / 2 ^ offset) mod 4.

(** The confidence region of a status response starts at byte 4. *)
Definition confidence_region (data : list Z) : list Z := drop 4 data.

(** Packing by the layout of the chip: the level of symbol [i] goes to byte
    [(7 - i) / 4] of the region, at bit offset [(i mod 4) * 2]. *)
Definition encode_confidence_byte (k : Z) (c : list Z) : Z :=
  foldr (fun i acc =>
           if (7 - i) / 4 =? k
           then Z.lor (Z.shiftl (nth (Z.to_nat i) c 0) (i mod 4 * 2)) acc
           else acc)
        0 [0; 1; 2; 3; 4; 5; 6; 7].

Definition encode_confidence (c : list Z) : list Z :=
  [encode_confidence_byte 0 c; encode_confidence_byte 1 c].

(** The three calls of one [__get_status]. *)
Definition status_exchange (v readaddr : Z) (clearbuf intack : bool) : list IoOp :=
  [writeList v [status_request clearbuf intack; readaddr];
   wait_for_clear_to_send;
   readList 0 14].

(** The chip answers a read of 14 bytes with 14 bytes. *)
Definition answers_status_reads : Prop :=
  forall log, length (chip E (log ++ [readList 0 14])) = 14%nat /\
              Forall (fun b => 0 <= b < 256) (chip E (log ++ [readList 0 14])).

(** The event the dispatch block fires for the receptions [messages] held at
    address [messages_ref]. *)
Definition dispatch_event (messages_ref : nat) (messages : list Reception) : Event :=
  if SAMEMessage_valid E (average_message E messages)
  then SAMEMessageReceivedEvent (average_message E messages)
  else InvalidSAMEMessageReceivedEvent messages_ref.

(** The radio after the dispatch block. *)
Definition dispatched (r : Radio) : Radio :=
  match buffer r with
  | [] => set_same_timeout PosInf r
  | _ :: _ =>
      set_fired (fired r ++ [dispatch_event (same_messages r) (buffer r)])
        (set_same_messages (length (heap r))
           (set_heap (heap r ++ [[]])
              (set_averaged (averaged r ++ [buffer r])
                 (set_same_timeout PosInf r))))
  end.

(** The state in which the status poll starts. *)
Definition after_dispatch (dispatch_message : bool) (m : Machine) : Machine :=
  if dispatch_message then on_radio dispatched m else m.

Definition is_EndOfMessage (e : Event) : bool :=
  match e with
  | EndOfMessage => true
  | _ => false
  end.

(** The number of end-of-message notifications among events. *)
Definition eom_count (events : list Event) : nat :=
  length (filter (fun e => is_EndOfMessage e = true) events).

(** The events fired between two states of the radio. *)
Definition emitted (before after : Radio) : list Event :=
  drop (length (fired before)) (fired after).

(** The status a poll decodes when it starts in state [m]. *)
Definition polled_status (clearbuf intack : bool) (m : Machine) : Status :=
  status_of (chip E (io (radio m) ++ status_exchange (value (self m)) 0 clearbuf intack)).

Definition polled_length (clearbuf intack : bool) (m : Machine) : nat :=
  length (chip E (io (radio m) ++ status_exchange (value (self m)) 0 clearbuf intack)).

(** The radio after the handling of EOMDET, from the radio [r] in which the
    status was read. *)
Definition end_of_message_handled (r : Radio) : Radio :=
  let now := clock E (ticks r) in
  if Qgtb (now - last_EOM r) 5
  then set_fired (fired r ++ [EndOfMessage])
         (set_last_EOM (clock E (S (ticks r)))
            (set_ticks (S (S (ticks r))) (set_same_timeout (Fin 0) r)))
  else set_ticks (S (ticks r)) (set_same_timeout (Fin 0) r).

(** A [SameInterruptCheck] with interrupt acknowledge that, started in state
    [m], decodes a status with EOMDET set. *)
Definition detects_end_of_message (m : Machine) : Prop :=
  exists status clearbuf dispatch_message,
    fields (self m) = FSameInterruptCheck status true clearbuf dispatch_message /\
    (6 <= polled_length clearbuf true (after_dispatch dispatch_message m))%nat /\
    EOMDET (polled_status clearbuf true (after_dispatch dispatch_message m)) = true.

(** The number of further reads that bring an assembled length of [len] to
    at least [msg_len], in chunks of eight. *)
Definition reads_needed (msg_len len : Z) : nat :=
  Z.to_nat ((msg_len - len + 7) / 8).

(** What [k] further reads assemble, the first at offset [off] and each next
    one eight further, and the I/O log they leave. *)
Fixpoint further_reads (k : nat) (v off : Z) (log : list IoOp) (msg conf : list Z)
    : list Z * list Z * list IoOp :=
  match k with
  | O => (msg, conf, log)
  | S k' =>
      let log' := log ++ status_exchange v off false false in
      let st := status_of (chip E log') in
      further_reads k' v (off + 8) log' (msg ++ MESSAGE st) (conf ++ CONFIDENCE st)
  end.

(** The radio after the handling of HDRRDY by the command with opcode [v],
    from the radio [r] in which [status] was read. *)
Definition header_received (v : Z) (status : Status) (r : Radio) : Radio :=
  let res := further_reads (reads_needed (MSGLEN status) 8) v 8 (io r)
               (MESSAGE status) (CONFIDENCE status) in
  let reception := (slice_to (fst (fst res)) (MSGLEN status + 1),
                    slice_to (snd (fst res)) (MSGLEN status + 1)) in
  set_same_timeout (Fin (clock E (ticks r) + 6))
    (set_ticks (S (ticks r))
       (set_fired (fired r ++ [SAMEHeaderReceived (same_messages r)])
          (set_io (snd res ++ status_exchange v 0 true false)
             (set_heap (<[same_messages r := buffer r ++ [reception]]> (heap r)) r)))).

Definition is_SAMEHeaderReceived (e : Event) : bool :=
  match e with
  | SAMEHeaderReceived _ => true
  | _ => false
  end.

(** The byte with the two flags as independent bits: bit 0 the clear-buffer
    request, bit 1 the interrupt-acknowledge request. *)
Definition status_request_two_bits (clearbuf intack : bool) : Z :=
  Z.lor (Z.b2z clearbuf) (Z.shiftl (Z.b2z intack) 1).

(** The flags byte of [PowerUp.do_command00]. *)
Definition PowerUp_flags (cts_interrupt_enable gpo2_output_enable
    crystal_oscillator_enable patch : bool) (function : Z) : Z :=
  Z.lor (Z.lor (Z.lor (Z.lor (_bit cts_interrupt_enable 7) (_bit gpo2_output_enable 6))
    (_bit patch 5)) (_bit crystal_oscillator_enable 4)) function.

(** The attributes a [do_command0] never assigns: all but the per-class ones. *)
Definition base_attributes (c : CommandObject)
    : string * Z * option nat * option Exception * option Value * option Q :=
  (mnemonic c, value c, future c, exception c, result c, time_complete c).

Definition self_view (m : Machine) := base_attributes (self m).

(** [if result == self: result = "self"] *)
Definition stored (v : Value) : Value :=
  match v with
  | VSelf => VSelfStr
  | _ => v
  end.

(** The [finally] clause of [Command.do_command]. *)
Definition finished (m : Machine) : Machine :=
  {| self := set_time_complete (Some (clock E (ticks (radio m))))
               (set_future None (self m));
     radio := set_ticks (S (ticks (radio m))) (radio m) |}.

Definition deliver (f : option nat) (d : Delivery) (r : Radio) : Radio :=
  match f with
  | Some h => set_delivered (delivered r ++ [(h, d)]) r
  | None => r
  end.

(** The weather band as the constructor of [TuneFrequency] tests it: from the
    float [162.4] to the float [162.55]. *)
Definition in_weather_band (frequency : Q) : Prop :=
  (float 162.4 <= frequency <= float 162.55)%Q.

(** The wait for the tuning deadline ends after [rounds] rounds of sleep on
    the radio [r]: there is no deadline to wait for, or the readings of the
    clock at the top of the loop, two readings apart, are before the deadline
    until the one after [rounds] rounds. *)
Definition deadline_reached_after (rounds : nat) (r : Radio) : Prop :=
  match tune_after r with
  | NegInf => rounds = 0%nat
  | Fin deadline =>
      (forall j, (j < rounds)%nat -> (clock E (ticks r + 2 * j) < deadline)%Q) /\
      (deadline <= clock E (ticks r + 2 * rounds))%Q
  | PosInf => False
  end.

(** The chip reports the end of the tuning at poll number [polls + 1] after
    the calls of [log], and not before. *)
Definition tuning_complete_after (polls : nat) (log : list IoOp) : Prop :=
  (forall j, (j < polls)%nat ->
     seek_tune_complete E (log ++ replicate (S j) check_interrupts) = false) /\
  seek_tune_complete E (log ++ replicate (S polls) check_interrupts) = true.

(** The calls of the acknowledging [TuneStatus]. *)
Definition tune_status_exchange : list IoOp :=
  [writeList 82 [1]; wait_for_clear_to_send; readList 0 6].

(** The radio after [cmd.do_command0(radio)]. *)
Definition polled (fuel : nat) (cmd : CommandObject) (r : Radio) : Radio :=
  radio (snd (do_command0 E fuel {| self := cmd; radio := r |})).

(** The poll [SameInterruptCheck(intack=True, clearbuf=clearbuf)], started on
    the radio [r], decodes HDRRDY and neither EOMDET nor PREDET. *)
Definition header_ready_for (clearbuf : bool) (r : Radio) : Prop :=
  let st := polled_status clearbuf true
              {| self := SameInterruptCheck_init true clearbuf false; radio := r |} in
  HDRRDY st = true /\ EOMDET st = false /\ PREDET st = false.

End Vocabulary.

(** * The receiver on the bench: concrete inputs *)

(** A controller that was just powered up: an empty reception buffer at
    address 0, nothing logged, no deadline. *)
Definition bench_radio : Radio :=
  {| radio_power := true; tune_after := NegInf; same_timeout := PosInf; last_EOM := 0;
     tone_start := None; revision := None; heap := [[]]; same_messages := 0%nat;
     fired := []; delayed := []; submitted := []; delivered := []; io := [];
     ticks := 0%nat; averaged := [] |}.

Definition bench_radio_off : Radio := set_radio_power false bench_radio.

Definition is_readList (op : IoOp) : bool :=
  match op with
  | readList _ _ => true
  | _ => false
  end.

(** The number of reads in an I/O log. *)
Definition reads (log : list IoOp) : nat :=
  length (filter (fun op => is_readList op = true) log).

(** A bench environment around a chip: the clock starts at 1000 s and
    advances one second per reading, the bus is always clear to send and the
    tuning always complete, the decoder keeps the first reception and accepts
    it when it has symbols. *)
Definition bench (chip : list IoOp -> list Z) : Env :=
  {| clock := fun n => inject_Z (1000 + Z.of_nat n);
     chip := chip;
     cts_status := fun _ => 128;
     seek_tune_complete := fun _ => true;
     average_message := fun l => hd ([], []) l;
     SAMEMessage_valid := fun x => negb (Nat.eqb (length (fst x)) 0);
     decompress_patch := Some;
     patch_id_of := fun _ => 0 |}.

(** Status responses: a header of twelve symbols ready (its first eight
    being ZCZC-WXR), the same with the preamble flag still set, and an end of
    message. *)
Definition header_response : list Z :=
  [128; 1; 2; 12; 228; 27; 90; 67; 90; 67; 45; 87; 88; 82].

Definition preamble_header_response : list Z :=
  [128; 3; 2; 12; 228; 27; 90; 67; 90; 67; 45; 87; 88; 82].

Definition end_of_message_response : list Z :=
  [128; 8; 0; 0; 0; 0; 0; 0; 0; 0; 0; 0; 0; 0].

(** A chip that always has a header ready. *)
Definition header_chip : Env := bench (fun _ => header_response).

(** A chip whose status has both PREDET and HDRRDY set. *)
Definition preamble_header_chip : Env := bench (fun _ => preamble_header_response).

(** A chip that has a header ready during the first nine reads, which three
    header polls make, and an end of message afterwards. *)
Definition transmission_chip : Env :=
  bench (fun log => if (reads log <=? 9)%nat then header_response
                    else end_of_message_response).

(** A chip that has detected an end of message. *)
Definition end_of_message_chip : Env := bench (fun _ => end_of_message_response).

(** A chip whose tune status confirms 162.55 MHz (65020 = 0xFDFC), with
    signal strength 40 and signal-to-noise ratio 25. *)
Definition tuned_chip : Env := bench (fun _ => [128; 1; 253; 252; 40; 25]).

(** The interrupt poll [SameInterruptCheck(intack=True)]. *)
Definition interrupt_poll : CommandObject := SameInterruptCheck_init true false false.

(** A radio holding one reception. *)
Definition loaded_radio : Radio :=
  set_heap [[([90; 67; 90; 67], [3; 3; 2; 3])]] bench_radio.

(** * The vocabulary of the further properties *)

(** The classes that define [get_priority] themselves, with what it returns. *)
Definition own_get_priority (c : Class) : option Z :=
  match c with
  | Command => Some 2
  | PowerUp => Some 0
  | PowerDown => Some 0
  | InterruptHandler => Some 1
  | _ => None
  end.

(** [get_priority] as Python resolves it: the definition of the nearest
    class up the chain of base classes. *)
Fixpoint resolve_get_priority (depth : nat) (c : Class) : option Z :=
  match own_get_priority c with
  | Some p => Some p
  | None =>
      match depth, base_class c with
      | S depth', Some b => resolve_get_priority depth' b
      | _, _ => None
      end
  end.

(** The attributes of the radio that only the power transitions assign. *)
Definition power_view (m : Machine) : bool * PyFloat :=
  (radio_power (radio m), tune_after (radio m)).

(** The attributes of the radio that only [SameInterruptCheck] assigns, with
    the store of the reception buffers and the calls of the decoder. *)
Definition same_view (m : Machine)
    : list (list Reception) * nat * list (list Reception) * PyFloat * Q :=
  (heap (radio m), same_messages (radio m), averaged (radio m),
   same_timeout (radio m), last_EOM (radio m)).

(** The exchange of the commands that read a response of fixed length: the
    payload written with the opcode and the number of bytes read. *)
Definition fixed_exchange (f : Fields) : option (list Z * Z) :=
  match f with
  | FGetProperty p => Some ([0; Z.shiftr (code p) 8; Z.land (code p) 255], 4)
  | FTuneStatus ack_stc _ _ _ => Some ([Z.b2z ack_stc], 6)
  | FReceivedSignalQualityCheck ack_rsq _ _ _ _ _ _ _ _ _ => Some ([Z.b2z ack_rsq], 8)
  | FAlertToneCheck int_ack _ _ _ _ => Some ([Z.b2z int_ack], 3)
  | _ => None
  end.

(** The I/O log after the exchange of the command [cmd]. *)
Definition exchanged (cmd : CommandObject) (payload : list Z) (count : Z) (log : list IoOp)
    : list IoOp :=
  log ++ [writeList (value cmd) payload; wait_for_clear_to_send; readList 0 count].

Definition all_bytes (l : list Z) : Prop := Forall (fun b => 0 <= b < 256) l.

(** The radio after the handling of PREDET. *)
Definition preamble_handled (E : Env) (r : Radio) : Radio :=
  set_same_timeout (Fin (clock E (ticks r) + 6)) (set_ticks (S (ticks r)) r).

(** The number of symbols [msg[0:msg_len + 1]] keeps of a header assembled
    in chunks of eight. *)
Definition symbols_kept (msg_len : Z) : Z :=
  if (0 <? msg_len) && (msg_len mod 8 =? 0) then msg_len else msg_len + 1.

(** The bus calls that stream a patch: for each chunk of eight bytes, a
    write with the first byte as register and the others as payload, and the
    wait for clear to send. *)
Definition patch_stream (patch : list Z) : list IoOp :=
  flat_map (fun i => [writeList (nth (Z.to_nat i) patch 0) (slice patch (i + 1) (i + 8));
                      wait_for_clear_to_send])
           (range8 (length patch)).

(** The bytes the writes of a log put on the bus, register first. *)
Definition written_bytes (log : list IoOp) : list Z :=
  flat_map (fun op => match op with
                      | writeList reg payload => reg :: payload
                      | _ => []
                      end) log.

(** The I/O log of a [PatchCommand]: the power-up request, the patch, and
    the exchange of [GetRevision]. *)
Definition patched_log (cmd : CommandObject) (flags opmode : Z) (patch : list Z)
    (log : list IoOp) : list IoOp :=
  log ++ [writeList (value cmd) [flags; opmode]; wait_for_clear_to_send] ++
  patch_stream patch ++
  [write8 16 0; wait_for_clear_to_send; readList 0 9].

(** The tuning deadline of the radio has passed at the next clock reading. *)
Definition deadline_passed (E : Env) (r : Radio) : Prop :=
  match tune_after r with
  | NegInf => True
  | Fin deadline => (deadline <= clock E (ticks r))%Q
  | PosInf => False
  end.

(** ** More of the bench *)

(** A power-up for weather-band receive with the crystal oscillator, and the
    query of the library id. *)
Definition bench_power_up : CommandObject :=
  new "POWER_UP" 1 (FPowerUp false true true false 3 5).

Definition bench_query : CommandObject :=
  new "POWER_UP" 1 (FPowerUp false true true false 15 5).

(** A property with code 0x5108, set to 300 = 0x012C, and the chip's answer
    to a [GetProperty] that carries this value. *)
Definition bench_property (v : option Z) : Property :=
  {| property_mnemonic := "WB_MAX_TUNE_ERROR"; code := 20744; property_value := v |}.

Definition property_chip : Env := bench (fun _ => [128; 0; 1; 44]).

(** A signal quality response: SNR high and RSSI high flagged, the channel
    valid, signal strength 200 read as signed. *)
Definition quality_chip : Env := bench (fun _ => [128; 10; 1; 0; 200; 12; 0; 250]).

(** A status with both EOMDET and HDRRDY set. *)
Definition end_of_message_header_chip : Env :=
  bench (fun _ => [128; 9; 2; 12; 228; 27; 90; 67; 90; 67; 45; 87; 88; 82]).

(** A status with SOMDET alone. *)
Definition start_of_message_chip : Env :=
  bench (fun _ => [128; 4; 1; 0; 0; 0; 0; 0; 0; 0; 0; 0; 0; 0]).

(** A bus that returns three bytes to every read, and one that stops after
    the sixth byte of a status that announces a header of twelve symbols. *)
Definition short_chip : Env := bench (fun _ => [128; 1; 2]).

Definition truncating_chip : Env := bench (fun _ => [128; 1; 2; 12; 0; 0]).

(** An alert tone that is present at the first read and gone afterwards. *)
Definition tone_chip : Env :=
  bench (fun log => if (reads log <=? 1)%nat then [128; 1; 1] else [128; 2; 0]).

(** A patch of twenty bytes, and the command that loads it. *)
Definition bench_patch : list Z :=
  [21; 0; 0; 0; 0; 0; 0; 0; 22; 1; 2; 3; 4; 5; 6; 7; 23; 8; 9; 10].

Definition bench_patch_command (patch_id : option Z) : CommandObject :=
  new "POWER_UP" 1 (FPatchCommand true true true 5 bench_patch patch_id).

(** A chip that never reports the end of the tuning. *)
Definition stuck_chip : Env :=
  {| clock := fun n => inject_Z (1000 + Z.of_nat n);
     chip := fun _ => [128; 1; 253; 252; 40; 25];
     cts_status := fun _ => 128;
     seek_tune_complete := fun _ => false;
     average_message := fun l => hd ([], []) l;
     SAMEMessage_valid := fun x => negb (Nat.eqb (length (fst x)) 0);
     decompress_patch := Some;
     patch_id_of := fun _ => 0 |}.

Definition bench_tune : CommandObject :=
  new "WB_TUNE_FREQ" 80 (FTuneFrequency 65020 None None).

(** A radio powered up with the crystal oscillator a moment ago: tuning has
    to wait until the clock shows 2000 s. *)
Definition warming_radio : Radio := set_tune_after (Fin 2000) bench_radio.

(** * Properties *)

(** ** The status decoder *)

Lemma decode_status_of (data : list Z) (m : Machine) :
  (6 <= length data)%nat ->
  decode_status data m = (Ret (status_of data), m).
Proof.
  intros Hlen.
  do 6 (destruct data as [|? data]; [simpl in Hlen; lia|]).
  reflexivity.
Qed.

Lemma decode_status_short (data : list Z) (m : Machine) :
  (length data < 6)%nat ->
  decode_status data m = (Raise IndexError, m).
Proof.
  intros Hlen.
  do 6 (destruct data as [|? data]; [reflexivity|]).
  simpl in Hlen; lia.
Qed.

(** ** Confidence levels (C4) *)

Lemma land_shiftr_two_bit_field (x o : Z) :
  0 <= o -> Z.land (Z.shiftr x o) 3 = two_bit_field x o.
Proof.
  intros Ho. unfold two_bit_field.
  rewrite Z.shiftr_div_pow2 by lia.
  change 3 with (Z.ones 2).
  rewrite Z.land_ones by lia.
  reflexivity.
Qed.

Lemma level_cases (x : Z) : 0 <= x <= 3 -> x = 0 \/ x = 1 \/ x = 2 \/ x = 3.
Proof. lia. Qed.

(** Four levels packed in one byte come back from their fields. *)
Lemma four_levels_in_a_byte (a b c d : Z) :
  0 <= a <= 3 -> 0 <= b <= 3 -> 0 <= c <= 3 -> 0 <= d <= 3 ->
  let byte :=
    Z.lor (Z.shiftl a 0) (Z.lor (Z.shiftl b 2) (Z.lor (Z.shiftl c 4)
      (Z.lor (Z.shiftl d 6) 0))) in
  Z.land (Z.shiftr byte 0) 3 = a /\ Z.land (Z.shiftr byte 2) 3 = b /\
  Z.land (Z.shiftr byte 4) 3 = c /\ Z.land (Z.shiftr byte 6) 3 = d.
Proof.
  intros Ha Hb Hc Hd.
  destruct (level_cases a Ha) as [->|[->|[->| ->]]];
    destruct (level_cases b Hb) as [->|[->|[->| ->]]];
    destruct (level_cases c Hc) as [->|[->|[->| ->]]];
    destruct (level_cases d Hd) as [->|[->|[->| ->]]];
    vm_compute; auto.
Qed.

(** C4. On a 14-byte status response the decoder returns, for each symbol
    [i] of 0..7, the 2-bit field at bit offset [(i mod 4) * 2] of byte
    [(7 - i) / 4] of the confidence region; so eight levels in 0..3 packed
    by this layout are decoded unchanged. *)
Theorem confidence_decode_layout (data : list Z) (m : Machine) :
  length data = 14%nat ->
  decode_status data m = (Ret (status_of data), m) /\
  (forall i, 0 <= i <= 7 ->
     CONFIDENCE (status_of data) !! Z.to_nat i =
     Some (two_bit_field (nth (Z.to_nat ((7 - i) / 4)) (confidence_region data) 0)
             (i mod 4 * 2))) /\
  (forall c head, length c = 8%nat -> Forall (fun x => 0 <= x <= 3) c ->
     length head = 4%nat ->
     length (head ++ encode_confidence c ++ drop 6 data) = 14%nat /\
     CONFIDENCE (status_of (head ++ encode_confidence c ++ drop 6 data)) = c).
Proof.
  intros Hlen. split; [|split].
  - apply decode_status_of; lia.
  - intros i Hi.
    do 14 (destruct data as [|? data]; [discriminate Hlen|]).
    assert (i = 0 \/ i = 1 \/ i = 2 \/ i = 3 \/ i = 4 \/ i = 5 \/ i = 6 \/ i = 7)
      as Hcases by lia.
    destruct Hcases as [->|[->|[->|[->|[->|[->|[->| ->]]]]]]];
      cbv -[Z.land Z.shiftr two_bit_field]; f_equal;
      apply land_shiftr_two_bit_field; lia.
  - intros c head Hc Hall Hhead.
    split.
    { rewrite !length_app, length_drop, Hhead, Hlen. reflexivity. }
    do 4 (destruct head as [|? head]; [discriminate Hhead|]).
    destruct head; [|discriminate Hhead].
    do 8 (destruct c as [|? c]; [discriminate Hc|]).
    destruct c; [|discriminate Hc].
    repeat match goal with
           | H : Forall _ (_ :: _) |- _ => apply Forall_cons in H; destruct H
           end.
    pose proof (four_levels_in_a_byte z3 z4 z5 z6) as L.
    pose proof (four_levels_in_a_byte z7 z8 z9 z10) as R.
    cbv zeta in L, R.
    destruct L as (L0 & L1 & L2 & L3); try assumption.
    destruct R as (R0 & R1 & R2 & R3); try assumption.
    cbv -[Z.land Z.shiftr Z.lor Z.shiftl].
    rewrite L0, L1, L2, L3, R0, R1, R2, R3.
    reflexivity.
Qed.

(** ** Status exchanges on the bus *)

Section Polling.

Variable E : Env.

Lemma get_status_run (readaddr : Z) (clearbuf intack : bool) (m : Machine) :
  let log := io (radio m) ++ status_exchange (value (self m)) readaddr clearbuf intack in
  (6 <= length (chip E log))%nat ->
  SameInterruptCheck_get_status E readaddr clearbuf intack m =
  (Ret (status_of (chip E log)), on_radio (set_io log) m).
Proof.
  intros log Hlen.
  unfold SameInterruptCheck_get_status, bind, read_self, hardware_io_writeList,
    radio_wait_for_clear_to_send, hardware_io_readList, log_io, update, read, bind,
    on_radio.
  cbn [self radio io set_io value].
  assert (((io (radio m) ++ [writeList (value (self m))
              [status_request clearbuf intack; readaddr]]) ++
           [wait_for_clear_to_send]) ++ [readList 0 14] = log) as ->.
  { unfold log, status_exchange. rewrite <- !app_assoc. reflexivity. }
  rewrite decode_status_of by exact Hlen.
  reflexivity.
Qed.

End Polling.

(** ** Frame properties: what a computation leaves alone *)

Section Frames.

Context {B : Type} (view : Machine -> B).

Lemma keeps_ret {A} (a : A) : keeps view (ret a).
Proof. intros m. reflexivity. Qed.

Lemma keeps_raise {A} (e : Exception) : keeps view (@raise A e).
Proof. intros m. reflexivity. Qed.

Lemma keeps_diverge {A} : keeps view (@diverge A).
Proof. intros m. reflexivity. Qed.

Lemma keeps_bind {A C} (c : M A) (k : A -> M C) :
  keeps view c -> (forall a, keeps view (k a)) -> keeps view (bind c k).
Proof.
  intros Hc Hk m. unfold bind.
  specialize (Hc m).
  destruct (c m) as [[a|e|] m1]; simpl in *; try assumption.
  rewrite Hk. assumption.
Qed.

Lemma keeps_when (b : bool) (c : M unit) : keeps view c -> keeps view (when b c).
Proof. intros Hc. destruct b; [exact Hc | apply keeps_ret]. Qed.

Lemma keeps_mapM {A C} (f : A -> M C) (l : list A) :
  (forall x, keeps view (f x)) -> keeps view (mapM f l).
Proof.
  intros Hf. induction l as [|x l IH]; simpl.
  - apply keeps_ret.
  - apply keeps_bind; [apply Hf|]. intros y.
    apply keeps_bind; [exact IH|]. intros ys. apply keeps_ret.
Qed.

Lemma keeps_forM_ {A} (f : A -> M unit) (l : list A) :
  (forall x, keeps view (f x)) -> keeps view (forM_ f l).
Proof.
  intros Hf. induction l as [|x l IH]; simpl.
  - apply keeps_ret.
  - apply keeps_bind; [apply Hf|]. intros _. exact IH.
Qed.

Lemma keeps_try_except {A} (body : M A) (handler : Exception -> M A) :
  keeps view body -> (forall e, keeps view (handler e)) -> keeps view (try_except body handler).
Proof.
  intros Hb Hh m. unfold try_except.
  specialize (Hb m).
  destruct (body m) as [[a|e|] m1]; simpl in *; try assumption.
  rewrite Hh. assumption.
Qed.

Lemma keeps_try_except_ValueError {A} (body handler : M A) :
  keeps view body -> keeps view handler -> keeps view (try_except_ValueError body handler).
Proof.
  intros Hb Hh m. unfold try_except_ValueError.
  specialize (Hb m).
  destruct (body m) as [[a|[]|] m1]; simpl in *; try assumption.
  rewrite Hh. assumption.
Qed.

Lemma keeps_try_finally {A} (body : M A) (final : M unit) :
  keeps view body -> keeps view final -> keeps view (try_finally body final).
Proof.
  intros Hb Hf m. unfold try_finally.
  specialize (Hb m). specialize (Hf (snd (body m))).
  destruct (body m) as [[a|e|] m1]; simpl in *; try assumption;
    destruct (final m1) as [[[]|e'|] m2]; simpl in *; congruence.
Qed.

End Frames.

(** Steps through the structure of a computation, closing the leaves that
    leave the view alone by computation. *)
Ltac keeps_step :=
  match goal with
  | |- keeps _ (bind _ _) => apply keeps_bind
  | |- keeps _ (ret _) => apply keeps_ret
  | |- keeps _ (raise _) => apply keeps_raise
  | |- keeps _ diverge => apply keeps_diverge
  | |- keeps _ (when _ _) => apply keeps_when
  | |- keeps _ (mapM _ _) => apply keeps_mapM
  | |- keeps _ (forM_ _ _) => apply keeps_forM_
  | |- keeps _ (try_except _ _) => apply keeps_try_except
  | |- keeps _ (try_except_ValueError _ _) => apply keeps_try_except_ValueError
  | |- keeps _ (try_finally _ _) => apply keeps_try_finally
  | |- keeps _ (match ?x with _ => _ end) => destruct x
  | |- keeps _ (let '(_, _) := ?x in _) => destruct x
  | |- forall _, _ => intro
  | |- keeps _ _ => solve [intros ?; reflexivity]
  | |- keeps _ _ => solve [eauto]
  end.

Ltac keeps_auto := repeat keeps_step.

Section Raising.

Variable allowed : Exception -> Prop.

Lemma raises_only_ret {A} (a : A) : raises_only allowed (ret a).
Proof. intros m e H. discriminate H. Qed.

Lemma raises_only_diverge {A} : raises_only allowed (@diverge A).
Proof. intros m e H. discriminate H. Qed.

Lemma raises_only_raise {A} (e : Exception) : allowed e -> raises_only allowed (@raise A e).
Proof. intros He m e' H. injection H as <-. exact He. Qed.

Lemma raises_only_bind {A C} (c : M A) (k : A -> M C) :
  raises_only allowed c -> (forall a, raises_only allowed (k a)) ->
  raises_only allowed (bind c k).
Proof.
  intros Hc Hk m e. unfold bind.
  specialize (Hc m).
  destruct (c m) as [[a|e'|] m1]; cbn [fst] in *.
  - apply Hk.
  - intros H. injection H as <-. apply Hc. reflexivity.
  - discriminate.
Qed.

Lemma raises_only_when (b : bool) (c : M unit) :
  raises_only allowed c -> raises_only allowed (when b c).
Proof. intros Hc. destruct b; [exact Hc | apply raises_only_ret]. Qed.

Lemma raises_only_mapM {A C} (f : A -> M C) (l : list A) :
  (forall x, raises_only allowed (f x)) -> raises_only allowed (mapM f l).
Proof.
  intros Hf. induction l as [|x l IH]; simpl.
  - apply raises_only_ret.
  - apply raises_only_bind; [apply Hf|]. intros y.
    apply raises_only_bind; [exact IH|]. intros ys. apply raises_only_ret.
Qed.

End Raising.

(** Steps through the structure of a computation; the leaves are
    computations that return and raises of allowed exceptions. *)
Ltac raises_step :=
  match goal with
  | |- raises_only _ (bind _ _) => apply raises_only_bind
  | |- raises_only _ (ret _) => apply raises_only_ret
  | |- raises_only _ diverge => apply raises_only_diverge
  | |- raises_only _ (raise _) => apply raises_only_raise; solve [auto]
  | |- raises_only _ (when _ _) => apply raises_only_when
  | |- raises_only _ (mapM _ _) => apply raises_only_mapM
  | |- raises_only _ (match ?x with _ => _ end) => destruct x
  | |- forall _, _ => intro
  | |- raises_only _ _ => solve [intros ? ? H; discriminate H]
  | |- raises_only _ _ => solve [eauto]
  end.

Ltac raises_auto := repeat raises_step.

Section PollingFrames.

Variable E : Env.

Context {B : Type} (view : Machine -> B).

(** The views a status exchange cannot reach: those blind to the I/O log. *)
Hypothesis view_io : forall l m, view (on_radio (set_io l) m) = view m.

Lemma keeps_log_io (op : IoOp) : keeps view (log_io op).
Proof. intros m. apply (view_io (io (radio m) ++ [op]) m). Qed.

Lemma keeps_getitem (l : list Z) (i : Z) : keeps view (getitem l i).
Proof. unfold getitem. keeps_auto. Qed.

Lemma keeps_decode_status (data : list Z) : keeps view (decode_status data).
Proof.
  unfold decode_status, confidence_of.
  pose proof keeps_getitem. keeps_auto.
Qed.

Lemma keeps_get_status (readaddr : Z) (clearbuf intack : bool) :
  keeps view (SameInterruptCheck_get_status E readaddr clearbuf intack).
Proof.
  unfold SameInterruptCheck_get_status, hardware_io_writeList,
    radio_wait_for_clear_to_send, hardware_io_readList.
  pose proof keeps_log_io. pose proof keeps_decode_status.
  keeps_auto.
Qed.

Lemma keeps_read_more (fuel : nat) (msg_len : Z) (msg conf : list Z) :
  keeps view (SameInterruptCheck_read_more E fuel msg_len msg conf).
Proof.
  revert msg conf. induction fuel as [|fuel IH]; intros msg conf; simpl.
  - keeps_auto.
  - pose proof keeps_get_status. keeps_auto.
Qed.

End PollingFrames.

(** ** The dispatch request (C2) *)

Section Dispatch.

Variable E : Env.

Lemma dispatch_run (m : Machine) :
  SameInterruptCheck_dispatch E m = (Ret tt, on_radio (dispatched E) m).
Proof.
  unfold SameInterruptCheck_dispatch, dispatched, dispatch_event, on_radio.
  unfold bind, update, read, on_radio. cbn [radio self].
  change (buffer (set_same_timeout PosInf (radio m))) with (buffer (radio m)).
  destruct (buffer (radio m)) as [|x l] eqn:Hbuf.
  - reflexivity.
  - cbn [length when]. 
    change (0 <? Z.of_nat (S (length l))) with true. cbv iota.
    unfold bind, update, same_messages_renew, try_except_ValueError, radio_fire_event,
      update, bind, on_radio.
    cbn [radio self].
    destruct (SAMEMessage_valid E (average_message E (x :: l))); reflexivity.
Qed.

Lemma do_command0_phases (fuel : nat) (m : Machine) status intack clearbuf dispatch_message :
  fields (self m) = FSameInterruptCheck status intack clearbuf dispatch_message ->
  do_command0 E fuel m =
  (SameInterruptCheck_poll E fuel intack clearbuf dispatch_message ;; ret VNone)
    (after_dispatch E dispatch_message m).
Proof.
  intros Hf.
  unfold do_command0, bind at 1, read_self. rewrite Hf.
  unfold SameInterruptCheck_do_command0, bind at 1, read_self. rewrite Hf.
  unfold bind at 1, after_dispatch.
  destruct dispatch_message; simpl when.
  - rewrite dispatch_run. reflexivity.
  - reflexivity.
Qed.

End Dispatch.

Section DispatchClaim.

Variable E : Env.

Ltac unfold_poll :=
  unfold SameInterruptCheck_poll, SameInterruptCheck_end_of_message,
    SameInterruptCheck_preamble, SameInterruptCheck_header_ready,
    same_messages_append, radio_fire_event, time_time, chr.

(** The status poll and the flag-driven processing never call the decoder. *)
Lemma poll_keeps_averaged (fuel : nat) (intack clearbuf dispatch_message : bool) :
  keeps (fun m => averaged (radio m))
    (SameInterruptCheck_poll E fuel intack clearbuf dispatch_message).
Proof.
  assert (forall l m, averaged (radio (on_radio (set_io l) m)) = averaged (radio m))
    as Hio by reflexivity.
  pose proof (keeps_get_status E _ Hio).
  pose proof (keeps_read_more E _ Hio).
  unfold_poll. keeps_auto.
Qed.

(** Without interrupt acknowledge, the poll changes nothing but the I/O log
    and the [status] attribute of the command. *)
Lemma poll_without_intack (fuel : nat) (clearbuf dispatch_message : bool) (m : Machine) :
  let m' := snd (SameInterruptCheck_poll E fuel false clearbuf dispatch_message m) in
  same_timeout (radio m') = same_timeout (radio m) /\
  same_messages (radio m') = same_messages (radio m) /\
  heap (radio m') = heap (radio m) /\
  fired (radio m') = fired (radio m) /\
  last_EOM (radio m') = last_EOM (radio m) /\
  ticks (radio m') = ticks (radio m).
Proof.
  set (view := fun m : Machine =>
    (same_timeout (radio m), same_messages (radio m), heap (radio m),
     fired (radio m), last_EOM (radio m), ticks (radio m))).
  assert (keeps view (SameInterruptCheck_poll E fuel false clearbuf dispatch_message)) as K.
  { assert (forall l m, view (on_radio (set_io l) m) = view m) as Hio by reflexivity.
    pose proof (keeps_get_status E _ Hio).
    unfold SameInterruptCheck_poll. cbn [when]. keeps_auto. }
  specialize (K m). unfold view in K. simpl. 
  injection K as -> -> -> -> -> ->. repeat split.
Qed.

(** What the status poll and the flag-driven processing may raise: the
    [IndexError] of a short read and the two errors of [chr]. *)
Lemma poll_raises (fuel : nat) (intack clearbuf dispatch_message : bool) :
  raises_only (fun e => e = IndexError \/ e = ValueError ChrOutOfRange \/ e = OverflowError)
    (SameInterruptCheck_poll E fuel intack clearbuf dispatch_message).
Proof.
  set (allowed := fun e => e = IndexError \/ e = ValueError ChrOutOfRange \/
                           e = OverflowError).
  assert (forall readaddr c i,
            raises_only allowed (SameInterruptCheck_get_status E readaddr c i)) as Hgs.
  { intros readaddr c i.
    unfold SameInterruptCheck_get_status, hardware_io_writeList,
      radio_wait_for_clear_to_send, hardware_io_readList, log_io, decode_status,
      confidence_of, getitem, allowed.
    raises_auto. }
  assert (forall n msg_len msg conf,
            raises_only allowed (SameInterruptCheck_read_more E n msg_len msg conf)) as Hrm.
  { induction n as [|n IH]; intros msg_len msg conf; simpl; raises_auto. }
  unfold_poll. unfold allowed in *. raises_auto.
Qed.

(** C2. A [SameInterruptCheck] with [dispatch_message] set first runs the
    dispatch block, which always returns: in the state [m1] it leaves, the
    deadline [same_timeout] is infinite; a buffer that was not empty has been
    handed whole to the decoder in one call, a new empty buffer is in place,
    and one event was fired, the decoded message or, when the decoder rejects
    it, the malformed-message event holding the receptions themselves; an
    empty buffer causes no call and no event. The rest of the command makes
    no further call of the decoder, the command never raises the rejection
    of the decoder, and without interrupt acknowledge it leaves deadline,
    buffer and events as the dispatch block left them. *)
Theorem dispatch_request (fuel : nat) (m : Machine) status intack clearbuf :
  fields (self m) = FSameInterruptCheck status intack clearbuf true ->
  let m1 := on_radio (dispatched E) m in
  let final := snd (do_command0 E fuel m) in
  let messages := buffer (radio m) in
  SameInterruptCheck_dispatch E m = (Ret tt, m1) /\
  do_command0 E fuel m =
    (SameInterruptCheck_poll E fuel intack clearbuf true ;; ret VNone) m1 /\
  same_timeout (radio m1) = PosInf /\
  (messages <> [] ->
     averaged (radio m1) = averaged (radio m) ++ [messages] /\
     buffer (radio m1) = [] /\
     deref (radio m1) (same_messages (radio m)) = messages /\
     (if SAMEMessage_valid E (average_message E messages)
      then fired (radio m1) =
           fired (radio m) ++ [SAMEMessageReceivedEvent (average_message E messages)]
      else fired (radio m1) =
           fired (radio m) ++ [InvalidSAMEMessageReceivedEvent (same_messages (radio m))])) /\
  (messages = [] ->
     averaged (radio m1) = averaged (radio m) /\
     fired (radio m1) = fired (radio m) /\
     buffer (radio m1) = []) /\
  averaged (radio final) = averaged (radio m1) /\
  fst (do_command0 E fuel m) <> Raise (ValueError SAMEMessageRejected) /\
  (intack = false ->
     same_timeout (radio final) = PosInf /\
     buffer (radio final) = buffer (radio m1) /\
     fired (radio final) = fired (radio m1)).
Proof.
  intros Hf m1 final messages.
  assert (do_command0 E fuel m =
    (SameInterruptCheck_poll E fuel intack clearbuf true ;; ret VNone) m1) as Hrun.
  { apply (do_command0_phases E fuel m status intack clearbuf true Hf). }
  assert (same_timeout (radio m1) = PosInf) as Hinf.
  { unfold m1, on_radio, dispatched. cbn [radio].
    destruct (buffer (radio m)); reflexivity. }
  split; [apply dispatch_run|].
  split; [exact Hrun|].
  split; [exact Hinf|].
  split; [|split; [|split; [|split]]].
  - intros Hne. unfold m1, on_radio, dispatched, dispatch_event. cbn [radio].
    fold messages.
    assert (exists a, heap (radio m) !! same_messages (radio m) = Some a /\ messages = a)
      as (a & Ha & Hma).
    { unfold messages, buffer, deref in *.
      destruct (heap (radio m) !! same_messages (radio m)) as [a|]; [eauto|].
      contradiction Hne; reflexivity. }
    destruct messages as [|x l] eqn:Hm; [contradiction Hne; reflexivity|].
    cbn [averaged set_fired set_same_messages set_heap set_averaged set_same_timeout].
    split; [reflexivity|].
    split.
    { unfold buffer, deref.
      cbn [heap same_messages set_fired set_same_messages set_heap set_averaged
           set_same_timeout].
      rewrite lookup_app_r by lia. rewrite Nat.sub_diag. reflexivity. }
    split.
    { unfold deref.
      cbn [heap same_messages set_fired set_same_messages set_heap set_averaged
           set_same_timeout].
      rewrite lookup_app_l by (eapply lookup_lt_Some; exact Ha).
      rewrite Ha. symmetry. exact Hma. }
    destruct (SAMEMessage_valid E (average_message E (x :: l))); reflexivity.
  - intros Hempty. unfold m1, on_radio, dispatched. cbn [radio].
    fold messages. rewrite Hempty.
    repeat split. unfold buffer. cbn [same_messages heap set_same_timeout].
    exact Hempty.
  - unfold final. rewrite Hrun.
    pose proof (poll_keeps_averaged fuel intack clearbuf true m1) as K.
    unfold bind.
    destruct (SameInterruptCheck_poll E fuel intack clearbuf true m1) as [[[]|e|] m2];
      exact K.
  - rewrite Hrun. unfold bind.
    pose proof (poll_raises fuel intack clearbuf true m1) as R.
    destruct (SameInterruptCheck_poll E fuel intack clearbuf true m1) as [[[]|e|] m2];
      cbn [fst] in *; try discriminate.
    intros He. injection He as ->.
    destruct (R _ eq_refl) as [H|[H|H]]; discriminate H.
  - intros ->. unfold final. rewrite Hrun.
    pose proof (poll_without_intack fuel clearbuf true m1) as K.
    cbv zeta in K. unfold bind.
    destruct (SameInterruptCheck_poll E fuel false clearbuf true m1) as [[[]|e|] m2];
      unfold ret; cbn [snd] in *; destruct K as (K1 & K2 & K3 & K4 & _);
      unfold buffer, deref; rewrite K1, K2, K3, K4; auto.
Qed.

End DispatchClaim.

(** ** End of message (C3) *)

Lemma Qgtb_true (x y : Q) : Qgtb x y = true <-> (y < x)%Q.
Proof.
  unfold Qgtb. rewrite negb_true_iff, <- not_true_iff_false, Qle_bool_iff.
  split; [apply Qnot_le_lt | apply Qlt_not_le].
Qed.

Lemma Qgtb_false (x y : Q) : Qgtb x y = false <-> (x <= y)%Q.
Proof.
  unfold Qgtb. rewrite negb_false_iff, Qle_bool_iff. reflexivity.
Qed.

Section EndOfMessage.

Variable E : Env.

Lemma end_of_message_run (m : Machine) :
  SameInterruptCheck_end_of_message E m = (Ret tt, on_radio (end_of_message_handled E) m).
Proof.
  unfold SameInterruptCheck_end_of_message, end_of_message_handled, on_radio.
  unfold bind, update, time_time, read, on_radio. cbn [radio self ticks last_EOM
    set_same_timeout set_ticks].
  destruct (Qgtb (clock E (ticks (radio m)) - last_EOM (radio m)) 5); reflexivity.
Qed.

Lemma poll_end_of_message (fuel : nat) (clearbuf dispatch_message : bool) (m : Machine) :
  (6 <= polled_length E clearbuf true m)%nat ->
  EOMDET (polled_status E clearbuf true m) = true ->
  SameInterruptCheck_poll E fuel true clearbuf dispatch_message m =
  (Ret tt,
   on_radio (end_of_message_handled E)
     (on_self (set_fields (FSameInterruptCheck (Some (polled_status E clearbuf true m))
                             true clearbuf dispatch_message))
        (on_radio (set_io (io (radio m) ++
                           status_exchange (value (self m)) 0 clearbuf true)) m))).
Proof.
  intros Hlen Heom.
  unfold SameInterruptCheck_poll, bind at 1.
  rewrite get_status_run by exact Hlen.
  fold (polled_status E clearbuf true m). rewrite Heom.
  unfold bind, update_self, when. rewrite end_of_message_run. reflexivity.
Qed.

End EndOfMessage.

Section EndOfMessageClaim.

Variable E : Env.

(** The dispatch block fires no end-of-message notification and reads no clock. *)
Lemma after_dispatch_fired (dispatch_message : bool) (m : Machine) :
  let m0 := after_dispatch E dispatch_message m in
  (exists pre, fired (radio m0) = fired (radio m) ++ pre /\ eom_count pre = 0%nat) /\
  ticks (radio m0) = ticks (radio m) /\
  last_EOM (radio m0) = last_EOM (radio m).
Proof.
  unfold after_dispatch, on_radio, dispatched, dispatch_event.
  destruct dispatch_message; cbn [radio].
  - destruct (buffer (radio m)).
    + split; [exists []|split; reflexivity].
      split; [symmetry; apply app_nil_r|reflexivity].
    + split; [|split; reflexivity].
      destruct (SAMEMessage_valid E (average_message E (r :: l)));
        eexists; (split; [reflexivity|reflexivity]).
  - split; [exists []|split; reflexivity].
    split; [symmetry; apply app_nil_r|reflexivity].
Qed.

(** One handling of EOMDET. *)
Lemma end_of_message_handling (fuel : nat) (m : Machine) :
  detects_end_of_message E m ->
  let m1 := snd (do_command0 E fuel m) in
  let now := clock E (ticks (radio m)) in
  fst (do_command0 E fuel m) = Ret VNone /\
  same_timeout (radio m1) = Fin 0 /\
  (if Qgtb (now - last_EOM (radio m)) 5
   then eom_count (emitted (radio m) (radio m1)) = 1%nat /\
        last_EOM (radio m1) = clock E (S (ticks (radio m)))
   else eom_count (emitted (radio m) (radio m1)) = 0%nat /\
        last_EOM (radio m1) = last_EOM (radio m)).
Proof.
  intros (status & clearbuf & dispatch_message & Hf & Hlen & Heom) m1 now.
  pose proof (do_command0_phases E fuel m _ _ _ _ Hf) as Hrun.
  unfold bind in Hrun.
  rewrite (poll_end_of_message E fuel clearbuf dispatch_message _ Hlen Heom) in Hrun.
  unfold m1. rewrite Hrun. clear Hrun. unfold ret. cbn [fst snd].
  destruct (after_dispatch_fired dispatch_message m) as ((pre & Hpre & Hcount) & Hticks & Hlast).
  cbv zeta in Hpre, Hticks, Hlast.
  set (m0 := after_dispatch E dispatch_message m) in *.
  unfold on_radio, on_self, end_of_message_handled. cbn [radio self].
  cbn [ticks last_EOM set_io]. rewrite Hticks, Hlast. fold now.
  split; [reflexivity|].
  unfold emitted.
  destruct (Qgtb (now - last_EOM (radio m)) 5);
    cbn [same_timeout fired last_EOM set_fired set_last_EOM set_ticks set_same_timeout
         set_io];
    (split; [reflexivity|]); rewrite ?Hticks, ?Hlast;
    (split; [|reflexivity]); rewrite Hpre.
  - rewrite <- app_assoc, drop_app_length.
    unfold eom_count in *. rewrite filter_app, length_app, Hcount. reflexivity.
  - rewrite drop_app_length. exact Hcount.
Qed.

(** C3, as the code has it. Every handling of EOMDET returns and sets the
    deadline to 0; it notifies, and stamps [last_EOM], exactly when the clock
    is more than 5 seconds past the stamp of the last notification, and
    otherwise does neither. So, of two handlings with no stamp taken in
    between: when the first notifies, one notification is emitted for the
    pair if the second comes within 5 seconds of the stamp of the first, and
    two if it comes later; when the first itself comes within 5 seconds of
    the last notification, it is silent, and the pair emits none if the
    second comes within these 5 seconds too, and one if it comes later. *)
Theorem end_of_message_once_per_5s (fuel fuel' : nat) (m m' : Machine) :
  detects_end_of_message E m ->
  detects_end_of_message E m' ->
  let m1 := snd (do_command0 E fuel m) in
  let m2 := snd (do_command0 E fuel' m') in
  let now := clock E (ticks (radio m)) in
  let now' := clock E (ticks (radio m')) in
  let first := eom_count (emitted (radio m) (radio m1)) in
  let second := eom_count (emitted (radio m') (radio m2)) in
  last_EOM (radio m') = last_EOM (radio m1) ->
  fst (do_command0 E fuel m) = Ret VNone /\
  fst (do_command0 E fuel' m') = Ret VNone /\
  same_timeout (radio m1) = Fin 0 /\
  same_timeout (radio m2) = Fin 0 /\
  ((now - last_EOM (radio m) > 5)%Q ->
   first = 1%nat /\ last_EOM (radio m1) = clock E (S (ticks (radio m))) /\
   ((now' - last_EOM (radio m1) <= 5)%Q -> (first + second)%nat = 1%nat) /\
   ((now' - last_EOM (radio m1) > 5)%Q -> (first + second)%nat = 2%nat)) /\
  ((now - last_EOM (radio m) <= 5)%Q ->
   first = 0%nat /\ last_EOM (radio m1) = last_EOM (radio m) /\
   ((now' - last_EOM (radio m) <= 5)%Q -> (first + second)%nat = 0%nat) /\
   ((now' - last_EOM (radio m) > 5)%Q -> (first + second)%nat = 1%nat)).
Proof.
  intros Hd Hd' m1 m2 now now' first second Hbetween.
  destruct (end_of_message_handling fuel m Hd) as (Hret & Hzero & Hcase).
  destruct (end_of_message_handling fuel' m' Hd') as (Hret' & Hzero' & Hcase').
  fold m1 in Hzero, Hcase. fold m2 in Hzero', Hcase'.
  fold now in Hcase. fold now' in Hcase'.
  fold first in Hcase. fold second in Hcase'.
  rewrite Hbetween in Hcase'.
  repeat (split; [assumption|]).
  split; intros Hfirst.
  - apply Qgtb_true in Hfirst. rewrite Hfirst in Hcase.
    destruct Hcase as (Hone & Hstamp).
    split; [exact Hone|]. split; [exact Hstamp|].
    rewrite Hone.
    split; intros Hwhen.
    + apply Qgtb_false in Hwhen. rewrite Hwhen in Hcase'.
      destruct Hcase' as (-> & _). reflexivity.
    + apply Qgtb_true in Hwhen. rewrite Hwhen in Hcase'.
      destruct Hcase' as (-> & _). reflexivity.
  - apply Qgtb_false in Hfirst. rewrite Hfirst in Hcase.
    destruct Hcase as (Hnone & Hstamp).
    split; [exact Hnone|]. split; [exact Hstamp|].
    rewrite Hnone, Hstamp in *.
    split; intros Hwhen.
    + apply Qgtb_false in Hwhen. rewrite Hwhen in Hcase'.
      destruct Hcase' as (-> & _). reflexivity.
    + apply Qgtb_true in Hwhen. rewrite Hwhen in Hcase'.
      destruct Hcase' as (-> & _). reflexivity.
Qed.

End EndOfMessageClaim.

(** ** Header ready (C1) *)

Lemma on_radio_set_io_id (m : Machine) : on_radio (set_io (io (radio m))) m = m.
Proof. destruct m as [s r]. destruct r. reflexivity. Qed.

Lemma reads_needed_done (msg_len len : Z) :
  msg_len <= len -> reads_needed msg_len len = 0%nat.
Proof.
  intros H. unfold reads_needed.
  assert ((msg_len - len + 7) / 8 < 1) by (apply Z.div_lt_upper_bound; lia).
  lia.
Qed.

Lemma reads_needed_more (msg_len len : Z) :
  len < msg_len -> reads_needed msg_len len = S (reads_needed msg_len (len + 8)).
Proof.
  intros H. unfold reads_needed.
  replace (msg_len - len + 7) with ((msg_len - (len + 8) + 7) + 1 * 8) by lia.
  rewrite Z.div_add by lia.
  assert (0 <= (msg_len - (len + 8) + 7) / 8) by (apply Z.div_pos; lia).
  lia.
Qed.

Section HeaderReady.

Variable E : Env.

Hypothesis answers : answers_status_reads E.

Lemma exchange_answered (log : list IoOp) (v readaddr : Z) (clearbuf intack : bool) :
  length (chip E (log ++ status_exchange v readaddr clearbuf intack)) = 14%nat /\
  Forall (fun b => 0 <= b < 256) (chip E (log ++ status_exchange v readaddr clearbuf intack)).
Proof.
  unfold status_exchange.
  change [writeList v [status_request clearbuf intack; readaddr];
          wait_for_clear_to_send; readList 0 14]
    with ([writeList v [status_request clearbuf intack; readaddr];
           wait_for_clear_to_send] ++ [readList 0 14]).
  rewrite app_assoc. apply answers.
Qed.

Lemma get_status_answered (readaddr : Z) (clearbuf intack : bool) (m : Machine) :
  let log := io (radio m) ++ status_exchange (value (self m)) readaddr clearbuf intack in
  SameInterruptCheck_get_status E readaddr clearbuf intack m =
  (Ret (status_of (chip E log)), on_radio (set_io log) m).
Proof.
  intros log. apply get_status_run.
  destruct (exchange_answered (io (radio m)) (value (self m)) readaddr clearbuf intack)
    as [-> _]. lia.
Qed.

Lemma MESSAGE_length (data : list Z) :
  length data = 14%nat -> length (MESSAGE (status_of data)) = 8%nat.
Proof.
  intros H. unfold status_of, slice. cbn [MESSAGE].
  rewrite length_take, length_drop, H. reflexivity.
Qed.

Lemma MESSAGE_bytes (data : list Z) :
  Forall (fun b => 0 <= b < 256) data ->
  Forall (fun b => 0 <= b < 256) (MESSAGE (status_of data)).
Proof.
  intros H. unfold status_of, slice. cbn [MESSAGE].
  apply Forall_take, Forall_drop, H.
Qed.

Lemma CONFIDENCE_length (data : list Z) : length (CONFIDENCE (status_of data)) = 8%nat.
Proof. reflexivity. Qed.

Lemma further_reads_log (k : nat) (v off : Z) (log : list IoOp) (msg conf : list Z) :
  snd (further_reads E k v off log msg conf) =
  log ++ flat_map (fun j => status_exchange v (off + 8 * Z.of_nat j) false false) (seq 0 k).
Proof.
  revert off log msg conf. induction k as [|k IH]; intros off log msg conf.
  - simpl. symmetry. apply app_nil_r.
  - cbn [further_reads]. rewrite IH.
    cbn [seq flat_map]. rewrite <- app_assoc.
    replace (off + 8 * Z.of_nat 0) with off by lia.
    do 2 f_equal.
    rewrite <- seq_shift.
    rewrite (flat_map_concat_map _ (map S _)), map_map, <- flat_map_concat_map.
    apply flat_map_ext. intros j. f_equal. lia.
Qed.

Lemma further_reads_lengths (k : nat) (v off : Z) (log : list IoOp) (msg conf : list Z) :
  length (fst (fst (further_reads E k v off log msg conf))) = (length msg + 8 * k)%nat /\
  length (snd (fst (further_reads E k v off log msg conf))) = (length conf + 8 * k)%nat.
Proof.
  revert off log msg conf. induction k as [|k IH]; intros off log msg conf.
  - simpl. lia.
  - cbn [further_reads].
    destruct (IH (off + 8) (log ++ status_exchange v off false false)
                (msg ++ MESSAGE (status_of (chip E (log ++ status_exchange v off false false))))
                (conf ++ CONFIDENCE (status_of (chip E (log ++ status_exchange v off false false)))))
      as [-> ->].
    rewrite !length_app, CONFIDENCE_length, MESSAGE_length
      by apply exchange_answered.
    lia.
Qed.

Lemma further_reads_bytes (k : nat) (v off : Z) (log : list IoOp) (msg conf : list Z) :
  Forall (fun b => 0 <= b < 256) msg ->
  Forall (fun b => 0 <= b < 256) (fst (fst (further_reads E k v off log msg conf))).
Proof.
  revert off log msg conf. induction k as [|k IH]; intros off log msg conf Hmsg.
  - exact Hmsg.
  - cbn [further_reads]. apply IH.
    apply Forall_app. split; [exact Hmsg|].
    apply MESSAGE_bytes, exchange_answered.
Qed.

(** The [while] loop makes exactly the reads that are needed, at the offsets
    eight apart, when it has the fuel for them. *)
Lemma read_more_run (k fuel : nat) (msg_len : Z) (msg conf : list Z) (m : Machine) :
  reads_needed msg_len (Z.of_nat (length msg)) = k ->
  (k <= fuel)%nat ->
  SameInterruptCheck_read_more E fuel msg_len msg conf m =
  let res := further_reads E k (value (self m)) (Z.of_nat (length msg)) (io (radio m))
               msg conf in
  (Ret (fst res), on_radio (set_io (snd res)) m).
Proof.
  revert fuel msg conf m. induction k as [|k IH]; intros fuel msg conf m Hk Hfuel.
  - assert ((Z.of_nat (length msg) <? msg_len) = false) as Hdone.
    { apply Z.ltb_ge. destruct (Z.lt_ge_cases (Z.of_nat (length msg)) msg_len) as [Hlt|]; [|lia].
      rewrite reads_needed_more in Hk by exact Hlt. discriminate. }
    destruct fuel; cbn [SameInterruptCheck_read_more further_reads fst snd];
      rewrite Hdone, on_radio_set_io_id; reflexivity.
  - assert (Z.of_nat (length msg) < msg_len) as Hlt.
    { destruct (Z.lt_ge_cases (Z.of_nat (length msg)) msg_len) as [|Hge]; [assumption|].
      rewrite reads_needed_done in Hk by lia. discriminate. }
    destruct fuel as [|fuel]; [lia|].
    cbn [SameInterruptCheck_read_more].
    apply Z.ltb_lt in Hlt as Hltb. rewrite Hltb.
    unfold bind at 1. rewrite get_status_answered.
    cbn [further_reads].
    set (log' := io (radio m) ++
                 status_exchange (value (self m)) (Z.of_nat (length msg)) false false).
    set (st := status_of (chip E log')).
    rewrite (IH fuel (msg ++ MESSAGE st) (conf ++ CONFIDENCE st) (on_radio (set_io log') m)).
    + cbn [value self on_radio io radio set_io].
      replace (Z.of_nat (length (msg ++ MESSAGE st))) with (Z.of_nat (length msg) + 8).
      * reflexivity.
      * rewrite length_app. unfold st. rewrite MESSAGE_length by apply exchange_answered.
        lia.
    + rewrite length_app. unfold st. rewrite MESSAGE_length by apply exchange_answered.
      rewrite reads_needed_more in Hk by exact Hlt.
      replace (Z.of_nat (length msg + 8)) with (Z.of_nat (length msg) + 8) by lia.
      lia.
    + lia.
Qed.

Lemma mapM_chr_bytes (l : list Z) (m : Machine) :
  Forall (fun b => 0 <= b < 256) l -> mapM chr l m = (Ret l, m).
Proof.
  induction 1 as [|b l Hb _ IH]; [reflexivity|].
  cbn [mapM]. unfold bind, chr in *.
  replace ((0 <=? b) && (b <? 1114112)) with true by lia.
  unfold ret at 1. cbv beta iota. rewrite IH. reflexivity.
Qed.

Lemma slice_to_bytes (l : list Z) (stop : Z) :
  Forall (fun b => 0 <= b < 256) l -> Forall (fun b => 0 <= b < 256) (slice_to l stop).
Proof. intros H. unfold slice_to. destruct (stop <? 0); apply Forall_take, H. Qed.

Lemma header_ready_run (fuel : nat) (status : Status) (m : Machine) :
  length (MESSAGE status) = 8%nat ->
  Forall (fun b => 0 <= b < 256) (MESSAGE status) ->
  (reads_needed (MSGLEN status) 8 <= fuel)%nat ->
  SameInterruptCheck_header_ready E fuel status m =
  (Ret tt, on_radio (header_received E (value (self m)) status) m).
Proof.
  intros Hlen Hbytes Hfuel.
  unfold SameInterruptCheck_header_ready, bind at 1.
  rewrite (read_more_run (reads_needed (MSGLEN status) 8)) by (rewrite ?Hlen; auto).
  rewrite Hlen. change (Z.of_nat 8) with 8. cbv zeta.
  set (res := further_reads E _ _ _ _ _ _).
  unfold bind at 1.
  rewrite mapM_chr_bytes
    by (apply slice_to_bytes; unfold res; apply further_reads_bytes, Hbytes).
  unfold bind at 1, same_messages_append, update. unfold bind at 1.
  rewrite get_status_answered.
  unfold header_received. fold res.
  reflexivity.
Qed.

Lemma MSGLEN_byte (data : list Z) :
  length data = 14%nat -> Forall (fun b => 0 <= b < 256) data ->
  0 <= MSGLEN (status_of data) < 256.
Proof.
  intros Hlen Hall.
  do 4 (destruct data as [|? data]; [discriminate Hlen|]).
  cbn [MSGLEN status_of nth].
  do 3 apply Forall_cons in Hall as [_ Hall].
  apply Forall_cons in Hall as [Hb _]. exact Hb.
Qed.

Lemma poll_header_ready (fuel : nat) (clearbuf dispatch_message : bool) (m : Machine) :
  let st := polled_status E clearbuf true m in
  EOMDET st = false -> PREDET st = false -> HDRRDY st = true ->
  (reads_needed (MSGLEN st) 8 <= fuel)%nat ->
  SameInterruptCheck_poll E fuel true clearbuf dispatch_message m =
  (Ret tt,
   on_radio (header_received E (value (self m)) st)
     (on_self (set_fields (FSameInterruptCheck (Some st) true clearbuf dispatch_message))
        (on_radio (set_io (io (radio m) ++
                           status_exchange (value (self m)) 0 clearbuf true)) m))).
Proof.
  intros st Heom Hpre Hhdr Hfuel.
  unfold SameInterruptCheck_poll, bind at 1.
  rewrite get_status_answered.
  fold (polled_status E clearbuf true m). fold st.
  rewrite Heom, Hpre, Hhdr.
  unfold bind, update_self, when.
  rewrite header_ready_run; [reflexivity| | |exact Hfuel].
  - apply MESSAGE_length, exchange_answered.
  - apply MESSAGE_bytes, exchange_answered.
Qed.

(** What the handling of HDRRDY does, to the letter: the slice
    [msg[0:msg_len + 1]] keeps one element more than the declared length
    whenever more than the declared length was assembled. *)
Lemma header_ready_effect (fuel : nat) (m : Machine) status clearbuf dispatch_message :
  fields (self m) = FSameInterruptCheck status true clearbuf dispatch_message ->
  let m0 := after_dispatch E dispatch_message m in
  let st := polled_status E clearbuf true m0 in
  HDRRDY st = true -> EOMDET st = false -> PREDET st = false ->
  (same_messages (radio m0) < length (heap (radio m0)))%nat ->
  let k := reads_needed (MSGLEN st) 8 in
  (k <= fuel)%nat ->
  let v := value (self m) in
  let log0 := io (radio m0) ++ status_exchange v 0 clearbuf true in
  let assembled := fst (further_reads E k v 8 log0 (MESSAGE st) (CONFIDENCE st)) in
  let final := snd (do_command0 E fuel m) in
  fst (do_command0 E fuel m) = Ret VNone /\
  io (radio final) =
    log0 ++
    flat_map (fun j => status_exchange v (8 + 8 * Z.of_nat j) false false) (seq 0 k) ++
    status_exchange v 0 true false /\
  (forall j, (j < k)%nat -> 8 + 8 * Z.of_nat j < MSGLEN st) /\
  MSGLEN st <= Z.of_nat (length (fst assembled)) /\
  length (snd assembled) = length (fst assembled) /\
  0 <= MSGLEN st /\
  buffer (radio final) =
    buffer (radio m0) ++ [(take (Z.to_nat (MSGLEN st + 1)) (fst assembled),
                           take (Z.to_nat (MSGLEN st + 1)) (snd assembled))] /\
  same_messages (radio final) = same_messages (radio m0) /\
  fired (radio final) = fired (radio m0) ++ [SAMEHeaderReceived (same_messages (radio final))] /\
  same_timeout (radio final) = Fin (clock E (ticks (radio m0)) + 6).
Proof.
  intros Hf m0 st Hhdr Heom Hpre Hwf k Hfuel v log0 assembled final.
  assert (value (self m0) = v) as Hv.
  { unfold m0, after_dispatch. destruct dispatch_message; reflexivity. }
  pose proof (do_command0_phases E fuel m _ _ _ _ Hf) as Hrun.
  fold m0 in Hrun. unfold bind in Hrun.
  rewrite (poll_header_ready fuel clearbuf dispatch_message m0 Heom Hpre Hhdr Hfuel)
    in Hrun.
  unfold final. rewrite Hrun. clear Hrun.
  unfold ret, on_radio, on_self, header_received. cbn [fst snd radio self].
  cbn [io ticks fired heap same_messages buffer set_io].
  rewrite Hv. fold st k log0.
  change (buffer (set_io log0 (radio m0))) with (buffer (radio m0)).
  destruct (MSGLEN_byte _ (proj1 (exchange_answered (io (radio m0)) v 0 clearbuf true))
              (proj2 (exchange_answered (io (radio m0)) v 0 clearbuf true)))
    as [Hlen0 _].
  rewrite <- Hv in Hlen0 at 1. fold (polled_status E clearbuf true m0) in Hlen0.
  fold st in Hlen0.
  destruct (further_reads_lengths k v 8 log0 (MESSAGE st) (CONFIDENCE st)) as [Lm Lc].
  fold assembled in Lm, Lc.
  assert (length (MESSAGE st) = 8%nat) as Hm8.
  { unfold st, polled_status. apply MESSAGE_length, exchange_answered. }
  rewrite Hm8 in Lm. change (length (CONFIDENCE st)) with 8%nat in Lc.
  assert (Z.of_nat k = (MSGLEN st - 1) / 8 \/ (k = 0%nat /\ MSGLEN st <= 8)) as Hk.
  { unfold k, reads_needed.
    replace (MSGLEN st - 8 + 7) with (MSGLEN st - 1) by lia.
    destruct (Z.le_gt_cases 0 ((MSGLEN st - 1) / 8)) as [Hpos|Hneg].
    - left. lia.
    - right. split; [lia|].
      destruct (Z.le_gt_cases (MSGLEN st) 8); [assumption|].
      assert (1 <= (MSGLEN st - 1) / 8) by (apply Z.div_le_lower_bound; lia). lia. }
  split; [reflexivity|].
  split.
  { cbn [io set_same_timeout set_ticks set_fired set_io].
    rewrite further_reads_log, <- app_assoc. reflexivity. }
  split.
  { intros j Hj.
    destruct Hk as [Hk|[Hk _]]; [|lia].
    pose proof (Z.mul_div_le (MSGLEN st - 1) 8). lia. }
  split.
  { rewrite Lm.
    destruct Hk as [Hk|[Hk Hle]]; [|lia].
    pose proof (Z.mod_pos_bound (MSGLEN st - 1) 8).
    pose proof (Z.div_mod (MSGLEN st - 1) 8). lia. }
  split; [lia|].
  split; [exact Hlen0|].
  split.
  { unfold slice_to. replace (MSGLEN st + 1 <? 0) with false by lia.
    unfold buffer, deref.
    cbn [heap same_messages set_same_timeout set_ticks set_fired set_io set_heap].
    rewrite list_lookup_insert_eq by exact Hwf.
    reflexivity. }
  split; [reflexivity|].
  split; reflexivity.
Qed.


(** C1, as the code has it. A poll with interrupt acknowledge that decodes
    HDRRDY, and neither EOMDET nor PREDET, returns, given fuel for its loop,
    after: the further status reads its loop needs, at the offsets 8, 16, ...,
    each made while the assembled length was short of the declared one, so
    that the assembled symbols reach the declared length; cutting symbols and
    confidences to a common length that covers the declared one; appending
    the pair to the buffer in place; one more exchange with the clear-buffer
    argument; firing the header-received event, which holds the buffer itself;
    and setting the deadline six seconds after the clock reading. *)
Theorem header_ready_poll (fuel : nat) (m : Machine) status clearbuf dispatch_message :
  fields (self m) = FSameInterruptCheck status true clearbuf dispatch_message ->
  let m0 := after_dispatch E dispatch_message m in
  let st := polled_status E clearbuf true m0 in
  HDRRDY st = true -> EOMDET st = false -> PREDET st = false ->
  (same_messages (radio m0) < length (heap (radio m0)))%nat ->
  let k := reads_needed (MSGLEN st) 8 in
  (k <= fuel)%nat ->
  let v := value (self m) in
  let log0 := io (radio m0) ++ status_exchange v 0 clearbuf true in
  let assembled := fst (further_reads E k v 8 log0 (MESSAGE st) (CONFIDENCE st)) in
  let final := snd (do_command0 E fuel m) in
  fst (do_command0 E fuel m) = Ret VNone /\
  io (radio final) =
    log0 ++
    flat_map (fun j => status_exchange v (8 + 8 * Z.of_nat j) false false) (seq 0 k) ++
    status_exchange v 0 true false /\
  (forall j, (j < k)%nat -> 8 + 8 * Z.of_nat j < MSGLEN st) /\
  MSGLEN st <= Z.of_nat (length (fst assembled)) /\
  length (snd assembled) = length (fst assembled) /\
  (exists n : nat,
     MSGLEN st <= Z.of_nat n /\
     buffer (radio final) =
       buffer (radio m0) ++ [(take n (fst assembled), take n (snd assembled))]) /\
  same_messages (radio final) = same_messages (radio m0) /\
  fired (radio final) = fired (radio m0) ++ [SAMEHeaderReceived (same_messages (radio final))] /\
  same_timeout (radio final) = Fin (clock E (ticks (radio m0)) + 6).
Proof.
  intros Hf m0 st Hhdr Heom Hpre Hwf k Hfuel v log0 assembled final.
  destruct (header_ready_effect fuel m status clearbuf dispatch_message
              Hf Hhdr Heom Hpre Hwf Hfuel)
    as (Hret & Hio & Hshort & Hreach & Hsame & Hpos & Hbuffer & Href & Hfired & Hdeadline).
  split; [exact Hret|].
  split; [exact Hio|].
  split; [exact Hshort|].
  split; [exact Hreach|].
  split; [exact Hsame|].
  split.
  { exists (Z.to_nat (MSGLEN st + 1)). split; [fold st in Hpos; lia|exact Hbuffer]. }
  split; [exact Href|].
  split; [exact Hfired|exact Hdeadline].
Qed.

End HeaderReady.

(** ** Polls without interrupt acknowledge (C10) *)

Section WithoutIntack.

Variable E : Env.

Lemma get_status_io (readaddr : Z) (clearbuf intack : bool) (m : Machine) :
  io (radio (snd (SameInterruptCheck_get_status E readaddr clearbuf intack m))) =
  io (radio m) ++ status_exchange (value (self m)) readaddr clearbuf intack.
Proof.
  unfold SameInterruptCheck_get_status, bind, read_self, hardware_io_writeList,
    radio_wait_for_clear_to_send, hardware_io_readList, log_io, update, read, bind,
    on_radio.
  cbn [self radio io set_io value].
  pose proof (keeps_decode_status (fun m : Machine => io (radio m))) as K.
  match goal with
  | |- context [decode_status ?d ?m1] =>
      specialize (K d m1); destruct (decode_status d m1) as [[st| |] m2]
  end; cbn [snd] in *; rewrite K; cbn [radio io];
    unfold status_exchange; rewrite <- !app_assoc; reflexivity.
Qed.

(** C10. Without interrupt acknowledge the command, whatever status the
    chip reports and however the read ends, does one status exchange after
    the dispatch block and nothing else to the radio: buffer, deadline,
    events and end-of-message stamp are as the dispatch block left them, so
    that no end-of-message and no header-received event is fired; when
    [dispatch_message] is not set either, they are as before the command. *)
Theorem no_flag_processing_without_intack (fuel : nat) (m : Machine)
    status clearbuf dispatch_message :
  fields (self m) = FSameInterruptCheck status false clearbuf dispatch_message ->
  let m0 := after_dispatch E dispatch_message m in
  let final := snd (do_command0 E fuel m) in
  io (radio final) = io (radio m0) ++ status_exchange (value (self m)) 0 clearbuf false /\
  heap (radio final) = heap (radio m0) /\
  same_messages (radio final) = same_messages (radio m0) /\
  buffer (radio final) = buffer (radio m0) /\
  same_timeout (radio final) = same_timeout (radio m0) /\
  last_EOM (radio final) = last_EOM (radio m0) /\
  fired (radio final) = fired (radio m0) /\
  Forall (fun e => is_EndOfMessage e = false /\ is_SAMEHeaderReceived e = false)
    (emitted (radio m) (radio final)) /\
  (dispatch_message = false -> m0 = m).
Proof.
  intros Hf m0 final.
  pose proof (do_command0_phases E fuel m _ _ _ _ Hf) as Hrun.
  fold m0 in Hrun.
  assert (final = snd (SameInterruptCheck_poll E fuel false clearbuf dispatch_message m0))
    as Hfinal.
  { unfold final. rewrite Hrun. unfold bind.
    destruct (SameInterruptCheck_poll E fuel false clearbuf dispatch_message m0)
      as [[[]| |] m2]; reflexivity. }
  destruct (poll_without_intack E fuel clearbuf dispatch_message m0)
    as (Kt & Ks & Kh & Kf & Kl & _).
  rewrite <- Hfinal in Kt, Ks, Kh, Kf, Kl.
  assert (io (radio final) =
          io (radio m0) ++ status_exchange (value (self m)) 0 clearbuf false) as Hio.
  { rewrite Hfinal. unfold SameInterruptCheck_poll. cbn [when].
    pose proof (get_status_io 0 clearbuf false m0) as G.
    replace (value (self m0)) with (value (self m)) in G
      by (unfold m0, after_dispatch; destruct dispatch_message; reflexivity).
    unfold bind.
    destruct (SameInterruptCheck_get_status E 0 clearbuf false m0) as [[st| |] m2];
      exact G. }
  repeat (split; [assumption|]).
  split; [unfold buffer, deref; rewrite Kh, Ks; reflexivity|].
  repeat (split; [assumption|]).
  split.
  - unfold emitted. rewrite Kf.
    destruct (after_dispatch_fired E dispatch_message m) as ((pre & Hpre & _) & _).
    fold m0 in Hpre. rewrite Hpre, drop_app_length.
    unfold m0, after_dispatch, on_radio, dispatched, dispatch_event in Hpre.
    destruct dispatch_message; cbn [radio] in Hpre.
    + destruct (buffer (radio m)).
      * apply (f_equal length) in Hpre. rewrite length_app in Hpre.
        cbn [fired set_same_timeout] in Hpre.
        destruct pre; [constructor|simpl in Hpre; lia].
      * cbn [fired set_fired] in Hpre. apply app_inv_head in Hpre. subst pre.
        destruct (SAMEMessage_valid E (average_message E (r :: l)));
          repeat constructor.
    + apply (f_equal length) in Hpre. rewrite length_app in Hpre.
      destruct pre; [constructor|simpl in Hpre; lia].
  - intros ->. reflexivity.
Qed.

End WithoutIntack.

(** ** The request byte of a status exchange (C9) *)

(** C9 does not hold of the code: the first payload byte of every status
    request is 1 when [clearbuf] is false and 0 when it is true, whatever
    [intack] is. With interrupt acknowledge and no clear-buffer request the
    byte written is 1, where the two independent bits make 2. *)
Theorem status_request_ignores_intack (E : Env) (readaddr : Z) (m : Machine) :
  (forall clearbuf intack, status_request clearbuf intack = Z.b2z (negb clearbuf)) /\
  status_request false true = 1 /\
  status_request_two_bits false true = 2 /\
  io (radio (snd (SameInterruptCheck_get_status E readaddr false true m))) =
    io (radio m) ++
    [writeList (value (self m)) [1; readaddr]; wait_for_clear_to_send; readList 0 14].
Proof.
  split; [intros [] []; reflexivity|].
  split; [reflexivity|].
  split; [reflexivity|].
  apply get_status_io.
Qed.

(** ** The power guard (C6) *)

Section PowerGuard.

Variable E : Env.

Lemma guarded_classes (cmd : CommandObject) :
  issubclass (type cmd) CommandRequiringPowerUp = true <->
  type cmd <> Command /\ type cmd <> PowerUp /\ type cmd <> PatchCommand.
Proof.
  unfold type. destruct (fields cmd); cbn; split; intros H;
    try discriminate; try reflexivity; try (repeat split; discriminate);
    destruct H as (H1 & H2 & H3); congruence.
Qed.

Lemma guard_refuses (fuel : nat) (cmd : CommandObject) (r : Radio) :
  issubclass (type cmd) CommandRequiringPowerUp = true ->
  radio_power r = false ->
  execute E fuel cmd r =
  (Raise (ValueError (AttemptedWhenPoweredDown (type cmd))), cmd, r).
Proof.
  intros Hsub Hoff.
  unfold execute, do_command, bind, read_self. cbn [self].
  rewrite Hsub.
  unfold CommandRequiringPowerUp_do_command, bind, read, read_self. cbn [radio self].
  rewrite Hoff. reflexivity.
Qed.

(** C6, as the code has it. With the power flag false, the commands of
    every class derived from [CommandRequiringPowerUp], that is of every
    class but [Command], [PowerUp] and [PatchCommand], and so [PowerDown]
    too, fail with the powered-down [ValueError] and leave the command and
    the radio, its I/O log included, untouched. [PowerUp] is not guarded: a
    power-up for weather-band receive writes its request to the bus and sets
    the power flag. *)
Theorem power_guard (fuel : nat) (cmd : CommandObject) (r : Radio) :
  radio_power r = false ->
  (issubclass (type cmd) CommandRequiringPowerUp = true <->
   type cmd <> Command /\ type cmd <> PowerUp /\ type cmd <> PatchCommand) /\
  issubclass PowerDown CommandRequiringPowerUp = true /\
  (issubclass (type cmd) CommandRequiringPowerUp = true ->
   execute E fuel cmd r =
   (Raise (ValueError (AttemptedWhenPoweredDown (type cmd))), cmd, r)) /\
  (forall cts gpo2 xosc patch opmode,
     fields cmd = FPowerUp cts gpo2 xosc patch 3 opmode ->
     fst (fst (execute E fuel cmd r)) = Ret tt /\
     radio_power (snd (execute E fuel cmd r)) = true /\
     io (snd (execute E fuel cmd r)) =
       io r ++ [writeList (value cmd) [PowerUp_flags cts gpo2 xosc patch 3; opmode];
                wait_for_clear_to_send]).
Proof.
  intros Hoff.
  split; [apply guarded_classes|].
  split; [reflexivity|].
  split; [intros Hsub; apply guard_refuses; assumption|].
  intros cts gpo2 xosc patch opmode Hf.
  destruct cmd as [mn v fut exc res tc flds]. cbn [fields] in Hf. subst flds.
  unfold PowerUp_flags.
  destruct xosc, fut; cbn; rewrite <- app_assoc; repeat split; reflexivity.
Qed.

End PowerGuard.

(** ** Delivery of the outcome (C7) *)

Section Delivery.

Variable E : Env.

Lemma keeps_call_on {A} (obj : CommandObject) (body : M A) :
  keeps self_view (call_on obj body).
Proof.
  intros m. unfold call_on.
  destruct (body {| self := obj; radio := radio m |}) as [[a|e|] m1]; reflexivity.
Qed.

Lemma keeps_wait_tune_after (fuel : nat) :
  keeps self_view (TuneFrequency_wait_tune_after E fuel).
Proof.
  induction fuel as [|fuel IH]; cbn [TuneFrequency_wait_tune_after];
    unfold time_time, time_sleep; keeps_auto.
Qed.

Lemma keeps_wait_stc (fuel : nat) :
  keeps self_view (TuneFrequency_wait_stc E fuel).
Proof.
  induction fuel as [|fuel IH]; cbn [TuneFrequency_wait_stc];
    unfold radio_is_seek_tune_complete, time_sleep, log_io; keeps_auto.
Qed.

Lemma self_view_io (l : list IoOp) (m : Machine) :
  self_view (on_radio (set_io l) m) = self_view m.
Proof. reflexivity. Qed.

(** No [do_command0] touches the base attributes of its command. *)
Lemma do_command0_keeps_base (fuel : nat) : keeps self_view (do_command0 E fuel).
Proof.
  pose proof (keeps_get_status E self_view self_view_io) as Hgs.
  pose proof (keeps_read_more E self_view self_view_io) as Hrm.
  pose proof (@keeps_call_on) as Hcall.
  pose proof keeps_wait_tune_after as Hwt.
  pose proof keeps_wait_stc as Hws.
  unfold do_command0.
  apply keeps_bind; [keeps_auto|].
  intros f. destruct f.
  - unfold Command_do_command0, hardware_io_write8, radio_wait_for_clear_to_send, log_io.
    keeps_auto.
  - unfold PowerUp_do_command0, PowerUp_do_command00, hardware_io_writeList,
      hardware_io_readList, radio_wait_for_clear_to_send, radio_fire_event,
      radio_delay_event, time_time, log_io.
    keeps_auto.
  - unfold PowerUp_do_command0, PatchCommand_do_command00, PowerUp_do_command00,
      hardware_io_writeList, hardware_io_readList, radio_wait_for_clear_to_send,
      radio_fire_event, radio_delay_event, time_time, log_io, getitem.
    keeps_auto.
  - unfold GetRevision_do_command0, Command_do_command0, hardware_io_write8,
      hardware_io_readList, radio_wait_for_clear_to_send, log_io.
    keeps_auto.
  - unfold PowerDown_do_command0, Command_do_command0, hardware_io_write8,
      radio_wait_for_clear_to_send, radio_fire_event, log_io.
    keeps_auto.
  - unfold SetProperty_do_command0, pack_H, hardware_io_writeList, log_io.
    keeps_auto.
  - unfold GetProperty_do_command0, bytes, hardware_io_writeList, hardware_io_readList,
      radio_wait_for_clear_to_send, log_io.
    keeps_auto.
  - unfold TuneFrequency_do_command0, pack_H, hardware_io_writeList, log_io.
    keeps_auto.
  - unfold TuneStatus_do_command0, bytes, hardware_io_writeList, hardware_io_readList,
      radio_wait_for_clear_to_send, log_io.
    keeps_auto.
  - unfold ReceivedSignalQualityCheck_do_command0, bytes, hardware_io_writeList,
      hardware_io_readList, radio_wait_for_clear_to_send, log_io.
    keeps_auto.
  - unfold AlertToneCheck_do_command0, bytes, hardware_io_writeList,
      hardware_io_readList, radio_wait_for_clear_to_send, radio_do_command, time_time,
      log_io.
    keeps_auto.
  - unfold SameInterruptCheck_do_command0, SameInterruptCheck_dispatch,
      SameInterruptCheck_poll, SameInterruptCheck_end_of_message,
      SameInterruptCheck_preamble, SameInterruptCheck_header_ready,
      same_messages_append, same_messages_renew, radio_fire_event, time_time, chr.
    keeps_auto.
Qed.

Lemma Command_do_command_returns (body : M Value) (m m1 : Machine) (v : Value) :
  body m = (Ret v, m1) ->
  Command_do_command E body m =
  (Ret tt,
   finished E (on_radio (deliver (future (self m1)) (Result (stored v)))
               (on_self (set_result (Some (stored v))) m1))).
Proof.
  intros Hbody.
  unfold Command_do_command, try_finally, try_except, bind at 1. rewrite Hbody.
  unfold bind, update_self, read_self, future_deliver, update, time_time, ret, finished,
    deliver, stored.
  destruct m1 as [c r]. destruct c as [mn va [h|] ex re tc fl], v; reflexivity.
Qed.

Lemma Command_do_command_raises (body : M Value) (m m1 : Machine) (e : Exception) :
  body m = (Raise e, m1) ->
  Command_do_command E body m =
  (match future (self m1) with
   | Some _ => Ret tt
   | None => Raise e
   end,
   finished E (on_radio (deliver (future (self m1)) (Failure e))
               (on_self (set_exception (Some e)) m1))).
Proof.
  intros Hbody.
  unfold Command_do_command, try_finally, try_except, bind at 1. rewrite Hbody.
  unfold bind, update_self, read_self, future_deliver, update, time_time, ret, raise,
    finished, deliver.
  destruct m1 as [c r]. destruct c as [mn va [h|] ex re tc fl]; reflexivity.
Qed.

(** A command the power guard lets through runs [Command.do_command]. *)
Lemma do_command_admitted (fuel : nat) (m : Machine) :
  (issubclass (type (self m)) CommandRequiringPowerUp = true ->
   radio_power (radio m) = true) ->
  do_command E fuel m = Command_do_command E (do_command0 E fuel) m.
Proof.
  intros Hguard. unfold do_command, bind at 1, read_self.
  destruct (issubclass (type (self m)) CommandRequiringPowerUp); [|reflexivity].
  unfold CommandRequiringPowerUp_do_command, bind, read, read_self.
  rewrite Hguard by reflexivity. reflexivity.
Qed.

(** C7, as the code has it. For a command that the power guard does not
    refuse and whose [do_command0] returns or raises: with a future attached,
    the value (or ["self"]) or the exception is delivered through it and
    [do_command] returns; with none attached, the value is stored and an
    exception is raised to the caller; either way the exception is recorded,
    the future is released and the clock is read for the completion time. *)
Theorem outcome_delivery (fuel : nat) (cmd : CommandObject) (r : Radio) :
  (issubclass (type cmd) CommandRequiringPowerUp = true -> radio_power r = true) ->
  let body := do_command0 E fuel {| self := cmd; radio := r |} in
  let done := radio (snd body) in
  let outcome := fst (fst (execute E fuel cmd r)) in
  let cmd' := snd (fst (execute E fuel cmd r)) in
  let r' := snd (execute E fuel cmd r) in
  fst body <> Diverge ->
  future cmd' = None /\
  time_complete cmd' = Some (clock E (ticks done)) /\
  match fst body with
  | Ret v =>
      outcome = Ret tt /\
      result cmd' = Some (stored v) /\
      exception cmd' = exception cmd /\
      delivered r' =
        match future cmd with
        | Some h => delivered done ++ [(h, Result (stored v))]
        | None => delivered done
        end
  | Raise e =>
      exception cmd' = Some e /\
      result cmd' = result cmd /\
      match future cmd with
      | Some h => outcome = Ret tt /\ delivered r' = delivered done ++ [(h, Failure e)]
      | None => outcome = Raise e /\ delivered r' = delivered done
      end
  | Diverge => False
  end.
Proof.
  intros Hguard body done outcome cmd' r' Hends.
  pose proof (do_command0_keeps_base fuel {| self := cmd; radio := r |}) as Hbase.
  fold body in Hbase. unfold self_view, base_attributes in Hbase. cbn [self] in Hbase.
  injection Hbase as _ _ Hfut Hexc Hres _.
  unfold outcome, cmd', r', execute.
  rewrite (do_command_admitted fuel {| self := cmd; radio := r |} Hguard).
  unfold done. fold body.
  destruct body as [[v|e|] m1] eqn:Hbody; cbn [fst snd] in *; [| |contradiction].
  - rewrite (Command_do_command_returns _ _ _ _ Hbody).
    rewrite Hfut. cbn [fst snd self radio finished on_radio on_self].
    destruct (future cmd); cbn; rewrite <- ?Hexc; repeat split; reflexivity.
  - rewrite (Command_do_command_raises _ _ _ _ Hbody).
    rewrite Hfut. cbn [fst snd self radio finished on_radio on_self].
    destruct (future cmd); cbn; rewrite <- ?Hres; repeat split; reflexivity.
Qed.

End Delivery.

(** ** Tuning (C5) *)

Lemma int_floor (x : Q) : (0 <= x)%Q -> int x = Qfloor x.
Proof.
  destruct x as [n d]. unfold Qle, int, Qfloor. cbn [Qnum Qden].
  rewrite Z.mul_1_r. intros H. simpl in H. apply Z.quot_div_nonneg; lia.
Qed.

(** Rounding to the nearest integer keeps the order. *)
Lemma round_half_even_bounds (x : Q) :
  Qfloor x <= round_half_even x <= Qfloor x + 1.
Proof.
  unfold round_half_even.
  destruct (Qle_bool (x - inject_Z (Qfloor x)) (1 # 2));
    [destruct (Qle_bool (1 # 2) (x - inject_Z (Qfloor x)));
       [destruct (Z.even (Qfloor x))|]|]; lia.
Qed.

Lemma round_half_even_mono (x y : Q) :
  (x <= y)%Q -> round_half_even x <= round_half_even y.
Proof.
  intros Hxy.
  pose proof (Qfloor_resp_le x y Hxy) as Hfloor.
  destruct (Z.eq_dec (Qfloor x) (Qfloor y)) as [Heq|Hne].
  - unfold round_half_even. rewrite <- Heq.
    set (n := Qfloor x) in *.
    destruct (Qle_bool (x - inject_Z n) (1 # 2)) eqn:Hx1;
      destruct (Qle_bool (1 # 2) (x - inject_Z n)) eqn:Hx2;
      destruct (Qle_bool (y - inject_Z n) (1 # 2)) eqn:Hy1;
      destruct (Qle_bool (1 # 2) (y - inject_Z n)) eqn:Hy2;
      destruct (Z.even n); try lia; exfalso;
      repeat match goal with
             | H : Qle_bool _ _ = true |- _ => apply Qle_bool_iff in H
             | H : Qle_bool _ _ = false |- _ =>
                 apply not_true_iff_false in H; rewrite Qle_bool_iff in H;
                 apply Qnot_le_lt in H
             end; lra.
  - pose proof (round_half_even_bounds x). pose proof (round_half_even_bounds y). lia.
Qed.

(** The binade of the frequency fields: from [2 ^ 15] to [2 ^ 16]. *)
Lemma ilog2_field (x : Q) : (32768 <= x)%Q -> (x < 65536)%Q -> ilog2 x = 15.
Proof.
  intros Hlo Hhi. unfold ilog2.
  replace (Qle_bool 1 x) with true by (symmetry; apply Qle_bool_iff; lra).
  apply Z.log2_unique; [lia|].
  change (2 ^ 15) with 32768. change (2 ^ Z.succ 15) with 65536.
  split.
  - rewrite <- (Qfloor_Z 32768). apply Qfloor_resp_le. exact Hlo.
  - rewrite Zlt_Qlt. eapply Qle_lt_trans; [apply Qfloor_le|exact Hhi].
Qed.

(** There a float has 37 bits after the point. *)
Lemma float_field (x : Q) :
  (32768 <= x)%Q -> (x < 65536)%Q ->
  float x = (inject_Z (round_half_even (x / 2 ^ (-37))) * 2 ^ (-37))%Q.
Proof.
  intros Hlo Hhi. unfold float.
  destruct (Qeq_bool x 0) eqn:Hzero.
  { apply Qeq_bool_iff in Hzero. rewrite Hzero in Hlo. exfalso. revert Hlo.
    apply Qlt_not_le. reflexivity. }
  rewrite (ilog2_field (Qabs x)).
  - reflexivity.
  - rewrite Qabs_pos by lra. exact Hlo.
  - rewrite Qabs_pos by lra. exact Hhi.
Qed.

Lemma float_field_mono (x y : Q) :
  (32768 <= x)%Q -> (x <= y)%Q -> (y < 65536)%Q -> (float x <= float y)%Q.
Proof.
  intros Hlo Hxy Hhi.
  rewrite (float_field x) by lra. rewrite (float_field y) by lra.
  assert (0 <= 2 ^ (-37))%Q as Hpos by (vm_compute; discriminate).
  assert (0 <= / 2 ^ (-37))%Q as Hinv by (vm_compute; discriminate).
  apply Qmult_le_compat_r; [|exact Hpos].
  rewrite <- Zle_Qle. apply round_half_even_mono.
  unfold Qdiv. apply Qmult_le_compat_r; assumption.
Qed.

(** The frequency field of a frequency of the weather band. *)
Lemma frequency_field_range (x : Q) :
  in_weather_band x -> 64960 <= int (float_mul 400 x) <= 65020.
Proof.
  unfold in_weather_band, float_mul. intros [Hlo Hhi].
  assert (32768 <= 400 * float 162.4)%Q as Hlow
    by (apply Qle_bool_iff; vm_compute; reflexivity).
  assert (400 * float 162.55 < 65536)%Q as Hhigh
    by (apply Qlt_alt; vm_compute; reflexivity).
  assert (Qfloor (float (400 * float 162.4)) = 64960) as Hfirst
    by (vm_compute; reflexivity).
  assert (Qfloor (float (400 * float 162.55)) = 65020) as Hlast
    by (vm_compute; reflexivity).
  assert (0 <= float (400 * float 162.4))%Q as Hpos
    by (apply Qle_bool_iff; vm_compute; reflexivity).
  set (lo := float 162.4) in *. set (hi := float 162.55) in *.
  assert (float (400 * lo) <= float (400 * x))%Q as Hleft
    by (apply float_field_mono; lra).
  assert (float (400 * x) <= float (400 * hi))%Q as Hright
    by (apply float_field_mono; lra).
  rewrite int_floor by (eapply Qle_trans; [exact Hpos|exact Hleft]).
  apply Qfloor_resp_le in Hleft, Hright. lia.
Qed.

Lemma unpack_pack_H (n : Z) :
  0 <= n < 65536 -> unpack_H (Z.shiftr n 8) (Z.land n 255) = n.
Proof.
  intros Hn. unfold unpack_H.
  rewrite Z.shiftr_div_pow2 by lia.
  change 255 with (Z.ones 8). rewrite Z.land_ones by lia.
  change (2 ^ 8) with 256.
  pose proof (Z.div_mod n 256). lia.
Qed.

Section Waits.

Variable E : Env.

Context {B : Type} (view : Machine -> B).

(** Views blind to the I/O log and to the number of clock readings. *)
Hypothesis view_io : forall l m, view (on_radio (set_io l) m) = view m.
Hypothesis view_ticks : forall n m, view (on_radio (set_ticks n) m) = view m.

Lemma keeps_time_time : keeps view (time_time E).
Proof. intros m. apply (view_ticks (S (ticks (radio m))) m). Qed.

Lemma waiting_for_tune_after_keeps (fuel : nat) :
  keeps view (TuneFrequency_wait_tune_after E fuel).
Proof.
  pose proof keeps_time_time.
  induction fuel as [|fuel IH]; cbn [TuneFrequency_wait_tune_after];
    unfold time_sleep; keeps_auto.
Qed.

Lemma waiting_for_stc_keeps (fuel : nat) :
  keeps view (TuneFrequency_wait_stc E fuel).
Proof.
  pose proof (keeps_log_io view view_io).
  induction fuel as [|fuel IH]; cbn [TuneFrequency_wait_stc];
    unfold radio_is_seek_tune_complete, time_sleep; keeps_auto.
Qed.

End Waits.

Section Tuning.

Variable E : Env.

(** The wait for the tuning deadline is over at the first reading of the
    clock that is not before the deadline. *)
Lemma wait_tune_after_passed (fuel : nat) (m : Machine) (deadline : Q) :
  tune_after (radio m) = Fin deadline ->
  (deadline <= clock E (ticks (radio m)))%Q ->
  TuneFrequency_wait_tune_after E fuel m =
  (Ret tt, on_radio (set_ticks (S (ticks (radio m)))) m).
Proof.
  intros Hafter Hpassed.
  assert (Qltb (clock E (ticks (radio m))) deadline = false) as Hnot.
  { unfold Qltb. apply negb_false_iff, Qle_bool_iff, Hpassed. }
  destruct fuel; cbn [TuneFrequency_wait_tune_after];
    unfold bind, time_time, read; cbn [radio on_radio tune_after set_ticks];
    rewrite Hafter, Hnot; reflexivity.
Qed.

(** The wait for the end of the tuning is over at the first poll that
    reports it. *)
Lemma wait_stc_complete (fuel : nat) (m : Machine) :
  seek_tune_complete E (io (radio m) ++ [check_interrupts]) = true ->
  TuneFrequency_wait_stc E fuel m =
  (Ret tt, on_radio (set_io (io (radio m) ++ [check_interrupts])) m).
Proof.
  intros Hstc.
  destruct fuel; cbn [TuneFrequency_wait_stc];
    unfold bind, radio_is_seek_tune_complete, log_io, update, read, bind;
    cbn [radio on_radio io set_io]; rewrite Hstc; reflexivity.
Qed.

(** With fuel for [n] rounds of sleep, the wait for the tuning deadline
    returns at the first of its readings of the clock, two readings apart,
    that is not before the deadline. *)
Lemma wait_tune_after_returns (n fuel : nat) (m : Machine) (deadline : Q) :
  (n <= fuel)%nat ->
  tune_after (radio m) = Fin deadline ->
  (forall j, (j < n)%nat -> (clock E (ticks (radio m) + 2 * j) < deadline)%Q) ->
  (deadline <= clock E (ticks (radio m) + 2 * n))%Q ->
  TuneFrequency_wait_tune_after E fuel m =
  (Ret tt, on_radio (set_ticks (S (ticks (radio m) + 2 * n))) m).
Proof.
  revert fuel m. induction n as [|n IH]; intros fuel m Hfuel Hafter Hbefore Hpassed.
  - replace (ticks (radio m) + 2 * 0)%nat with (ticks (radio m)) in * by lia.
    apply (wait_tune_after_passed fuel m deadline); assumption.
  - destruct fuel as [|fuel]; [lia|].
    assert (Qltb (clock E (ticks (radio m))) deadline = true) as Hearly.
    { specialize (Hbefore 0%nat ltac:(lia)).
      replace (ticks (radio m) + 2 * 0)%nat with (ticks (radio m)) in Hbefore by lia.
      unfold Qltb. apply negb_true_iff. apply not_true_iff_false.
      rewrite Qle_bool_iff. apply Qlt_not_le, Hbefore. }
    cbn [TuneFrequency_wait_tune_after].
    unfold bind at 1, time_time at 1. unfold bind at 1, read at 1.
    cbn [radio on_radio tune_after set_ticks]. rewrite Hafter, Hearly.
    unfold bind at 1, time_time at 1. unfold bind at 1, time_sleep, ret at 1.
    set (m' := on_radio (fun r => set_ticks (S (ticks r)) r)
                 (on_radio (fun r => set_ticks (S (ticks r)) r) m)).
    assert (ticks (radio m') = S (S (ticks (radio m)))) as Hticks by reflexivity.
    rewrite (IH fuel m' ltac:(lia) Hafter).
    + rewrite Hticks. unfold m', on_radio. cbn [radio self set_ticks].
      replace (S (S (S (ticks (radio m))) + 2 * n))
        with (S (ticks (radio m) + 2 * S n)) by lia.
      reflexivity.
    + intros j Hj. rewrite Hticks.
      replace (S (S (ticks (radio m))) + 2 * j)%nat
        with (ticks (radio m) + 2 * S j)%nat by lia.
      apply Hbefore. lia.
    + rewrite Hticks.
      replace (S (S (ticks (radio m))) + 2 * n)%nat
        with (ticks (radio m) + 2 * S n)%nat by lia.
      exact Hpassed.
Qed.

(** With fuel for [n] rounds of sleep, the wait for the end of the tuning
    returns at the first poll that reports it. *)
Lemma wait_stc_returns (n fuel : nat) (m : Machine) :
  (n <= fuel)%nat ->
  (forall j, (j < n)%nat ->
     seek_tune_complete E (io (radio m) ++ replicate (S j) check_interrupts) = false) ->
  seek_tune_complete E (io (radio m) ++ replicate (S n) check_interrupts) = true ->
  TuneFrequency_wait_stc E fuel m =
  (Ret tt, on_radio (set_io (io (radio m) ++ replicate (S n) check_interrupts)) m).
Proof.
  revert fuel m. induction n as [|n IH]; intros fuel m Hfuel Hbusy Hdone.
  - apply wait_stc_complete. exact Hdone.
  - destruct fuel as [|fuel]; [lia|].
    cbn [TuneFrequency_wait_stc].
    unfold bind at 1, radio_is_seek_tune_complete. unfold bind at 1, log_io, update.
    unfold read at 1. cbn [radio on_radio io set_io].
    pose proof (Hbusy 0%nat ltac:(lia)) as Hfirst. cbn [replicate] in Hfirst.
    rewrite Hfirst.
    unfold bind at 1, time_sleep, ret at 1.
    set (m' := on_radio (fun r => set_io (io r ++ [check_interrupts]) r) m).
    assert (forall k, io (radio m') ++ replicate (S k) check_interrupts =
                      io (radio m) ++ replicate (S (S k)) check_interrupts) as Hlog.
    { intros k. unfold m'. cbn [radio on_radio io set_io replicate].
      rewrite <- app_assoc. reflexivity. }
    rewrite (IH fuel m' ltac:(lia)).
    + rewrite Hlog. reflexivity.
    + intros j Hj. rewrite Hlog. apply (Hbusy (S j)). lia.
    + rewrite Hlog. exact Hdone.
Qed.

Lemma TuneStatus_confirms (c : CommandObject) (r : Radio) (b0 b1 hi lo rs sn : Z) :
  radio_power r = true ->
  chip E (io r ++ tune_status_exchange) = [b0; b1; hi; lo; rs; sn] ->
  Forall (fun b => 0 <= b < 256) [b0; b1; hi; lo; rs; sn] ->
  exists ts r',
    call_on (TuneStatus_init true)
      (CommandRequiringPowerUp_do_command E (TuneStatus_do_command0 E))
      {| self := c; radio := r |} = (Ret (tt, ts), {| self := c; radio := r' |}) /\
    fields ts = FTuneStatus true (Some (unpack_H hi lo)) (Some (unpack_b rs))
                  (Some (unpack_b sn)) /\
    io r' = io r ++ tune_status_exchange.
Proof.
  intros Hon Hchip Hbytes.
  assert (forallb is_byte [b0; b1; hi; lo; rs; sn] = true) as Hb.
  { apply forallb_forall. intros b Hin.
    apply list_elem_of_In in Hin.
    rewrite Forall_forall in Hbytes. specialize (Hbytes b Hin).
    unfold is_byte. lia. }
  assert (TuneStatus_do_command0 E {| self := TuneStatus_init true; radio := r |} =
          (Ret (VTuneStatus (inject_Z (unpack_H hi lo) / 400) (unpack_b rs) (unpack_b sn)),
           {| self := set_fields (FTuneStatus true (Some (unpack_H hi lo))
                                    (Some (unpack_b rs)) (Some (unpack_b sn)))
                        (TuneStatus_init true);
              radio := set_io (io r ++ tune_status_exchange) r |})) as Hbody.
  { unfold TuneStatus_do_command0, bind, read_self, hardware_io_writeList,
      radio_wait_for_clear_to_send, hardware_io_readList, log_io, update, read, bind,
      on_radio.
    cbn [self radio io set_io fields TuneStatus_init new value].
    change (Z.land (Z.b2z true) 1) with 1.
    replace (((io r ++ [writeList 82 [1]]) ++ [wait_for_clear_to_send]) ++
             [readList 0 6]) with (io r ++ tune_status_exchange)
      by (unfold tune_status_exchange; rewrite <- !app_assoc; reflexivity).
    rewrite Hchip. unfold bytes. rewrite Hb. reflexivity. }
  unfold call_on, CommandRequiringPowerUp_do_command, bind at 1, read. cbn [radio].
  rewrite Hon. unfold bind, read_self, ret. cbn [negb].
  rewrite (Command_do_command_returns E _ _ _ _ Hbody).
  eexists _, _. split; [reflexivity|]. split; reflexivity.
Qed.

End Tuning.

Section TuningClaim.

Variable E : Env.

(** The body of [TuneFrequency.do_command0] once both waits are over. *)
Lemma TuneFrequency_run (fuel : nat) (field : Z) (rssi snr : option Z) (mn : string)
    (v : Z) (fut : option nat) (exc : option Exception) (res : option Value)
    (tc : option Q) (r : Radio) (m1 m3 : Machine) (b0 b1 hi lo rs sn : Z) :
  let cmd := {| mnemonic := mn; value := v; future := fut; exception := exc;
                result := res; time_complete := tc;
                fields := FTuneFrequency field rssi snr |} in
  let m := {| self := cmd; radio := r |} in
  0 <= field < 65536 ->
  radio_power r = true ->
  TuneFrequency_wait_tune_after E fuel m = (Ret tt, m1) ->
  let request := writeList v [0; Z.shiftr field 8; Z.land field 255] in
  let m2 := on_radio (fun r => set_tone_start None (set_io (io r ++ [request]) r)) m1 in
  TuneFrequency_wait_stc E fuel m2 = (Ret tt, m3) ->
  chip E (io (radio m3) ++ tune_status_exchange) = [b0; b1; hi; lo; rs; sn] ->
  Forall (fun b => 0 <= b < 256) [b0; b1; hi; lo; rs; sn] ->
  exists final,
    do_command0 E fuel m =
    (if unpack_H hi lo =? field
     then Ret (VTune (unpack_b rs) (unpack_b sn) (inject_Z (unpack_H hi lo) / 400))
     else Raise (ValueError (FrequencyDidntStick field (unpack_H hi lo))),
     final).
Proof.
  intros cmd m Hfield Hon Hwait request m2 Hstc Hchip Hbytes.
  assert (radio_power (radio m3) = true) as Hon3.
  { pose proof (waiting_for_tune_after_keeps E (fun m => radio_power (radio m))
                  (fun _ _ => eq_refl) fuel m) as K1.
    pose proof (waiting_for_stc_keeps E (fun m => radio_power (radio m))
                  (fun _ _ => eq_refl) fuel m2) as K2.
    rewrite Hwait in K1. rewrite Hstc in K2. cbn [snd] in K1, K2.
    rewrite K2. unfold m2. cbn [radio on_radio radio_power set_tone_start set_io].
    rewrite K1. exact Hon. }
  unfold m, cmd in *. clear m cmd.
  unfold do_command0, bind at 1, read_self. cbn [self fields].
  unfold TuneFrequency_do_command0, bind at 1, read_self. cbn [self fields].
  unfold bind at 1, read_self. cbn [self value].
  unfold bind at 1. rewrite Hwait.
  unfold bind at 1, pack_H.
  replace ((0 <=? field) && (field <? 65536)) with true by lia.
  unfold ret at 1.
  unfold bind at 1, hardware_io_writeList, log_io, update.
  unfold bind at 1.
  change (on_radio (set_tone_start None)
            (on_radio (fun r0 => set_io (io r0 ++ [writeList v [0; Z.shiftr field 8;
                                                               Z.land field 255]]) r0) m1))
    with m2.
  unfold bind at 1. rewrite Hstc.
  destruct m3 as [c3 r3]. cbn [radio] in Hchip, Hon3.
  destruct (TuneStatus_confirms E c3 r3 b0 b1 hi lo rs sn Hon3 Hchip Hbytes)
    as (ts & r' & Hts & Hfields & _).
  unfold bind at 1. rewrite Hts. cbn [snd]. rewrite Hfields.
  destruct (unpack_H hi lo =? field); cbn [negb].
  - unfold bind, update_self, ret. eexists. reflexivity.
  - unfold raise. eexists. reflexivity.
Qed.

(** The tuning of a frequency of the weather band, once its two waits are
    over. *)
Lemma tune_frequency_after_waits (fuel : nat) (f : Q) (r : Radio) (m1 m3 : Machine)
    (b0 b1 hi lo rs sn : Z) :
  in_weather_band (float f) ->
  let field := int (float_mul 400 (float f)) in
  let cmd := new "WB_TUNE_FREQ" 80 (FTuneFrequency field None None) in
  let m := {| self := cmd; radio := r |} in
  radio_power r = true ->
  TuneFrequency_wait_tune_after E fuel m = (Ret tt, m1) ->
  let request := writeList 80 [0; Z.shiftr field 8; Z.land field 255] in
  let m2 := on_radio (fun r => set_tone_start None (set_io (io r ++ [request]) r)) m1 in
  TuneFrequency_wait_stc E fuel m2 = (Ret tt, m3) ->
  chip E (io (radio m3) ++ tune_status_exchange) = [b0; b1; hi; lo; rs; sn] ->
  Forall (fun b => 0 <= b < 256) [b0; b1; hi; lo; rs; sn] ->
  let confirmed := unpack_H hi lo in
  let returned := VTune (unpack_b rs) (unpack_b sn) (inject_Z confirmed / 400) in
  let failure := ValueError (FrequencyDidntStick field confirmed) in
  TuneFrequency_init f = inr cmd /\
  unpack_H (Z.shiftr field 8) (Z.land field 255) = field /\
  ((exists v, fst (do_command0 E fuel m) = Ret v) <-> confirmed = field) /\
  (confirmed = field ->
   fst (do_command0 E fuel m) = Ret returned /\
   fst (fst (execute E fuel cmd r)) = Ret tt /\
   result (snd (fst (execute E fuel cmd r))) = Some returned) /\
  (confirmed <> field ->
   fst (do_command0 E fuel m) = Raise failure /\
   fst (fst (execute E fuel cmd r)) = Raise failure /\
   exception (snd (fst (execute E fuel cmd r))) = Some failure).
Proof.
  intros Hband field cmd m Hon Hwait request m2 Hstc Hchip Hbytes confirmed returned
    failure.
  pose proof (frequency_field_range (float f) Hband) as Hrange. fold field in Hrange.
  destruct (TuneFrequency_run fuel field None None "WB_TUNE_FREQ" 80 None None None None
              r m1 m3 b0 b1 hi lo rs sn ltac:(lia) Hon Hwait Hstc Hchip Hbytes)
    as (final & Hrun').
  assert (do_command0 E fuel m =
          (if confirmed =? field then Ret returned else Raise failure, final)) as Hrun
    by exact Hrun'.
  clear Hrun'.
  assert (execute E fuel cmd r =
          let '(o, m') := Command_do_command E (do_command0 E fuel) m in
          (o, self m', radio m')) as Hexec.
  { unfold execute. rewrite do_command_admitted; [reflexivity|].
    intros _. exact Hon. }
  split.
  { unfold TuneFrequency_init. cbv zeta.
    destruct Hband as [Hlo Hhi].
    apply Qle_bool_iff in Hlo. apply Qle_bool_iff in Hhi.
    rewrite Hlo, Hhi. reflexivity. }
  split; [apply unpack_pack_H; lia|].
  destruct (Z.eqb_spec confirmed field) as [Heq|Hne].
  - assert (future (self final) = None) as Hfut.
    { pose proof (do_command0_keeps_base E fuel m) as K. rewrite Hrun in K.
      unfold self_view, base_attributes in K. cbn [snd self m cmd new] in K.
      injection K as _ _ K _ _ _. exact K. }
    rewrite Hexec, (Command_do_command_returns E _ _ _ _ Hrun), Hrun, Hfut.
    cbn [fst snd self radio finished on_radio on_self deliver stored returned result
         set_result set_time_complete set_future].
    split; [split; [intros _; exact Heq | intros _; eexists; reflexivity]|].
    split; [intros _; repeat split; reflexivity | intros Hne; contradiction].
  - assert (future (self final) = None) as Hfut.
    { pose proof (do_command0_keeps_base E fuel m) as K. rewrite Hrun in K.
      unfold self_view, base_attributes in K. cbn [snd self m cmd new] in K.
      injection K as _ _ K _ _ _. exact K. }
    rewrite Hexec, (Command_do_command_raises E _ _ _ _ Hrun), Hrun, Hfut.
    cbn [fst snd self radio finished on_radio on_self deliver exception
         set_exception set_time_complete set_future].
    split; [split; [intros (v & Hv); discriminate Hv | intros Heq; contradiction]|].
    split; [intros Heq; contradiction | intros _; repeat split; reflexivity].
Qed.

(** C5. A frequency of the weather band, that is a float from the float
    [162.4] to the float [162.55], makes a command whose frequency field is
    [int(400 * f)], the product being the float Python computes, sent as two
    big-endian bytes. With the power on and fuel for its two loops, the
    command waits until the clock has reached the tuning deadline, writes
    the request, polls until the chip reports the end of the tuning and has
    the acknowledging [TuneStatus] read six bytes; [do_command0] then returns
    exactly when the frequency they confirm is the one requested, and
    returns the signal strength, the signal-to-noise ratio and the confirmed
    frequency over 400; otherwise it raises the [ValueError] of a frequency
    that did not stick, which [do_command], no future being attached, raises
    to its caller. *)
Theorem tune_frequency (fuel rounds polls : nat) (f : Q) (r : Radio)
    (b0 b1 hi lo rs sn : Z) :
  in_weather_band (float f) ->
  let field := int (float_mul 400 (float f)) in
  let cmd := new "WB_TUNE_FREQ" 80 (FTuneFrequency field None None) in
  let m := {| self := cmd; radio := r |} in
  radio_power r = true ->
  (rounds <= fuel)%nat ->
  deadline_reached_after E rounds r ->
  let request := writeList 80 [0; Z.shiftr field 8; Z.land field 255] in
  (polls <= fuel)%nat ->
  tuning_complete_after E polls (io r ++ [request]) ->
  let log := (io r ++ [request]) ++ replicate (S polls) check_interrupts in
  chip E (log ++ tune_status_exchange) = [b0; b1; hi; lo; rs; sn] ->
  Forall (fun b => 0 <= b < 256) [b0; b1; hi; lo; rs; sn] ->
  let confirmed := unpack_H hi lo in
  let returned := VTune (unpack_b rs) (unpack_b sn) (inject_Z confirmed / 400) in
  let failure := ValueError (FrequencyDidntStick field confirmed) in
  TuneFrequency_init f = inr cmd /\
  unpack_H (Z.shiftr field 8) (Z.land field 255) = field /\
  ((exists v, fst (do_command0 E fuel m) = Ret v) <-> confirmed = field) /\
  (confirmed = field ->
   fst (do_command0 E fuel m) = Ret returned /\
   fst (fst (execute E fuel cmd r)) = Ret tt /\
   result (snd (fst (execute E fuel cmd r))) = Some returned) /\
  (confirmed <> field ->
   fst (do_command0 E fuel m) = Raise failure /\
   fst (fst (execute E fuel cmd r)) = Raise failure /\
   exception (snd (fst (execute E fuel cmd r))) = Some failure).
Proof.
  intros Hband field cmd m Hon Hrounds Hdeadline request Hpolls [Hbusy Hdone] log
    Hchip Hbytes.
  set (m1 := on_radio (set_ticks (S (ticks r + 2 * rounds))) m).
  assert (TuneFrequency_wait_tune_after E fuel m = (Ret tt, m1)) as Hwait.
  { unfold deadline_reached_after in Hdeadline.
    destruct (tune_after r) as [|deadline|] eqn:Hafter; [| |contradiction].
    - subst rounds. unfold m1.
      replace (ticks r + 2 * 0)%nat with (ticks r) by lia.
      destruct fuel; cbn [TuneFrequency_wait_tune_after];
        unfold bind, time_time, read; cbn [radio on_radio tune_after set_ticks m];
        rewrite Hafter; reflexivity.
    - destruct Hdeadline as [Hbefore Hpassed].
      apply (wait_tune_after_returns E rounds fuel m deadline); assumption. }
  set (m2 := on_radio (fun r => set_tone_start None (set_io (io r ++ [request]) r)) m1).
  set (m3 := on_radio (set_io (io (radio m2) ++ replicate (S polls) check_interrupts)) m2).
  assert (TuneFrequency_wait_stc E fuel m2 = (Ret tt, m3)) as Hstc.
  { apply (wait_stc_returns E polls fuel m2); assumption. }
  exact (tune_frequency_after_waits fuel f r m1 m3 b0 b1 hi lo rs sn Hband Hon Hwait
           Hstc Hchip Hbytes).
Qed.

End TuningClaim.

(** ** Three headers and an end of message (C8) *)

Section Scenario.

Variable E : Env.

Hypothesis answers : answers_status_reads E.

Lemma reads_needed_byte (msg_len : Z) :
  0 <= msg_len < 256 -> (reads_needed msg_len 8 <= 31)%nat.
Proof.
  intros H. unfold reads_needed.
  assert ((msg_len - 8 + 7) / 8 < 32) by (apply Z.div_lt_upper_bound; lia).
  lia.
Qed.

(** One header poll appends one reception to the buffer, in place, and makes
    no call of the decoder. *)
Lemma header_poll_appends (fuel : nat) (clearbuf : bool) (r : Radio) :
  (31 <= fuel)%nat ->
  (same_messages r < length (heap r))%nat ->
  header_ready_for E clearbuf r ->
  let r' := polled E fuel (SameInterruptCheck_init true clearbuf false) r in
  (exists x, buffer r' = buffer r ++ [x]) /\
  same_messages r' = same_messages r /\
  length (heap r') = length (heap r) /\
  averaged r' = averaged r.
Proof.
  intros Hfuel Hwf (Hhdr & Heom & Hpre). cbv zeta. unfold polled.
  set (m := {| self := SameInterruptCheck_init true clearbuf false; radio := r |}) in *.
  assert (fields (self m) = FSameInterruptCheck None true clearbuf false) as Hf.
  { cbn. rewrite orb_false_r. reflexivity. }
  pose proof (do_command0_phases E fuel m _ _ _ _ Hf) as Hrun.
  cbn [after_dispatch] in Hrun. unfold bind in Hrun.
  assert (reads_needed (MSGLEN (polled_status E clearbuf true m)) 8 <= fuel)%nat as Hk.
  { etransitivity; [apply reads_needed_byte|exact Hfuel].
    apply MSGLEN_byte; apply (exchange_answered E answers). }
  rewrite (poll_header_ready E answers fuel clearbuf false m Heom Hpre Hhdr Hk) in Hrun.
  rewrite Hrun. clear Hrun.
  unfold ret, on_radio, on_self, header_received. cbn [snd radio self].
  unfold buffer, deref.
  cbn [heap same_messages averaged set_same_timeout set_ticks set_fired set_io set_heap].
  rewrite list_lookup_insert_eq by exact Hwf.
  rewrite length_insert.
  split; [eexists; reflexivity|]. repeat split.
Qed.

(** C8, as the code has it. From an empty buffer, three polls with
    interrupt acknowledge and no dispatch request that each decode HDRRDY
    alone leave three receptions in the buffer and call no decoder. A fourth
    poll that decodes EOMDET sets the deadline to 0; without the dispatch
    request it calls no decoder and leaves the three receptions in the
    buffer; with the dispatch request it hands exactly these three to the
    decoder in one call and leaves an empty buffer. *)
Theorem three_headers_then_end_of_message (fuel : nat) (r0 : Radio)
    (c1 c2 c3 c4 d4 : bool) :
  (31 <= fuel)%nat ->
  buffer r0 = [] ->
  (same_messages r0 < length (heap r0))%nat ->
  let r1 := polled E fuel (SameInterruptCheck_init true c1 false) r0 in
  let r2 := polled E fuel (SameInterruptCheck_init true c2 false) r1 in
  let r3 := polled E fuel (SameInterruptCheck_init true c3 false) r2 in
  let last := SameInterruptCheck_init true c4 d4 in
  let r4 := polled E fuel last r3 in
  header_ready_for E c1 r0 ->
  header_ready_for E c2 r1 ->
  header_ready_for E c3 r2 ->
  detects_end_of_message E {| self := last; radio := r3 |} ->
  length (buffer r3) = 3%nat /\
  averaged r3 = averaged r0 /\
  same_timeout r4 = Fin 0 /\
  (d4 = false -> averaged r4 = averaged r0 /\ buffer r4 = buffer r3) /\
  (d4 = true -> averaged r4 = averaged r0 ++ [buffer r3] /\ buffer r4 = []).
Proof.
  intros Hfuel Hempty Hwf r1 r2 r3 last r4 H1 H2 H3 H4.
  destruct (header_poll_appends fuel c1 r0 Hfuel Hwf H1) as ((x1 & B1) & S1 & L1 & A1).
  fold r1 in B1, S1, L1, A1.
  assert (same_messages r1 < length (heap r1))%nat as Hwf1 by (rewrite S1, L1; exact Hwf).
  destruct (header_poll_appends fuel c2 r1 Hfuel Hwf1 H2) as ((x2 & B2) & S2 & L2 & A2).
  fold r2 in B2, S2, L2, A2.
  assert (same_messages r2 < length (heap r2))%nat as Hwf2 by (rewrite S2, L2; exact Hwf1).
  destruct (header_poll_appends fuel c3 r2 Hfuel Hwf2 H3) as ((x3 & B3) & S3 & L3 & A3).
  fold r3 in B3, S3, L3, A3.
  assert (buffer r3 = [x1; x2; x3]) as B.
  { rewrite B3, B2, B1, Hempty. reflexivity. }
  assert (averaged r3 = averaged r0) as A by (rewrite A3, A2, A1; reflexivity).
  split; [rewrite B; reflexivity|].
  split; [exact A|].
  destruct (end_of_message_handling E fuel _ H4) as (_ & Hzero & _).
  split; [exact Hzero|].
  destruct H4 as (status & clearbuf & dispatch_message & Hf & Hlen & Heom).
  set (m := {| self := last; radio := r3 |}) in *.
  pose proof (do_command0_phases E fuel m _ _ _ _ Hf) as Hrun.
  unfold bind in Hrun.
  rewrite (poll_end_of_message E fuel clearbuf dispatch_message _ Hlen Heom) in Hrun.
  assert (dispatch_message = d4) as -> by (cbn in Hf; congruence).
  assert (r4 = radio (snd (do_command0 E fuel m))) as -> by reflexivity.
  rewrite Hrun. clear Hrun.
  unfold ret, on_radio, on_self, end_of_message_handled. cbn [snd radio self].
  cbn [ticks last_EOM set_io].
  split; intros ->; unfold m; cbn [after_dispatch on_radio radio self].
  - destruct (Qgtb _ 5); unfold buffer, deref;
      cbn [averaged heap same_messages set_fired set_last_EOM set_ticks
           set_same_timeout set_io];
      (split; [exact A|reflexivity]).
  - unfold dispatched. fold (buffer r3). rewrite B.
    destruct (Qgtb _ 5); unfold buffer at 1, deref;
      cbn [averaged heap same_messages set_fired set_last_EOM set_ticks
           set_same_timeout set_io set_same_messages set_heap set_averaged];
      rewrite A, lookup_app_r, Nat.sub_diag by lia; (split; reflexivity).
Qed.

End Scenario.

(** * The properties on the bench *)

Lemma header_chip_answers : answers_status_reads header_chip.
Proof. intros log. split; [reflexivity|]. repeat constructor; lia. Qed.

Lemma transmission_chip_answers : answers_status_reads transmission_chip.
Proof.
  intros log. cbn [chip transmission_chip bench].
  destruct (reads (log ++ [readList 0 14]) <=? 9)%nat;
    (split; [reflexivity|]); repeat constructor; lia.
Qed.

(** What one header poll leaves on the bench: two status reads eight bytes
    apart and the clear request on the bus, the reception cut to thirteen
    symbols in the buffer, the deadline at 1006 s. *)
Example header_poll_on_the_bench :
  let r := polled header_chip 4 interrupt_poll bench_radio in
  io r = [writeList 84 [1; 0]; wait_for_clear_to_send; readList 0 14;
          writeList 84 [1; 8]; wait_for_clear_to_send; readList 0 14;
          writeList 84 [0; 0]; wait_for_clear_to_send; readList 0 14] /\
  buffer r = [([90; 67; 90; 67; 45; 87; 88; 82; 90; 67; 90; 67; 45],
               [3; 2; 1; 0; 0; 1; 2; 3; 3; 2; 1; 0; 0])] /\
  fired r = [SAMEHeaderReceived 0] /\
  same_timeout r = Fin (1000 + 6).
Proof. vm_compute. repeat split. Qed.

(** ** C1 on the bench *)

Lemma header_ready_poll_witness :
  let m := {| self := interrupt_poll; radio := bench_radio |} in
  let final := snd (do_command0 header_chip 4 m) in
  HDRRDY (polled_status header_chip false true m) = true /\
  fst (do_command0 header_chip 4 m) = Ret VNone /\
  fired (radio final) = [SAMEHeaderReceived 0] /\
  same_timeout (radio final) = Fin (clock header_chip 0 + 6).
Proof.
  intros m final.
  destruct (header_ready_poll header_chip header_chip_answers 4 m None false false)
    as (Hret & _ & _ & _ & _ & _ & _ & Hfired & Hdeadline);
    try (vm_compute; reflexivity); try (vm_compute; lia).
  split; [reflexivity|].
  split; [exact Hret|].
  split; [exact Hfired|exact Hdeadline].
Defined.

(** A poll with interrupt acknowledge that decodes HDRRDY together with
    PREDET takes the preamble branch: it reads the status once, appends
    nothing to the buffer, sends no clear request and fires no event. *)
Lemma header_ready_with_preamble :
  let m := {| self := interrupt_poll; radio := bench_radio |} in
  let final := snd (do_command0 preamble_header_chip 4 m) in
  HDRRDY (polled_status preamble_header_chip false true m) = true /\
  fst (do_command0 preamble_header_chip 4 m) = Ret VNone /\
  io (radio final) = [writeList 84 [1; 0]; wait_for_clear_to_send; readList 0 14] /\
  fired (radio final) = [] /\
  ~ (exists x, buffer (radio final) = buffer (radio m) ++ [x]).
Proof.
  vm_compute. repeat (split; [reflexivity|]).
  intros (x & Hx). discriminate Hx.
Qed.

(** ** C2 on the bench *)

Lemma dispatch_request_witness :
  let m := {| self := SameInterruptCheck_init false false true; radio := loaded_radio |} in
  let final := snd (do_command0 header_chip 4 m) in
  same_timeout (radio final) = PosInf /\
  averaged (radio final) = [[([90; 67; 90; 67], [3; 3; 2; 3])]] /\
  buffer (radio final) = [].
Proof.
  intros m final.
  destruct (dispatch_request header_chip 4 m None false true eq_refl)
    as (_ & _ & _ & Hfull & _ & Hcalls & _ & Hquiet).
  destruct Hfull as (Hcall & Hempty & _); [discriminate|].
  destruct (Hquiet eq_refl) as (Hdeadline & Hbuffer & _).
  split; [exact Hdeadline|].
  split.
  - unfold final. rewrite Hcalls. exact Hcall.
  - unfold final. rewrite Hbuffer. exact Hempty.
Defined.

(** ** C3 on the bench *)

Lemma end_of_message_once_per_5s_witness :
  let m := {| self := interrupt_poll; radio := bench_radio |} in
  let r1 := radio (snd (do_command0 end_of_message_chip 4 m)) in
  let m' := {| self := interrupt_poll; radio := r1 |} in
  let r2 := radio (snd (do_command0 end_of_message_chip 4 m')) in
  (clock end_of_message_chip (ticks bench_radio) - last_EOM bench_radio > 5)%Q /\
  (clock end_of_message_chip (ticks r1) - last_EOM r1 <= 5)%Q /\
  (eom_count (emitted bench_radio r1) + eom_count (emitted r1 r2))%nat = 1%nat.
Proof.
  intros m r1 m' r2.
  split; [vm_compute; reflexivity|].
  split; [vm_compute; discriminate|].
  destruct (end_of_message_once_per_5s end_of_message_chip 4 4 m m')
    as (_ & _ & _ & _ & Hnotifies & _).
  - exists None, false, false.
    split; [reflexivity|]. split; [vm_compute; lia|vm_compute; reflexivity].
  - exists None, false, false.
    split; [reflexivity|]. split; [vm_compute; lia|vm_compute; reflexivity].
  - vm_compute. reflexivity.
  - refine ((fun H => _) (proj1 (proj2 (proj2 (Hnotifies _))) _)).
    + vm_compute in H. vm_compute. exact H.
    + vm_compute. reflexivity.
    + vm_compute. discriminate.
Defined.

(** The end of message comes up to three times per transmission. The first
    handling notifies; the second and the third both come within 5 seconds
    of that notification and are silent, so this pair of handlings emits no
    notification, not one. *)
Lemma repeated_end_of_message_is_silent :
  let r1 := polled end_of_message_chip 4 interrupt_poll bench_radio in
  let r2 := polled end_of_message_chip 4 interrupt_poll r1 in
  let r3 := polled end_of_message_chip 4 interrupt_poll r2 in
  eom_count (emitted bench_radio r1) = 1%nat /\
  (clock end_of_message_chip (ticks r1) - last_EOM r1 <= 5)%Q /\
  (clock end_of_message_chip (ticks r2) - last_EOM r2 <= 5)%Q /\
  (eom_count (emitted r1 r2) + eom_count (emitted r2 r3))%nat = 0%nat /\
  same_timeout r2 = Fin 0 /\ same_timeout r3 = Fin 0.
Proof.
  vm_compute.
  split; [reflexivity|]. split; [discriminate|]. split; [discriminate|].
  repeat split.
Qed.

(** ** C4 on the bench *)

Lemma confidence_decode_layout_witness :
  length header_response = 14%nat /\
  CONFIDENCE (status_of (take 4 header_response ++
                         encode_confidence [3; 2; 1; 0; 0; 1; 2; 3] ++
                         drop 6 header_response)) = [3; 2; 1; 0; 0; 1; 2; 3].
Proof.
  split; [reflexivity|].
  destruct (confidence_decode_layout header_response
              {| self := interrupt_poll; radio := bench_radio |} eq_refl)
    as (_ & _ & Hround).
  apply (Hround [3; 2; 1; 0; 0; 1; 2; 3] (take 4 header_response)).
  - reflexivity.
  - repeat constructor; lia.
  - reflexivity.
Defined.

(** ** C5 on the bench *)

Lemma tune_frequency_witness :
  let cmd := new "WB_TUNE_FREQ" 80 (FTuneFrequency 65020 None None) in
  let m := {| self := cmd; radio := bench_radio |} in
  in_weather_band (float 162.55) /\
  TuneFrequency_init 162.55 = inr cmd /\
  fst (do_command0 tuned_chip 1 m) = Ret (VTune 40 25 (inject_Z 65020 / 400)).
Proof.
  intros cmd m.
  assert (in_weather_band (float 162.55)) as Hband by (split; vm_compute; discriminate).
  split; [exact Hband|].
  destruct (tune_frequency tuned_chip 1 0 0 162.55 bench_radio 128 1 253 252 40 25
              Hband)
    as (Hinit & _ & _ & Hsame & _).
  - reflexivity.
  - lia.
  - vm_compute. reflexivity.
  - lia.
  - split; [intros j Hj; lia|vm_compute; reflexivity].
  - vm_compute. reflexivity.
  - repeat constructor; lia.
  - split; [vm_compute in Hinit; vm_compute; exact Hinit|].
    refine ((fun H => _) (proj1 (Hsame _))).
    + vm_compute in H. vm_compute. exact H.
    + vm_compute. reflexivity.
Defined.

(** The seven weather channels. The float nearest to 162.45 lies below it,
    and its product with 400 rounds to a float below 64980: the field stored
    for 162.45 MHz is 64979. *)
Example weather_channels_on_the_bench :
  map TuneFrequency_init [162.4; 162.425; 162.45; 162.475; 162.5; 162.525; 162.55]%Q =
  map (fun field => inr (new "WB_TUNE_FREQ" 80 (FTuneFrequency field None None)))
      [64960; 64970; 64979; 64990; 65000; 65010; 65020].
Proof. vm_compute. reflexivity. Qed.

(** ** C6 on the bench *)

Lemma power_guard_witness :
  radio_power bench_radio_off = false /\
  execute header_chip 1 GetRevision_init bench_radio_off =
  (Raise (ValueError (AttemptedWhenPoweredDown GetRevision)), GetRevision_init,
   bench_radio_off) /\
  io (snd (execute header_chip 1
             (new "POWER_UP" 1 (FPowerUp false true true false 3 5)) bench_radio_off)) =
  [writeList 1 [83; 5]; wait_for_clear_to_send].
Proof.
  split; [reflexivity|].
  split.
  - destruct (power_guard header_chip 1 GetRevision_init bench_radio_off eq_refl)
      as (_ & _ & Hrefused & _).
    apply Hrefused. reflexivity.
  - destruct (power_guard header_chip 1
                (new "POWER_UP" 1 (FPowerUp false true true false 3 5))
                bench_radio_off eq_refl)
      as (_ & _ & _ & Hup).
    destruct (Hup false true true false 5 eq_refl) as (_ & _ & Hio).
    exact Hio.
Defined.

(** [PowerDown] derives from [CommandRequiringPowerUp]: with the power flag
    false it is refused like the others, before any call of the bus. *)
Lemma power_down_is_guarded :
  issubclass (type PowerDown_init) CommandRequiringPowerUp = true /\
  execute header_chip 1 PowerDown_init bench_radio_off =
  (Raise (ValueError (AttemptedWhenPoweredDown PowerDown)), PowerDown_init,
   bench_radio_off) /\
  io bench_radio_off = [].
Proof. vm_compute. repeat split. Qed.

(** ** C7 on the bench *)

Lemma outcome_delivery_witness :
  let cmd := set_future (Some 7%nat) GetRevision_init in
  let cmd' := snd (fst (execute header_chip 1 cmd bench_radio)) in
  let r' := snd (execute header_chip 1 cmd bench_radio) in
  future cmd' = None /\
  time_complete cmd' = Some (clock header_chip 0) /\
  delivered r' = [(7%nat, Result (VRevision (Revision header_response)))].
Proof.
  intros cmd cmd' r'.
  destruct (outcome_delivery header_chip 1 cmd bench_radio) as (Hreleased & Htime & Hcase).
  - intros _. reflexivity.
  - vm_compute. discriminate.
  - split; [exact Hreleased|].
    split; [vm_compute in Htime; vm_compute; exact Htime|].
    vm_compute in Hcase. destruct Hcase as (_ & _ & _ & Hdelivered).
    vm_compute. exact Hdelivered.
Defined.

(** A guarded command with a future attached, executed with the power flag
    false, raises to its caller: nothing is delivered through the future, the
    future stays attached and no completion time is recorded. *)
Lemma refused_command_keeps_future :
  let cmd := set_future (Some 7%nat) GetRevision_init in
  let cmd' := snd (fst (execute header_chip 1 cmd bench_radio_off)) in
  let r' := snd (execute header_chip 1 cmd bench_radio_off) in
  fst (fst (execute header_chip 1 cmd bench_radio_off)) =
    Raise (ValueError (AttemptedWhenPoweredDown GetRevision)) /\
  delivered r' = [] /\
  future cmd' = Some 7%nat /\
  time_complete cmd' = None.
Proof. vm_compute. repeat split. Qed.

(** ** C8 on the bench *)

Lemma three_headers_then_end_of_message_witness :
  let r1 := polled transmission_chip 31 interrupt_poll bench_radio in
  let r2 := polled transmission_chip 31 interrupt_poll r1 in
  let r3 := polled transmission_chip 31 interrupt_poll r2 in
  let r4 := polled transmission_chip 31 (SameInterruptCheck_init true false true) r3 in
  length (buffer r3) = 3%nat /\
  averaged r4 = [buffer r3] /\
  buffer r4 = [].
Proof.
  intros r1 r2 r3 r4.
  destruct (three_headers_then_end_of_message transmission_chip transmission_chip_answers
              31 bench_radio false false false false true)
    as (Hthree & _ & _ & _ & Hdispatch).
  - lia.
  - reflexivity.
  - vm_compute. lia.
  - vm_compute. repeat split.
  - vm_compute. repeat split.
  - vm_compute. repeat split.
  - exists None, true, true.
    split; [reflexivity|]. split; [vm_compute; lia|vm_compute; reflexivity].
  - split; [vm_compute in Hthree; vm_compute; exact Hthree|].
    refine ((fun H => _) (Hdispatch eq_refl)).
    vm_compute in H. vm_compute. exact H.
Defined.

(** Three header polls and an end-of-message poll, all of them the interrupt
    poll [SameInterruptCheck(intack=True)]: the decoder is not called and the
    three receptions are still in the buffer. *)
Lemma end_of_message_poll_decodes_nothing :
  let r1 := polled transmission_chip 31 interrupt_poll bench_radio in
  let r2 := polled transmission_chip 31 interrupt_poll r1 in
  let r3 := polled transmission_chip 31 interrupt_poll r2 in
  let r4 := polled transmission_chip 31 interrupt_poll r3 in
  buffer bench_radio = [] /\
  header_ready_for transmission_chip false bench_radio /\
  header_ready_for transmission_chip false r1 /\
  header_ready_for transmission_chip false r2 /\
  EOMDET (polled_status transmission_chip false true
            {| self := interrupt_poll; radio := r3 |}) = true /\
  fired r4 = [SAMEHeaderReceived 0; SAMEHeaderReceived 0; SAMEHeaderReceived 0;
              EndOfMessage] /\
  averaged r4 = [] /\
  length (buffer r4) = 3%nat.
Proof. vm_compute. repeat split. Qed.

(** ** C10 on the bench *)

Lemma no_flag_processing_without_intack_witness :
  let m := {| self := SameInterruptCheck_init false false false; radio := bench_radio |} in
  let final := snd (do_command0 header_chip 4 m) in
  HDRRDY (polled_status header_chip false false m) = true /\
  buffer (radio final) = [] /\
  fired (radio final) = [] /\
  same_timeout (radio final) = PosInf.
Proof.
  intros m final.
  destruct (no_flag_processing_without_intack header_chip 4 m None false false eq_refl)
    as (_ & _ & _ & Hbuffer & Hdeadline & _ & Hfired & _).
  split; [vm_compute; reflexivity|].
  split; [exact Hbuffer|].
  split; [exact Hfired|exact Hdeadline].
Defined.

(** * Further properties of the commands *)

(** ** Priorities *)

(** X1. Method resolution gives every class a priority, the one of the
    table: 0 for the power transitions [PowerUp], [PatchCommand] and
    [PowerDown], 1 for the classes derived from [InterruptHandler], 2 for
    all others; so a power transition is never outranked. *)
Theorem priority_by_inheritance (c : Class) :
  resolve_get_priority 3 c = Some (get_priority c) /\
  (get_priority c = 0 <-> c = PowerUp \/ c = PatchCommand \/ c = PowerDown) /\
  (get_priority c = 1 <-> issubclass c InterruptHandler = true) /\
  0 <= get_priority c <= 2.
Proof.
  destruct c; cbn; repeat split; intros; try lia; try discriminate; auto;
    try (destruct H as [H|[H|H]]; discriminate H).
Qed.

(** ** Power transitions *)

(** Runs a straight-line computation on a machine given by its components. *)
Ltac run :=
  unfold hardware_io_writeList, hardware_io_write8, hardware_io_readList,
    radio_wait_for_clear_to_send, radio_fire_event, radio_delay_event,
    radio_do_command, time_time, log_io, bind, ret, raise, read, read_self, update,
    update_self, on_radio, on_self;
  cbn [self radio fields value io ticks set_io set_ticks fst snd].

Section PowerTransitions.

Variable E : Env.

(** X2. The request of a constructed [PowerUp] is the opcode with two bytes,
    and the constructor's arguments can be read back from the first: bit 7
    the CTS interrupt, bit 6 the GPO2 output, bit 5 the patch flag, bit 4 the
    crystal oscillator, the low four bits the function; the second byte is
    one of the four operating modes. *)
Theorem power_up_request_decodes (cts gpo2 xosc patch : bool) (function opmode : Z)
    (cmd : CommandObject) (r : Radio) :
  PowerUp_init cts gpo2 xosc patch function opmode = inr cmd ->
  exists flags,
    io (radio (snd (PowerUp_do_command00 E {| self := cmd; radio := r |}))) =
      io r ++ [writeList 1 [flags; opmode]; wait_for_clear_to_send] /\
    0 <= flags < 256 /\
    Z.testbit flags 7 = cts /\
    Z.testbit flags 6 = gpo2 /\
    Z.testbit flags 5 = patch /\
    Z.testbit flags 4 = xosc /\
    Z.land flags 15 = function /\
    In opmode [5; 11; 176; 181].
Proof.
  unfold PowerUp_init. intros Hinit.
  destruct ((function =? 3) || (function =? 15)) eqn:Hfun; [|discriminate Hinit].
  destruct ((opmode =? 5) || (opmode =? 11) || (opmode =? 176) || (opmode =? 181))
    eqn:Hop; [|discriminate Hinit].
  cbn [negb] in Hinit. injection Hinit as <-.
  exists (PowerUp_flags cts gpo2 xosc patch function).
  split.
  { unfold PowerUp_do_command00, PowerUp_flags, new. run. cbn.
    rewrite <- ?app_assoc. reflexivity. }
  assert (function = 3 \/ function = 15) as Hf by lia.
  assert (In opmode [5; 11; 176; 181]) as Ho by (cbn [In]; lia).
  destruct Hf as [-> | ->], cts, gpo2, xosc, patch;
    vm_compute; (repeat split; try discriminate; try reflexivity; exact Ho).
Qed.

(** X3. A [PowerUp] for a function other than 15 sets the power flag and
    fires [RadioPowerEvent(True)] without reading from the bus. With the
    crystal oscillator it reads the clock once, sets [tune_after] half a
    second later and delays [ReadyToTuneEvent] until then; without it,
    [tune_after] is minus infinity and [ReadyToTuneEvent] is fired at once.
    It returns what [wait_for_clear_to_send] returned. *)
Theorem power_up_schedules_tuning (fuel : nat) (cmd : CommandObject) (r : Radio)
    (cts gpo2 xosc patch : bool) (function opmode : Z) :
  fields cmd = FPowerUp cts gpo2 xosc patch function opmode ->
  function <> 15 ->
  let request := [writeList (value cmd) [PowerUp_flags cts gpo2 xosc patch function; opmode];
                  wait_for_clear_to_send] in
  let run := do_command0 E fuel {| self := cmd; radio := r |} in
  let r' := radio (snd run) in
  let now := clock E (ticks r) in
  fst run = Ret (VCts (cts_status E (io r ++ request))) /\
  self (snd run) = cmd /\
  io r' = io r ++ request /\
  radio_power r' = true /\
  revision r' = revision r /\
  if xosc
  then tune_after r' = Fin (now + 0.5) /\
       fired r' = fired r ++ [RadioPowerEvent true] /\
       delayed r' = delayed r ++ [(ReadyToTuneEvent, (now + 0.5)%Q)] /\
       ticks r' = S (ticks r)
  else tune_after r' = NegInf /\
       fired r' = fired r ++ [RadioPowerEvent true; ReadyToTuneEvent] /\
       delayed r' = delayed r /\
       ticks r' = ticks r.
Proof.
  intros Hf Hfun.
  destruct cmd as [mn v fut exc res tc flds]. cbn [fields] in Hf. subst flds.
  cbv zeta. unfold do_command0, PowerUp_do_command0, PowerUp_do_command00, PowerUp_flags.
  run.
  apply Z.eqb_neq in Hfun. rewrite Hfun.
  destruct xosc; run; cbn; rewrite <- !app_assoc; repeat split; reflexivity.
Qed.

(** X4. A [PowerUp] with function 15 (query library id) reads eight bytes,
    stores and returns them as a [PupRevision], and powers nothing up: the
    power flag, [tune_after] and the events are as before, and the clock is
    not read. *)
Theorem power_up_query_library_id (fuel : nat) (cmd : CommandObject) (r : Radio)
    (cts gpo2 xosc patch : bool) (opmode : Z) :
  fields cmd = FPowerUp cts gpo2 xosc patch 15 opmode ->
  let log := io r ++ [writeList (value cmd) [PowerUp_flags cts gpo2 xosc patch 15; opmode];
                      wait_for_clear_to_send; readList 0 8] in
  let run := do_command0 E fuel {| self := cmd; radio := r |} in
  let r' := radio (snd run) in
  fst run = Ret (VRevision (PupRevision (chip E log))) /\
  revision r' = Some (PupRevision (chip E log)) /\
  io r' = log /\
  radio_power r' = radio_power r /\
  tune_after r' = tune_after r /\
  fired r' = fired r /\
  delayed r' = delayed r /\
  ticks r' = ticks r.
Proof.
  intros Hf.
  destruct cmd as [mn v fut exc res tc flds]. cbn [fields] in Hf. subst flds.
  cbv zeta. unfold do_command0, PowerUp_do_command0, PowerUp_do_command00, PowerUp_flags.
  run. cbn. rewrite <- !app_assoc. cbn [app]. repeat split; reflexivity.
Qed.

(** X5. [PowerDown] on a powered radio writes its opcode, waits for clear
    to send, clears the power flag and fires [RadioPowerEvent(False)]; its
    result is [None]. Every guarded command executed next, a second
    [PowerDown] included, is refused and leaves the radio as it is. *)
Theorem power_down_then_refused (fuel : nat) (cmd : CommandObject) (r : Radio) :
  fields cmd = FPowerDown ->
  radio_power r = true ->
  let cmd' := snd (fst (execute E fuel cmd r)) in
  let r' := snd (execute E fuel cmd r) in
  fst (fst (execute E fuel cmd r)) = Ret tt /\
  result cmd' = Some VNone /\
  io r' = io r ++ [write8 (value cmd) 0; wait_for_clear_to_send] /\
  radio_power r' = false /\
  fired r' = fired r ++ [RadioPowerEvent false] /\
  tune_after r' = tune_after r /\
  forall (fuel' : nat) (next : CommandObject),
    issubclass (type next) CommandRequiringPowerUp = true ->
    execute E fuel' next r' =
    (Raise (ValueError (AttemptedWhenPoweredDown (type next))), next, r').
Proof.
  intros Hf Hon.
  assert (fst (fst (execute E fuel cmd r)) = Ret tt /\
          result (snd (fst (execute E fuel cmd r))) = Some VNone /\
          io (snd (execute E fuel cmd r)) =
            io r ++ [write8 (value cmd) 0; wait_for_clear_to_send] /\
          radio_power (snd (execute E fuel cmd r)) = false /\
          fired (snd (execute E fuel cmd r)) = fired r ++ [RadioPowerEvent false] /\
          tune_after (snd (execute E fuel cmd r)) = tune_after r) as Hrun.
  { destruct cmd as [mn v fut exc res tc flds]. cbn [fields] in Hf. subst flds.
    unfold execute, do_command, type. run. cbn [class_of issubclass issubclass_within
      Class_eqb base_class orb].
    unfold CommandRequiringPowerUp_do_command. run. rewrite Hon. cbn [negb].
    destruct fut; cbn; rewrite <- !app_assoc; repeat split; reflexivity. }
  cbv zeta. destruct Hrun as (H1 & H2 & H3 & H4 & H5 & H6).
  repeat split; try assumption.
  intros fuel' next Hsub. apply guard_refuses; assumption.
Qed.

End PowerTransitions.

(** ** Properties, and the responses of fixed length *)

Lemma bytes_ok (l : list Z) (m : Machine) : all_bytes l -> bytes l m = (Ret l, m).
Proof.
  intros Hl. unfold bytes.
  replace (forallb is_byte l) with true; [reflexivity|].
  symmetry. apply forallb_forall. intros b Hin.
  apply list_elem_of_In in Hin.
  unfold all_bytes in Hl. rewrite Forall_forall in Hl. specialize (Hl b Hin).
  unfold is_byte. lia.
Qed.

Lemma land_b2z_1 (b : bool) : Z.land (Z.b2z b) 1 = Z.b2z b.
Proof. destruct b; reflexivity. Qed.

Lemma unpack_b_range (b : Z) :
  0 <= b < 256 -> -128 <= unpack_b b < 128 /\ unpack_b b mod 256 = b.
Proof.
  intros Hb. unfold unpack_b. destruct (b <? 128) eqn:Hlt.
  - split; [lia|]. apply Z.mod_small. lia.
  - split; [lia|].
    replace (b - 256) with (b + (-1) * 256) by lia.
    rewrite Z.mod_add by lia. apply Z.mod_small. lia.
Qed.

Lemma unpack_H_range (hi lo : Z) :
  0 <= hi < 256 -> 0 <= lo < 256 -> 0 <= unpack_H hi lo < 65536.
Proof. unfold unpack_H. lia. Qed.

(** The flag bits of a signed byte are the bits of the byte read. *)
Lemma flag_of_signed_byte (b : Z) (k : nat) :
  0 <= b < 256 -> (k < 8)%nat ->
  negb (Z.land (unpack_b b) (2 ^ Z.of_nat k) =? 0) = Z.testbit b (Z.of_nat k).
Proof.
  intros Hb Hk.
  assert (forallb (fun n =>
            forallb (fun j =>
              Bool.eqb (negb (Z.land (unpack_b (Z.of_nat n)) (2 ^ Z.of_nat j) =? 0))
                       (Z.testbit (Z.of_nat n) (Z.of_nat j)))
              (seq 0 8)) (seq 0 256) = true) as Hall by (vm_compute; reflexivity).
  rewrite forallb_forall in Hall.
  specialize (Hall (Z.to_nat b)).
  rewrite Z2Nat.id in Hall by lia.
  assert (In (Z.to_nat b) (seq 0 256)) as Hin by (apply in_seq; lia).
  specialize (Hall Hin).
  rewrite forallb_forall in Hall.
  specialize (Hall k).
  assert (In k (seq 0 8)) as Hin' by (apply in_seq; lia).
  specialize (Hall Hin').
  apply Bool.eqb_prop in Hall. exact Hall.
Qed.

Section FixedResponses.

Variable E : Env.

(** X6. [SetProperty] writes one request of five bytes, the code and the
    value big-endian after a zero, and neither waits nor reads. A
    [GetProperty] for the same code asks with the same two code bytes, and
    when the chip answers with the two value bytes [SetProperty] wrote, it
    returns and stores the value that was set. *)
Theorem property_round_trip (fuel : nat) (set get : CommandObject) (r r0 : Radio)
    (name name' : string) (c x : Z) (old : option Z) (s0 s1 : Z) :
  fields set = FSetProperty {| property_mnemonic := name; code := c;
                               property_value := Some x |} ->
  fields get = FGetProperty {| property_mnemonic := name'; code := c;
                               property_value := old |} ->
  0 <= c < 65536 ->
  0 <= x < 65536 ->
  0 <= s0 < 256 ->
  0 <= s1 < 256 ->
  let c_hi := Z.shiftr c 8 in
  let c_lo := Z.land c 255 in
  let x_hi := Z.shiftr x 8 in
  let x_lo := Z.land x 255 in
  let log := exchanged get [0; c_hi; c_lo] 4 (io r0) in
  do_command0 E fuel {| self := set; radio := r |} =
    (Ret VNone,
     {| self := set;
        radio := set_io (io r ++ [writeList (value set) [0; c_hi; c_lo; x_hi; x_lo]]) r |}) /\
  (chip E log = [s0; s1; x_hi; x_lo] ->
   do_command0 E fuel {| self := get; radio := r0 |} =
     (Ret (VInt x),
      {| self := set_fields (FGetProperty {| property_mnemonic := name'; code := c;
                                             property_value := Some x |}) get;
         radio := set_io log r0 |})).
Proof.
  intros Hset Hget Hc Hx Hs0 Hs1. cbv zeta.
  assert (0 <= Z.shiftr x 8 < 256) as Hhi.
  { rewrite Z.shiftr_div_pow2 by lia. change (2 ^ 8) with 256.
    split; [apply Z.div_pos; lia | apply Z.div_lt_upper_bound; lia]. }
  assert (0 <= Z.land x 255 < 256) as Hlo.
  { change 255 with (Z.ones 8). rewrite Z.land_ones by lia.
    change (2 ^ 8) with 256. apply Z.mod_pos_bound. lia. }
  split.
  - destruct set as [mn v fut exc res tc flds]. cbn [fields] in Hset. subst flds.
    unfold do_command0, SetProperty_do_command0, pack_H. run.
    cbn [code property_value].
    replace ((0 <=? c) && (c <? 65536)) with true by lia.
    replace ((0 <=? x) && (x <? 65536)) with true by lia.
    reflexivity.
  - intros Hchip.
    destruct get as [mn v fut exc res tc flds]. cbn [fields] in Hget. subst flds.
    unfold exchanged in Hchip. cbn [value] in Hchip.
    unfold do_command0, GetProperty_do_command0. run.
    cbn [code property_mnemonic]. rewrite <- !app_assoc. cbn [app].
    rewrite Hchip, bytes_ok by (repeat constructor; lia).
    rewrite unpack_pack_H by lia.
    unfold exchanged. reflexivity.
Qed.

(** X7. A [SetProperty] whose code or value does not fit in sixteen bits
    fails with [struct.error] before anything reaches the bus: the machine
    is as it was. Executed on a powered radio, the error is recorded in the
    command and the I/O log is still unchanged; with a future attached the
    error is delivered through it, once, and [do_command] returns, and with
    none nothing is delivered and the error is raised to the caller; the
    future is released either way. *)
Theorem set_property_out_of_range (fuel : nat) (cmd : CommandObject) (r : Radio)
    (name : string) (c x : Z) :
  fields cmd = FSetProperty {| property_mnemonic := name; code := c;
                               property_value := Some x |} ->
  ~ (0 <= c < 65536 /\ 0 <= x < 65536) ->
  radio_power r = true ->
  do_command0 E fuel {| self := cmd; radio := r |} =
    (Raise StructError, {| self := cmd; radio := r |}) /\
  exception (snd (fst (execute E fuel cmd r))) = Some StructError /\
  io (snd (execute E fuel cmd r)) = io r /\
  fst (fst (execute E fuel cmd r)) =
    match future cmd with Some _ => Ret tt | None => Raise StructError end /\
  delivered (snd (execute E fuel cmd r)) =
    match future cmd with
    | Some handle => delivered r ++ [(handle, Failure StructError)]
    | None => delivered r
    end /\
  future (snd (fst (execute E fuel cmd r))) = None.
Proof.
  intros Hf Hrange Hon.
  assert (do_command0 E fuel {| self := cmd; radio := r |} =
          (Raise StructError, {| self := cmd; radio := r |})) as Hbody.
  { destruct cmd as [mn v fut exc res tc flds]. cbn [fields] in Hf. subst flds.
    unfold do_command0, SetProperty_do_command0, pack_H. run.
    cbn [code property_value].
    destruct ((0 <=? c) && (c <? 65536)) eqn:Hc; [|reflexivity].
    destruct ((0 <=? x) && (x <? 65536)) eqn:Hx; [|reflexivity].
    exfalso. apply Hrange. lia. }
  split; [exact Hbody|].
  unfold execute.
  rewrite do_command_admitted by (intros _; exact Hon).
  rewrite (Command_do_command_raises E _ _ _ _ Hbody).
  cbn [self radio fst snd].
  unfold finished, on_radio, on_self, deliver. cbn [self radio].
  destruct (future cmd); repeat split; reflexivity.
Qed.

(** X8. The four commands that unpack a response of fixed length
    ([GetProperty] 4 bytes, [TuneStatus] 6, [ReceivedSignalQualityCheck] 8,
    [AlertToneCheck] 3) fail with [struct.error] when the bus returns another
    number of bytes: the exchange is made, the attributes of the command
    keep their values, and [AlertToneCheck] submits no [SameInterruptCheck]. *)
Theorem response_of_wrong_length (fuel : nat) (cmd : CommandObject) (r : Radio)
    (payload : list Z) (count : Z) :
  fixed_exchange (fields cmd) = Some (payload, count) ->
  let log := exchanged cmd payload count (io r) in
  all_bytes (chip E log) ->
  Z.of_nat (length (chip E log)) <> count ->
  do_command0 E fuel {| self := cmd; radio := r |} =
    (Raise StructError, {| self := cmd; radio := set_io log r |}).
Proof.
  intros Hex log Hb Hlen.
  destruct cmd as [mn v fut exc res tc flds]. cbn [fields] in Hex.
  unfold log, exchanged in *. cbn [value] in *. clear log.
  destruct flds; try discriminate Hex; cbn [fixed_exchange] in Hex;
    injection Hex as <- <-;
    unfold do_command0, GetProperty_do_command0, TuneStatus_do_command0,
      ReceivedSignalQualityCheck_do_command0, AlertToneCheck_do_command0;
    run; rewrite ?land_b2z_1, <- !app_assoc; cbn [app];
    rewrite bytes_ok by exact Hb;
    match goal with
    | |- context [chip E ?l] => destruct (chip E l) as [|? [|? [|? [|? [|? [|? [|? [|? [|? ?]]]]]]]]]
    end; cbn [length] in Hlen; try lia; reflexivity.
Qed.

(** X9. [TuneStatus] on a response of six bytes: the frequency is the
    big-endian word of bytes 2 and 3, so within sixteen bits, and is returned
    divided by 400; signal strength and signal-to-noise ratio are bytes 4 and
    5 read as signed, so between -128 and 127 and congruent to the byte
    modulo 256. The request carries the acknowledge flag as its only byte. *)
Theorem tune_status_decodes (fuel : nat) (cmd : CommandObject) (r : Radio)
    (ack_stc : bool) (f0 r0 n0 : option Z) (b0 b1 hi lo rs sn : Z) :
  fields cmd = FTuneStatus ack_stc f0 r0 n0 ->
  let log := exchanged cmd [Z.b2z ack_stc] 6 (io r) in
  chip E log = [b0; b1; hi; lo; rs; sn] ->
  all_bytes [b0; b1; hi; lo; rs; sn] ->
  exists frequency rssi snr,
    do_command0 E fuel {| self := cmd; radio := r |} =
      (Ret (VTuneStatus (inject_Z frequency / 400) rssi snr),
       {| self := set_fields (FTuneStatus ack_stc (Some frequency) (Some rssi) (Some snr)) cmd;
          radio := set_io log r |}) /\
    frequency = hi * 256 + lo /\ 0 <= frequency < 65536 /\
    -128 <= rssi < 128 /\ rssi mod 256 = rs /\
    -128 <= snr < 128 /\ snr mod 256 = sn.
Proof.
  intros Hf log Hchip Hb.
  exists (unpack_H hi lo), (unpack_b rs), (unpack_b sn).
  assert (0 <= hi < 256 /\ 0 <= lo < 256 /\ 0 <= rs < 256 /\ 0 <= sn < 256)
    as (Hhi & Hlo & Hrs & Hsn).
  { unfold all_bytes in Hb. rewrite !Forall_cons in Hb. tauto. }
  split.
  - destruct cmd as [mn v fut exc res tc flds]. cbn [fields] in Hf. subst flds.
    unfold log, exchanged in *. cbn [value] in *. clear log.
    unfold do_command0, TuneStatus_do_command0. run.
    rewrite land_b2z_1, <- !app_assoc. cbn [app].
    rewrite Hchip, bytes_ok by exact Hb. reflexivity.
  - pose proof (unpack_H_range hi lo Hhi Hlo).
    pose proof (unpack_b_range rs Hrs). pose proof (unpack_b_range sn Hsn).
    unfold unpack_H in *. intuition lia.
Qed.

(** X10. [ReceivedSignalQualityCheck] returns itself, so what [do_command]
    stores as result and delivers through the future is the string ["self"].
    Its six flags are bits of the bytes read: [afc_rail] and [valid_channel]
    bits 1 and 0 of byte 2, [snr_high], [snr_low], [rssi_high] and [rssi_low]
    bits 3 to 0 of byte 1. *)
Theorem signal_quality_check (fuel : nat) (cmd : CommandObject) (r : Radio)
    (ack_rsq : bool) o1 o2 o3 o4 o5 o6 o7 o8 o9 (b0 vf vl b3 rs sn b6 fo : Z) :
  fields cmd = FReceivedSignalQualityCheck ack_rsq o1 o2 o3 o4 o5 o6 o7 o8 o9 ->
  radio_power r = true ->
  let log := exchanged cmd [Z.b2z ack_rsq] 8 (io r) in
  chip E log = [b0; vf; vl; b3; rs; sn; b6; fo] ->
  all_bytes [b0; vf; vl; b3; rs; sn; b6; fo] ->
  let cmd' := snd (fst (execute E fuel cmd r)) in
  let r' := snd (execute E fuel cmd r) in
  fst (fst (execute E fuel cmd r)) = Ret tt /\
  result cmd' = Some VSelfStr /\
  delivered r' = delivered (deliver (future cmd) (Result VSelfStr) r) /\
  io r' = log /\
  fields cmd' =
    FReceivedSignalQualityCheck ack_rsq
      (Some (unpack_b rs)) (Some (unpack_b sn)) (Some (unpack_b fo))
      (Some (Z.testbit vl 1)) (Some (Z.testbit vl 0))
      (Some (Z.testbit vf 3)) (Some (Z.testbit vf 2))
      (Some (Z.testbit vf 1)) (Some (Z.testbit vf 0)).
Proof.
  intros Hf Hon log Hchip Hb.
  assert (0 <= vf < 256 /\ 0 <= vl < 256) as (Hvf & Hvl).
  { unfold all_bytes in Hb. rewrite !Forall_cons in Hb. tauto. }
  pose proof (flag_of_signed_byte vl 1 Hvl ltac:(lia)) as Hl1.
  pose proof (flag_of_signed_byte vl 0 Hvl ltac:(lia)) as Hl0.
  pose proof (flag_of_signed_byte vf 3 Hvf ltac:(lia)) as Hf3.
  pose proof (flag_of_signed_byte vf 2 Hvf ltac:(lia)) as Hf2.
  pose proof (flag_of_signed_byte vf 1 Hvf ltac:(lia)) as Hf1.
  pose proof (flag_of_signed_byte vf 0 Hvf ltac:(lia)) as Hf0.
  change (2 ^ Z.of_nat 1) with 2 in *. change (2 ^ Z.of_nat 0) with 1 in *.
  change (2 ^ Z.of_nat 3) with 8 in *. change (2 ^ Z.of_nat 2) with 4 in *.
  change (Z.of_nat 0) with 0 in *. change (Z.of_nat 1) with 1 in *.
  change (Z.of_nat 2) with 2 in *. change (Z.of_nat 3) with 3 in *.
  assert (do_command0 E fuel {| self := cmd; radio := r |} =
          (Ret VSelf,
           {| self := set_fields
                (FReceivedSignalQualityCheck ack_rsq
                   (Some (unpack_b rs)) (Some (unpack_b sn)) (Some (unpack_b fo))
                   (Some (Z.testbit vl 1)) (Some (Z.testbit vl 0))
                   (Some (Z.testbit vf 3)) (Some (Z.testbit vf 2))
                   (Some (Z.testbit vf 1)) (Some (Z.testbit vf 0))) cmd;
              radio := set_io log r |})) as Hbody.
  { destruct cmd as [mn v fut exc res tc flds]. cbn [fields] in Hf. subst flds.
    unfold log, exchanged in *. cbn [value] in *. clear log.
    unfold do_command0, ReceivedSignalQualityCheck_do_command0. run.
    rewrite land_b2z_1, <- !app_assoc. cbn [app].
    rewrite Hchip, bytes_ok by exact Hb.
    cbv beta iota zeta. rewrite Hl1, Hl0, Hf3, Hf2, Hf1, Hf0. reflexivity. }
  cbv zeta. unfold execute.
  rewrite do_command_admitted by (intros _; exact Hon).
  rewrite (Command_do_command_returns E _ _ _ _ Hbody).
  cbn [self radio fst snd].
  unfold finished, on_radio, on_self, deliver, stored. cbn [self radio].
  destruct cmd as [mn v fut exc res tc flds]. cbn [future].
  destruct fut; repeat split; reflexivity.
Qed.

End FixedResponses.

(** ** More on the SAME interrupt poll *)

Lemma bind_diverges {A C} (c : M A) (k : A -> M C) (m : Machine) :
  fst (c m) = Diverge -> fst (bind c k m) = Diverge.
Proof.
  intros H. unfold bind. destruct (c m) as [[a|e|] m1]; try discriminate H. reflexivity.
Qed.

Section SamePolls.

Variable E : Env.

Lemma preamble_run (m : Machine) :
  SameInterruptCheck_preamble E m = (Ret tt, on_radio (preamble_handled E) m).
Proof. reflexivity. Qed.

Lemma poll_preamble (fuel : nat) (clearbuf dispatch_message : bool) (m : Machine) :
  (6 <= polled_length E clearbuf true m)%nat ->
  EOMDET (polled_status E clearbuf true m) = false ->
  PREDET (polled_status E clearbuf true m) = true ->
  SameInterruptCheck_poll E fuel true clearbuf dispatch_message m =
  (Ret tt,
   on_radio (preamble_handled E)
     (on_self (set_fields (FSameInterruptCheck (Some (polled_status E clearbuf true m))
                             true clearbuf dispatch_message))
        (on_radio (set_io (io (radio m) ++
                           status_exchange (value (self m)) 0 clearbuf true)) m))).
Proof.
  intros Hlen Heom Hpre.
  unfold SameInterruptCheck_poll, bind at 1.
  rewrite get_status_run by exact Hlen.
  fold (polled_status E clearbuf true m). rewrite Heom, Hpre.
  unfold bind, update_self, when. rewrite preamble_run. reflexivity.
Qed.

Lemma get_status_short (readaddr : Z) (clearbuf intack : bool) (m : Machine) :
  let log := io (radio m) ++ status_exchange (value (self m)) readaddr clearbuf intack in
  (length (chip E log) < 6)%nat ->
  SameInterruptCheck_get_status E readaddr clearbuf intack m =
  (Raise IndexError, on_radio (set_io log) m).
Proof.
  intros log Hlen.
  unfold SameInterruptCheck_get_status, bind, read_self, hardware_io_writeList,
    radio_wait_for_clear_to_send, hardware_io_readList, log_io, update, read, bind,
    on_radio.
  cbn [self radio io set_io value].
  assert (((io (radio m) ++ [writeList (value (self m))
              [status_request clearbuf intack; readaddr]]) ++
           [wait_for_clear_to_send]) ++ [readList 0 14] = log) as ->.
  { unfold log, status_exchange. rewrite <- !app_assoc. reflexivity. }
  rewrite decode_status_short by exact Hlen.
  reflexivity.
Qed.

(** X11. A poll with interrupt acknowledge that decodes PREDET and not
    EOMDET only moves the deadline to six seconds after the clock reading,
    whatever HDRRDY says: one status exchange, no further read, the buffer
    and its store, the events and the end-of-message stamp as the dispatch
    block left them. *)
Theorem preamble_poll (fuel : nat) (m : Machine) status clearbuf dispatch_message :
  fields (self m) = FSameInterruptCheck status true clearbuf dispatch_message ->
  let m0 := after_dispatch E dispatch_message m in
  let st := polled_status E clearbuf true m0 in
  (6 <= polled_length E clearbuf true m0)%nat ->
  EOMDET st = false ->
  PREDET st = true ->
  let m1 := snd (do_command0 E fuel m) in
  fst (do_command0 E fuel m) = Ret VNone /\
  same_timeout (radio m1) = Fin (clock E (ticks (radio m)) + 6) /\
  ticks (radio m1) = S (ticks (radio m)) /\
  io (radio m1) = io (radio m) ++ status_exchange (value (self m)) 0 clearbuf true /\
  heap (radio m1) = heap (radio m0) /\
  same_messages (radio m1) = same_messages (radio m0) /\
  fired (radio m1) = fired (radio m0) /\
  last_EOM (radio m1) = last_EOM (radio m) /\
  fields (self m1) = FSameInterruptCheck (Some st) true clearbuf dispatch_message.
Proof.
  intros Hf m0 st Hlen Heom Hpre m1.
  pose proof (do_command0_phases E fuel m _ _ _ _ Hf) as Hrun.
  fold m0 in Hrun. unfold bind in Hrun.
  rewrite (poll_preamble fuel clearbuf dispatch_message m0 Hlen Heom Hpre) in Hrun.
  unfold m1. rewrite Hrun. clear Hrun.
  assert (value (self m0) = value (self m) /\ ticks (radio m0) = ticks (radio m) /\
          io (radio m0) = io (radio m) /\ last_EOM (radio m0) = last_EOM (radio m))
    as (Hv & Ht & Hio & Hl).
  { unfold m0, after_dispatch, on_radio, dispatched.
    destruct dispatch_message; [|repeat split; reflexivity].
    cbn [self radio]. destruct (buffer (radio m)); repeat split; reflexivity. }
  unfold ret, on_radio, on_self, preamble_handled. cbn.
  rewrite Hv, Ht, Hio, Hl. repeat split; reflexivity.
Qed.

(** X12. EOMDET comes first: a poll with interrupt acknowledge that decodes
    EOMDET reads no header even when HDRRDY is set as well. It makes one
    status exchange, leaves the buffer and its store alone and fires no
    header event. *)
Theorem end_of_message_masks_header (fuel : nat) (m : Machine)
    status clearbuf dispatch_message :
  fields (self m) = FSameInterruptCheck status true clearbuf dispatch_message ->
  let m0 := after_dispatch E dispatch_message m in
  let st := polled_status E clearbuf true m0 in
  (6 <= polled_length E clearbuf true m0)%nat ->
  EOMDET st = true ->
  let m1 := snd (do_command0 E fuel m) in
  fst (do_command0 E fuel m) = Ret VNone /\
  io (radio m1) = io (radio m) ++ status_exchange (value (self m)) 0 clearbuf true /\
  heap (radio m1) = heap (radio m0) /\
  same_messages (radio m1) = same_messages (radio m0) /\
  filter (fun e => is_SAMEHeaderReceived e = true) (emitted (radio m0) (radio m1)) = [].
Proof.
  intros Hf m0 st Hlen Heom m1.
  pose proof (do_command0_phases E fuel m _ _ _ _ Hf) as Hrun.
  fold m0 in Hrun. unfold bind in Hrun.
  rewrite (poll_end_of_message E fuel clearbuf dispatch_message m0 Hlen Heom) in Hrun.
  unfold m1. rewrite Hrun. clear Hrun.
  assert (value (self m0) = value (self m) /\ io (radio m0) = io (radio m)) as (Hv & Hio).
  { unfold m0, after_dispatch, on_radio, dispatched.
    destruct dispatch_message; [|repeat split; reflexivity].
    cbn [self radio]. destruct (buffer (radio m)); repeat split; reflexivity. }
  unfold ret, on_radio, on_self, end_of_message_handled, emitted. cbn [fst snd radio self].
  cbn [ticks last_EOM set_io].
  destruct (Qgtb _ 5); cbn; rewrite Hv, Hio; repeat split; try reflexivity.
  - rewrite drop_app_length. reflexivity.
  - rewrite drop_all. reflexivity.
Qed.

(** X13. A status response of fewer than six bytes makes the poll fail with
    [IndexError] right after the exchange: the [status] attribute is not
    assigned and, past the dispatch block, nothing but the I/O log changes. *)
Theorem short_status_response (fuel : nat) (m : Machine)
    status intack clearbuf dispatch_message :
  fields (self m) = FSameInterruptCheck status intack clearbuf dispatch_message ->
  let m0 := after_dispatch E dispatch_message m in
  (polled_length E clearbuf intack m0 < 6)%nat ->
  do_command0 E fuel m =
  (Raise IndexError,
   on_radio (set_io (io (radio m0) ++ status_exchange (value (self m0)) 0 clearbuf intack))
     m0) /\
  self m0 = self m.
Proof.
  intros Hf m0 Hlen.
  pose proof (do_command0_phases E fuel m _ _ _ _ Hf) as Hrun.
  fold m0 in Hrun. rewrite Hrun.
  split.
  - unfold bind at 1, SameInterruptCheck_poll, bind at 1.
    rewrite get_status_short by exact Hlen. reflexivity.
  - unfold m0, after_dispatch. destruct dispatch_message; reflexivity.
Qed.

(** X14. SOMDET is decoded and never acted on: a poll with interrupt
    acknowledge whose status has none of EOMDET, PREDET and HDRRDY set makes
    its one status exchange and stores the status; past the dispatch block
    nothing else changes and the clock is not read. *)
Theorem start_of_message_is_ignored (fuel : nat) (m : Machine)
    status clearbuf dispatch_message :
  fields (self m) = FSameInterruptCheck status true clearbuf dispatch_message ->
  let m0 := after_dispatch E dispatch_message m in
  let st := polled_status E clearbuf true m0 in
  (6 <= polled_length E clearbuf true m0)%nat ->
  EOMDET st = false -> PREDET st = false -> HDRRDY st = false ->
  do_command0 E fuel m =
  (Ret VNone,
   on_self (set_fields (FSameInterruptCheck (Some st) true clearbuf dispatch_message))
     (on_radio (set_io (io (radio m0) ++ status_exchange (value (self m0)) 0 clearbuf true))
        m0)).
Proof.
  intros Hf m0 st Hlen Heom Hpre Hhdr.
  pose proof (do_command0_phases E fuel m _ _ _ _ Hf) as Hrun.
  fold m0 in Hrun. rewrite Hrun.
  unfold bind at 1, SameInterruptCheck_poll, bind at 1.
  rewrite get_status_run by exact Hlen.
  fold (polled_status E clearbuf true m0). fold st.
  rewrite Heom, Hpre, Hhdr. reflexivity.
Qed.

Lemma read_more_stuck (fuel : nat) (msg_len : Z) (conf : list Z) (m : Machine) :
  (forall log, length (chip E (log ++ [readList 0 14])) = 6%nat) ->
  0 < msg_len ->
  fst (SameInterruptCheck_read_more E fuel msg_len [] conf m) = Diverge.
Proof.
  intros Hsix Hpos. revert conf m.
  apply Z.ltb_lt in Hpos.
  induction fuel as [|fuel IH]; intros conf m;
    cbn [SameInterruptCheck_read_more length]; change (Z.of_nat 0) with 0; rewrite Hpos.
  - reflexivity.
  - unfold bind at 1.
    pose proof (Hsix (io (radio m) ++
                      [writeList (value (self m)) [status_request false false; 0];
                       wait_for_clear_to_send])) as H6.
    rewrite <- app_assoc in H6. cbn [app] in H6.
    rewrite get_status_run by (unfold status_exchange; rewrite H6; lia).
    unfold status_exchange.
    destruct (chip E _) as [|b0 [|b1 [|b2 [|b3 [|b4 [|b5 [|b6 l]]]]]]];
      try discriminate H6.
    apply IH.
Qed.

(** X15. The loop that reads the rest of a header has no bound: when the
    chip announces a header of positive length and every status response
    stops after its sixth byte, so that no read brings a symbol, the command
    never completes, however much fuel it is given. *)
Theorem header_read_loop_has_no_bound (fuel : nat) (cmd : CommandObject) (r : Radio)
    status clearbuf :
  fields cmd = FSameInterruptCheck status true clearbuf false ->
  radio_power r = true ->
  (forall log, length (chip E (log ++ [readList 0 14])) = 6%nat) ->
  let st := polled_status E clearbuf true {| self := cmd; radio := r |} in
  EOMDET st = false -> PREDET st = false -> HDRRDY st = true ->
  0 < MSGLEN st ->
  fst (fst (execute E fuel cmd r)) = Diverge.
Proof.
  intros Hf Hon Hsix st Heom Hpre Hhdr Hpos.
  set (m := {| self := cmd; radio := r |}) in *.
  assert (fst (do_command0 E fuel m) = Diverge) as Hbody.
  { pose proof (do_command0_phases E fuel m _ _ _ _ Hf) as Hrun.
    cbn [after_dispatch] in Hrun. rewrite Hrun.
    apply bind_diverges.
    unfold SameInterruptCheck_poll, bind at 1.
    pose proof (Hsix (io r ++ [writeList (value cmd) [status_request clearbuf true; 0];
                               wait_for_clear_to_send])) as H6.
    rewrite <- app_assoc in H6. cbn [app] in H6.
    rewrite get_status_run by (unfold status_exchange; cbn [m self radio]; rewrite H6; lia).
    fold (polled_status E clearbuf true m). fold st.
    unfold bind at 1, update_self. cbn [when]. rewrite Heom, Hpre, Hhdr.
    unfold SameInterruptCheck_header_ready. apply bind_diverges.
    replace (MESSAGE st) with (@nil Z).
    - apply read_more_stuck; assumption.
    - unfold st, polled_status, status_exchange. cbn [m self radio].
      destruct (chip E _) as [|b0 [|b1 [|b2 [|b3 [|b4 [|b5 [|b6 l]]]]]]];
        try discriminate H6. reflexivity. }
  unfold execute.
  change {| self := cmd; radio := r |} with m.
  rewrite do_command_admitted by (intros _; exact Hon).
  unfold Command_do_command, try_finally, try_except, bind at 1.
  destruct (do_command0 E fuel m) as [[v|e|] m1]; try discriminate Hbody.
  reflexivity.
Qed.

End SamePolls.

Lemma symbols_kept_min (msg_len : Z) (k : nat) :
  0 <= msg_len ->
  msg_len <= 8 + 8 * Z.of_nat k ->
  (forall j, (j < k)%nat -> 8 + 8 * Z.of_nat j < msg_len) ->
  Z.min (msg_len + 1) (8 + 8 * Z.of_nat k) = symbols_kept msg_len.
Proof.
  intros Hpos Hreach Hbefore.
  assert (k = 0%nat \/ 8 * Z.of_nat k < msg_len) as Hk.
  { destruct k as [|k]; [left; reflexivity|right].
    specialize (Hbefore k ltac:(lia)). lia. }
  pose proof (Z.div_mod msg_len 8 ltac:(lia)) as Hdm.
  pose proof (Z.mod_pos_bound msg_len 8 ltac:(lia)) as Hm.
  unfold symbols_kept.
  destruct ((0 <? msg_len) && (msg_len mod 8 =? 0)) eqn:Hb; lia.
Qed.

Section Headers.

Variable E : Env.

Hypothesis answers : answers_status_reads E.

(** X16. The reception stored for a header holds as many confidences as
    symbols, and one symbol more than the declared length, unless the
    declared length is a positive multiple of eight: the reads bring eight
    symbols each and the slice [msg[0:msg_len + 1]] cuts one past the
    declared length. *)
Theorem header_reception_length (fuel : nat) (m : Machine)
    status clearbuf dispatch_message :
  fields (self m) = FSameInterruptCheck status true clearbuf dispatch_message ->
  let m0 := after_dispatch E dispatch_message m in
  let st := polled_status E clearbuf true m0 in
  HDRRDY st = true -> EOMDET st = false -> PREDET st = false ->
  (same_messages (radio m0) < length (heap (radio m0)))%nat ->
  (reads_needed (MSGLEN st) 8 <= fuel)%nat ->
  exists symbols confidences,
    buffer (radio (snd (do_command0 E fuel m))) =
      buffer (radio m0) ++ [(symbols, confidences)] /\
    Z.of_nat (length symbols) = symbols_kept (MSGLEN st) /\
    length confidences = length symbols.
Proof.
  intros Hf m0 st Hhdr Heom Hpre Hwf Hfuel.
  destruct (header_ready_effect E answers fuel m status clearbuf dispatch_message
              Hf Hhdr Heom Hpre Hwf Hfuel)
    as (_ & _ & Hbefore & Hreach & Hsame & Hpos & Hbuf & _).
  fold m0 st in Hbefore, Hreach, Hsame, Hpos, Hbuf.
  set (k := reads_needed (MSGLEN st) 8) in *.
  set (assembled := fst (further_reads E k (value (self m)) 8
                           (io (radio m0) ++ status_exchange (value (self m)) 0 clearbuf true)
                           (MESSAGE st) (CONFIDENCE st))) in *.
  eexists _, _. split; [exact Hbuf|].
  assert (length (fst assembled) = (8 + 8 * k)%nat) as Hlen.
  { unfold assembled.
    destruct (further_reads_lengths E answers k (value (self m)) 8
                (io (radio m0) ++ status_exchange (value (self m)) 0 clearbuf true)
                (MESSAGE st) (CONFIDENCE st)) as [-> _].
    unfold st, polled_status.
    rewrite MESSAGE_length by apply (exchange_answered E answers). reflexivity. }
  rewrite !length_take, Hsame, Hlen.
  split; [|reflexivity].
  rewrite Hlen in Hreach.
  rewrite <- (symbols_kept_min (MSGLEN st) k Hpos ltac:(lia) Hbefore). lia.
Qed.

(** X17. The header events share the reception buffer: two polls that each
    handle a header fire two events holding the same list object, which by
    then holds both receptions, so the list carried by the first event has
    grown. A dispatch afterwards puts a new empty list in place and leaves
    that object, with its receptions, to the events that hold it. *)
Theorem header_events_share_the_buffer (fuel : nat) (r0 : Radio) (c1 c2 d : bool) :
  (31 <= fuel)%nat ->
  (same_messages r0 < length (heap r0))%nat ->
  let a := same_messages r0 in
  let r1 := polled E fuel (SameInterruptCheck_init true c1 false) r0 in
  let r2 := polled E fuel (SameInterruptCheck_init true c2 false) r1 in
  let r3 := polled E fuel (SameInterruptCheck_init false d true) r2 in
  header_ready_for E c1 r0 ->
  header_ready_for E c2 r1 ->
  exists x1 x2,
    fired r1 = fired r0 ++ [SAMEHeaderReceived a] /\
    deref r1 a = buffer r0 ++ [x1] /\
    fired r2 = fired r0 ++ [SAMEHeaderReceived a; SAMEHeaderReceived a] /\
    deref r2 a = buffer r0 ++ [x1; x2] /\
    same_messages r3 <> a /\
    buffer r3 = [] /\
    deref r3 a = buffer r0 ++ [x1; x2].
Proof.
  intros Hfuel Hwf a r1 r2 r3 H1 H2.
  assert (forall c r,
            (same_messages r < length (heap r))%nat ->
            header_ready_for E c r ->
            let r' := polled E fuel (SameInterruptCheck_init true c false) r in
            exists x,
              fired r' = fired r ++ [SAMEHeaderReceived (same_messages r)] /\
              heap r' = <[same_messages r := buffer r ++ [x]]> (heap r) /\
              same_messages r' = same_messages r) as Hone.
  { intros c r Hwf' (Hhdr & Heom & Hpre). cbv zeta. unfold polled.
    set (m := {| self := SameInterruptCheck_init true c false; radio := r |}) in *.
    assert (fields (self m) = FSameInterruptCheck None true c false) as Hf.
    { cbn. rewrite orb_false_r. reflexivity. }
    pose proof (do_command0_phases E fuel m _ _ _ _ Hf) as Hrun.
    cbn [after_dispatch] in Hrun. unfold bind in Hrun.
    assert (reads_needed (MSGLEN (polled_status E c true m)) 8 <= fuel)%nat as Hk.
    { etransitivity; [apply reads_needed_byte|exact Hfuel].
      apply MSGLEN_byte; apply (exchange_answered E answers). }
    rewrite (poll_header_ready E answers fuel c false m Heom Hpre Hhdr Hk) in Hrun.
    rewrite Hrun. clear Hrun.
    unfold ret, on_radio, on_self, header_received. cbn [snd radio self].
    cbn [heap same_messages fired set_same_timeout set_ticks set_fired set_io set_heap].
    eexists. repeat split. }
  destruct (Hone c1 r0 Hwf H1) as (x1 & Hf1 & Hh1 & Hs1).
  fold r1 a in Hf1, Hh1, Hs1.
  assert (deref r1 a = buffer r0 ++ [x1]) as Hd1.
  { unfold deref. rewrite Hh1. rewrite list_lookup_insert_eq by exact Hwf. reflexivity. }
  assert (same_messages r1 < length (heap r1))%nat as Hwf1.
  { rewrite Hs1, Hh1, length_insert. exact Hwf. }
  destruct (Hone c2 r1 Hwf1 H2) as (x2 & Hf2 & Hh2 & Hs2).
  fold r2 in Hf2, Hh2, Hs2. rewrite Hs1 in Hf2, Hh2, Hs2.
  assert (buffer r1 = buffer r0 ++ [x1]) as Hb1.
  { unfold buffer. rewrite Hs1. exact Hd1. }
  assert (deref r2 a = buffer r0 ++ [x1; x2]) as Hd2.
  { unfold deref. rewrite Hh2, Hb1.
    rewrite list_lookup_insert_eq by (rewrite Hh1, length_insert; exact Hwf).
    cbn [default]. rewrite <- app_assoc. reflexivity. }
  assert (length (heap r2) = length (heap r0)) as Hl2.
  { rewrite Hh2, length_insert, Hh1, length_insert. reflexivity. }
  exists x1, x2.
  split; [exact Hf1|]. split; [exact Hd1|].
  split; [rewrite Hf2, Hf1, <- app_assoc; reflexivity|].
  split; [exact Hd2|].
  (* the dispatch *)
  assert (buffer r2 = buffer r0 ++ [x1; x2]) as Hb2.
  { unfold buffer. rewrite Hs2. exact Hd2. }
  set (m2 := {| self := SameInterruptCheck_init false d true; radio := r2 |}).
  assert (fields (self m2) = FSameInterruptCheck None false true true) as Hf.
  { cbn. rewrite orb_true_r. reflexivity. }
  pose proof (do_command0_phases E fuel m2 _ _ _ _ Hf) as Hrun.
  cbn [after_dispatch] in Hrun.
  destruct (poll_without_intack E fuel true true (on_radio (dispatched E) m2))
    as (_ & Hsm & Hheap & _).
  assert (radio (snd (do_command0 E fuel m2)) =
          radio (snd (SameInterruptCheck_poll E fuel false true true
                        (on_radio (dispatched E) m2)))) as Hr3.
  { rewrite Hrun. unfold bind.
    destruct (SameInterruptCheck_poll E fuel false true true _) as [[[]|e|] m3];
      reflexivity. }
  assert (exists y l, buffer r2 = y :: l) as (y & l & Hyl).
  { rewrite Hb2. destruct (buffer r0); eexists _, _; reflexivity. }
  unfold r3, polled. fold m2. unfold buffer at 1, deref. rewrite Hr3, Hsm, Hheap.
  unfold on_radio, dispatched. cbn [radio m2].
  rewrite Hyl.
  cbn [same_messages heap set_fired set_same_messages set_heap set_averaged
       set_same_timeout].
  assert (a < length (heap r2))%nat as Ha by (rewrite Hl2; exact Hwf).
  split; [lia|].
  split.
  - rewrite lookup_app_r by lia. rewrite Nat.sub_diag. reflexivity.
  - rewrite lookup_app_l by exact Ha.
    fold (deref r2 a). exact Hd2.
Qed.

End Headers.

(** ** The alert tone *)

Lemma present_of_signed_byte (p : Z) :
  0 <= p < 256 -> negb (unpack_b p =? 0) = negb (p =? 0).
Proof. intros Hp. unfold unpack_b. destruct (p <? 128) eqn:Hlt; [reflexivity|lia]. Qed.

Section AlertTone.

Variable E : Env.

Lemma AlertToneCheck_run (fuel : nat) (cmd : CommandObject) (r : Radio)
    (int_ack : bool) (o1 o2 o3 : option bool) (duration : option Q) (b0 h p : Z) :
  fields cmd = FAlertToneCheck int_ack o1 o2 o3 duration ->
  let log := exchanged cmd [Z.b2z int_ack] 3 (io r) in
  chip E log = [b0; h; p] ->
  all_bytes [b0; h; p] ->
  let flagged d :=
    set_fields (FAlertToneCheck int_ack (Some (Z.testbit h 0)) (Some (Z.testbit h 1))
                  (Some (negb (p =? 0))) d) cmd in
  let r1 := set_submitted (submitted r ++ [SameInterruptCheck_init false false true])
              (set_io log r) in
  let now := clock E (ticks r) in
  do_command0 E fuel {| self := cmd; radio := r |} =
  if negb (p =? 0)
  then (Ret VNone,
        {| self := flagged duration;
           radio := set_tone_start (Some now) (set_ticks (S (ticks r)) r1) |})
  else match tone_start r with
       | Some t0 =>
           (Ret VNone,
            {| self := flagged (Some (now - t0)%Q);
               radio := set_tone_start None (set_ticks (S (ticks r)) r1) |})
       | None => (Ret VNone, {| self := flagged duration; radio := r1 |})
       end.
Proof.
  intros Hf log Hchip Hb.
  assert (0 <= h < 256 /\ 0 <= p < 256) as (Hh & Hp).
  { unfold all_bytes in Hb. rewrite !Forall_cons in Hb. tauto. }
  pose proof (flag_of_signed_byte h 0 Hh ltac:(lia)) as H0.
  pose proof (flag_of_signed_byte h 1 Hh ltac:(lia)) as H1.
  change (2 ^ Z.of_nat 0) with 1 in *. change (2 ^ Z.of_nat 1) with 2 in *.
  change (Z.of_nat 0) with 0 in *. change (Z.of_nat 1) with 1 in *.
  destruct cmd as [mn v fut exc res tc flds]. cbn [fields] in Hf. subst flds.
  unfold log, exchanged in *. cbn [value] in *. clear log.
  unfold do_command0, AlertToneCheck_do_command0. run.
  rewrite land_b2z_1, <- !app_assoc. cbn [app].
  rewrite Hchip, bytes_ok by exact Hb.
  cbv beta iota zeta. rewrite H0, H1, (present_of_signed_byte p Hp).
  destruct (negb (p =? 0)); [reflexivity|].
  cbn [radio self tone_start set_submitted set_io]. destruct (tone_start r); reflexivity.
Qed.

(** X18. [AlertToneCheck] on a response of three bytes always asks the
    controller for one [SameInterruptCheck] that dispatches (and so clears
    the buffer) without interrupt acknowledge, and returns [None]. While the
    tone is present it stamps [radio.tone_start] with the clock; when the
    tone is gone and a stamp is there, it stores the time since the stamp as
    its [duration] and clears the stamp; with no tone and no stamp it reads
    no clock and changes neither. *)
Theorem alert_tone_check (fuel : nat) (cmd : CommandObject) (r : Radio)
    (int_ack : bool) (o1 o2 o3 : option bool) (duration : option Q) (b0 h p : Z) :
  fields cmd = FAlertToneCheck int_ack o1 o2 o3 duration ->
  let log := exchanged cmd [Z.b2z int_ack] 3 (io r) in
  chip E log = [b0; h; p] ->
  all_bytes [b0; h; p] ->
  let run := do_command0 E fuel {| self := cmd; radio := r |} in
  let cmd' := self (snd run) in
  let r' := radio (snd run) in
  let now := clock E (ticks r) in
  let flagged on d :=
    FAlertToneCheck int_ack (Some (Z.testbit h 0)) (Some (Z.testbit h 1)) (Some on) d in
  fst run = Ret VNone /\
  io r' = log /\
  (exists poll,
     submitted r' = submitted r ++ [poll] /\
     fields poll = FSameInterruptCheck None false true true /\ value poll = 84) /\
  (p <> 0 ->
   tone_start r' = Some now /\ fields cmd' = flagged true duration /\
   ticks r' = S (ticks r)) /\
  (p = 0 ->
   tone_start r' = None /\
   match tone_start r with
   | Some t0 => fields cmd' = flagged false (Some (now - t0)%Q) /\ ticks r' = S (ticks r)
   | None => fields cmd' = flagged false duration /\ ticks r' = ticks r
   end).
Proof.
  intros Hf log Hchip Hb.
  pose proof (AlertToneCheck_run fuel cmd r _ _ _ _ _ _ _ _ Hf Hchip Hb) as Hrun.
  cbv zeta in *. fold log in Hrun.
  destruct (Z.eqb_spec p 0) as [Hp|Hp]; cbn [negb] in Hrun.
  - destruct (tone_start r) as [t0|] eqn:Hts; rewrite Hrun; cbn;
      (split; [reflexivity|]); (split; [reflexivity|]);
      (split; [eexists; split; [reflexivity|split; reflexivity]|]);
      (split; [intros Hne; contradiction|]); intros _; try rewrite Hts;
      repeat split; reflexivity.
  - rewrite Hrun; cbn.
    split; [reflexivity|]. split; [reflexivity|].
    split; [eexists; split; [reflexivity|split; reflexivity]|].
    split; [intros _; repeat split; reflexivity|]. intros Hz. contradiction.
Qed.

(** X19. The duration of a tone is the time between two checks: after a
    check that finds the tone present and a later one that finds it gone,
    with the stamp untouched in between, the second check's [duration] is
    its clock reading minus that of the first, and the stamp is cleared. *)
Theorem tone_duration_between_checks (fuel fuel' : nat) (c1 c2 : CommandObject)
    (r r1 : Radio) (a1 a2 : bool) (o1 o2 o3 o4 o5 o6 : option bool) (d1 d2 : option Q)
    (b0 h1 p1 b0' h2 : Z) :
  fields c1 = FAlertToneCheck a1 o1 o2 o3 d1 ->
  fields c2 = FAlertToneCheck a2 o4 o5 o6 d2 ->
  chip E (exchanged c1 [Z.b2z a1] 3 (io r)) = [b0; h1; p1] ->
  all_bytes [b0; h1; p1] ->
  p1 <> 0 ->
  let after_first := radio (snd (do_command0 E fuel {| self := c1; radio := r |})) in
  tone_start r1 = tone_start after_first ->
  chip E (exchanged c2 [Z.b2z a2] 3 (io r1)) = [b0'; h2; 0] ->
  all_bytes [b0'; h2; 0] ->
  let second := snd (do_command0 E fuel' {| self := c2; radio := r1 |}) in
  fields (self second) =
    FAlertToneCheck a2 (Some (Z.testbit h2 0)) (Some (Z.testbit h2 1)) (Some false)
      (Some (clock E (ticks r1) - clock E (ticks r))%Q) /\
  tone_start (radio second) = None.
Proof.
  intros Hf1 Hf2 Hchip1 Hb1 Hp1 after_first Hkept Hchip2 Hb2 second.
  pose proof (AlertToneCheck_run fuel c1 r _ _ _ _ _ _ _ _ Hf1 Hchip1 Hb1) as Hrun1.
  pose proof (AlertToneCheck_run fuel' c2 r1 _ _ _ _ _ _ _ _ Hf2 Hchip2 Hb2) as Hrun2.
  cbv zeta in Hrun1, Hrun2.
  replace (negb (p1 =? 0)) with true in Hrun1 by lia.
  assert (tone_start r1 = Some (clock E (ticks r))) as Hts.
  { rewrite Hkept. unfold after_first. rewrite Hrun1. reflexivity. }
  change (negb (0 =? 0)) with false in Hrun2. cbv iota in Hrun2.
  rewrite Hts in Hrun2.
  unfold second. rewrite Hrun2. split; reflexivity.
Qed.

End AlertTone.

(** ** Patching *)

Lemma getitem_nth (l : list Z) (i : Z) (m : Machine) :
  (Z.to_nat i < length l)%nat ->
  getitem l i m = (Ret (nth (Z.to_nat i) l 0), m).
Proof.
  intros Hi. unfold getitem.
  destruct (lookup_lt_is_Some_2 l (Z.to_nat i) Hi) as [x Hx].
  rewrite Hx. erewrite nth_lookup_Some by exact Hx. reflexivity.
Qed.

Lemma range8_bounds (n : nat) (i : Z) :
  In i (range8 n) -> exists k, i = 8 * Z.of_nat k /\ (8 * k < n)%nat.
Proof.
  unfold range8. intros Hin.
  apply in_map_iff in Hin as (k & <- & Hk).
  apply in_seq in Hk.
  exists k. split; [reflexivity|].
  pose proof (Nat.Div0.mul_div_le (n + 7) 8). lia.
Qed.

(** A chunk of the stream is the next eight bytes of the patch. *)
Lemma chunk_bytes (patch : list Z) (k : nat) :
  (8 * k < length patch)%nat ->
  nth (Z.to_nat (8 * Z.of_nat k)) patch 0 ::
    slice patch (8 * Z.of_nat k + 1) (8 * Z.of_nat k + 8) =
  take 8 (drop (8 * k) patch).
Proof.
  intros Hk. unfold slice.
  replace (Z.to_nat (8 * Z.of_nat k)) with (8 * k)%nat by lia.
  replace (Z.to_nat (8 * Z.of_nat k + 8 - (8 * Z.of_nat k + 1))) with 7%nat by lia.
  replace (Z.to_nat (8 * Z.of_nat k + 1)) with (S (8 * k)) by lia.
  destruct (lookup_lt_is_Some_2 patch (8 * k) Hk) as [x Hx].
  erewrite nth_lookup_Some by exact Hx.
  rewrite (drop_S patch x (8 * k) Hx). reflexivity.
Qed.

Lemma chunks_take (patch : list Z) (c : nat) :
  (8 * c < length patch + 8)%nat ->
  flat_map (fun k => take 8 (drop (8 * k) patch)) (seq 0 c) = take (8 * c) patch.
Proof.
  induction c as [|c IH]; intros Hc.
  - reflexivity.
  - rewrite seq_S, flat_map_app, IH by lia.
    cbn [flat_map Nat.add]. rewrite app_nil_r.
    rewrite take_take_drop. f_equal. lia.
Qed.

(** Streaming loses nothing: the registers and payloads of the writes, in
    order, are the patch. *)
Lemma patch_stream_bytes (patch : list Z) : written_bytes (patch_stream patch) = patch.
Proof.
  unfold patch_stream, range8.
  set (c := Nat.div (length patch + 7) 8).
  assert (8 * c <= length patch + 7)%nat as Hle by apply Nat.Div0.mul_div_le.
  assert (length patch < 8 * c + 1)%nat as Hge.
  { pose proof (Nat.div_mod_eq (length patch + 7) 8) as Hdm. fold c in Hdm.
    pose proof (Nat.mod_upper_bound (length patch + 7) 8). lia. }
  transitivity (take (8 * c) patch); [|apply take_ge; lia].
  rewrite <- chunks_take by lia.
  assert (forall ks : list nat,
            (forall k, In k ks -> (8 * k < length patch)%nat) ->
            written_bytes
              (flat_map (fun i => [writeList (nth (Z.to_nat i) patch 0)
                                     (slice patch (i + 1) (i + 8));
                                   wait_for_clear_to_send])
                 (map (fun k => 8 * Z.of_nat k) ks)) =
            flat_map (fun k => take 8 (drop (8 * k) patch)) ks) as Hall.
  { induction ks as [|k ks IH]; intros Hks; [reflexivity|].
    cbn [map flat_map]. unfold written_bytes in *. cbn [flat_map app].
    rewrite IH by (intros j Hj; apply Hks; right; exact Hj).
    rewrite <- chunk_bytes by (apply Hks; left; reflexivity).
    reflexivity. }
  apply Hall. intros k Hk. apply in_seq in Hk. lia.
Qed.

Section Patching.

Variable E : Env.

Lemma stream_run (patch : list Z) (chunks : list Z) (m : Machine) :
  (forall i, In i chunks -> (Z.to_nat i < length patch)%nat) ->
  forM_ (fun i =>
           reg <- getitem patch i ;;
           hardware_io_writeList reg (slice patch (i + 1) (i + 8)) ;;
           radio_wait_for_clear_to_send E ;;
           ret tt) chunks m =
  (Ret tt,
   on_radio (set_io (io (radio m) ++
     flat_map (fun i => [writeList (nth (Z.to_nat i) patch 0) (slice patch (i + 1) (i + 8));
                         wait_for_clear_to_send]) chunks)) m).
Proof.
  revert m. induction chunks as [|i chunks IH]; intros m Hin.
  - cbn [forM_ flat_map]. rewrite app_nil_r, on_radio_set_io_id. reflexivity.
  - cbn [forM_ flat_map].
    unfold bind at 1. unfold bind at 1.
    rewrite getitem_nth by (apply Hin; left; reflexivity).
    unfold bind at 1, hardware_io_writeList, log_io, update.
    unfold bind at 1, radio_wait_for_clear_to_send, bind at 1, log_io, update, read, ret.
    rewrite IH by (intros j Hj; apply Hin; right; exact Hj).
    unfold on_radio. cbn [radio self io set_io app].
    rewrite <- !app_assoc. reflexivity.
Qed.

Lemma PatchCommand_do_command00_run (cmd : CommandObject) (r : Radio)
    (cts gpo2 xosc : bool) (opmode : Z) (blob patch : list Z) (patch_id : option Z) :
  fields cmd = FPatchCommand cts gpo2 xosc opmode blob patch_id ->
  blob <> [] ->
  decompress_patch E blob = Some patch ->
  let log := patched_log cmd (PowerUp_flags cts gpo2 xosc true 3) opmode patch (io r) in
  let rev := Revision (chip E log) in
  let m' := {| self := cmd; radio := set_revision (Some rev) (set_io log r) |} in
  PatchCommand_do_command00 E {| self := cmd; radio := r |} =
  match patch_id with
  | Some id =>
      if negb (id =? 0) && negb (patch_id_of E rev =? id)
      then (Raise AssertionError, m')
      else (Ret (VRevision rev), m')
  | None => (Ret (VRevision rev), m')
  end.
Proof.
  intros Hf Hne Hz. cbv zeta.
  destruct cmd as [mn v fut exc res tc flds]. cbn [fields] in Hf. subst flds.
  destruct blob as [|b blob]; [contradiction|].
  unfold PatchCommand_do_command00, PowerUp_do_command00, patched_log, PowerUp_flags.
  unfold bind at 1. unfold bind at 1, read_self. cbn [self fields].
  unfold bind at 1, read_self. cbn [self value].
  unfold bind at 1, hardware_io_writeList, log_io, update.
  unfold bind at 1, radio_wait_for_clear_to_send, bind at 1, log_io, update, read, ret.
  unfold bind at 1, read_self. cbn [self on_radio fields radio].
  rewrite Hz. unfold bind at 1, ret.
  unfold bind at 1.
  rewrite stream_run
    by (intros i Hi; apply range8_bounds in Hi as (k & -> & Hk); lia).
  fold (patch_stream patch).
  unfold bind at 1, call_on, GetRevision_do_command0, Command_do_command0.
  run. cbn [GetRevision_init new value].
  rewrite <- !app_assoc. cbn [app].
  destruct patch_id as [id|]; [|reflexivity].
  destruct (negb (id =? 0) && negb (patch_id_of E _ =? id)); reflexivity.
Qed.

(** X20. A [PatchCommand] whose patch decompresses sends the power-up
    request with the patch bit set, streams the patch, and reads the revision
    with the exchange of [GetRevision]. The stream loses nothing: registers
    and payloads of its writes, in order, are the decompressed patch. With no
    patch id to verify, a patch id of 0, or the id the chip reports, the
    command returns the revision it stored and the radio is powered. *)
Theorem patch_is_streamed (fuel : nat) (cmd : CommandObject) (r : Radio)
    (cts gpo2 xosc : bool) (opmode : Z) (blob patch : list Z) (patch_id : option Z) :
  fields cmd = FPatchCommand cts gpo2 xosc opmode blob patch_id ->
  blob <> [] ->
  decompress_patch E blob = Some patch ->
  let flags := PowerUp_flags cts gpo2 xosc true 3 in
  let log := patched_log cmd flags opmode patch (io r) in
  let rev := Revision (chip E log) in
  patch_id = None \/ patch_id = Some 0 \/ patch_id = Some (patch_id_of E rev) ->
  let run := do_command0 E fuel {| self := cmd; radio := r |} in
  fst run = Ret (VRevision rev) /\
  io (radio (snd run)) = log /\
  revision (radio (snd run)) = Some rev /\
  radio_power (radio (snd run)) = true /\
  written_bytes (patch_stream patch) = patch /\
  Z.testbit flags 5 = true.
Proof.
  intros Hf Hne Hz flags log rev Hid.
  pose proof (PatchCommand_do_command00_run cmd r _ _ _ _ _ _ _ Hf Hne Hz) as Hrun.
  cbv zeta in Hrun. fold flags log rev in Hrun.
  assert (PatchCommand_do_command00 E {| self := cmd; radio := r |} =
          (Ret (VRevision rev),
           {| self := cmd; radio := set_revision (Some rev) (set_io log r) |})) as Hrun'.
  { rewrite Hrun. destruct Hid as [-> | [-> | ->]]; [reflexivity|reflexivity|].
    rewrite Z.eqb_refl. cbn [negb]. rewrite andb_false_r. reflexivity. }
  clear Hrun.
  assert (exists m', do_command0 E fuel {| self := cmd; radio := r |} =
                       (Ret (VRevision rev), m') /\
                     io (radio m') = log /\ revision (radio m') = Some rev /\
                     radio_power (radio m') = true) as (m' & Hrun & Hio & Hrev & Hpow).
  { unfold do_command0, bind at 1, read_self. cbn [self]. rewrite Hf.
    unfold PowerUp_do_command0, bind at 1. rewrite Hrun'.
    unfold bind at 1, read_self. cbn [self]. rewrite Hf.
    change (3 =? 15) with false. cbv iota beta.
    destruct xosc; eexists; (split; [reflexivity|]); repeat split. }
  cbv zeta. rewrite Hrun. cbn [fst snd].
  repeat split; try assumption.
  - apply patch_stream_bytes.
  - unfold flags. destruct cts, gpo2, xosc; reflexivity.
Qed.

(** X21. The patch id is verified only after the patch went to the chip:
    with a patch id other than 0 that differs from the one the chip reports,
    the command fails with [AssertionError] after the whole stream and the
    revision exchange. The revision is stored, but the power flag is not
    set, no event is fired and [tune_after] is untouched. *)
Theorem patch_id_mismatch (fuel : nat) (cmd : CommandObject) (r : Radio)
    (cts gpo2 xosc : bool) (opmode : Z) (blob patch : list Z) (id : Z) :
  fields cmd = FPatchCommand cts gpo2 xosc opmode blob (Some id) ->
  blob <> [] ->
  decompress_patch E blob = Some patch ->
  let log := patched_log cmd (PowerUp_flags cts gpo2 xosc true 3) opmode patch (io r) in
  let rev := Revision (chip E log) in
  id <> 0 ->
  patch_id_of E rev <> id ->
  do_command0 E fuel {| self := cmd; radio := r |} =
  (Raise AssertionError,
   {| self := cmd; radio := set_revision (Some rev) (set_io log r) |}).
Proof.
  intros Hf Hne Hz log rev Hid Hdiff.
  pose proof (PatchCommand_do_command00_run cmd r _ _ _ _ _ _ _ Hf Hne Hz) as Hrun.
  cbv zeta in Hrun. fold log rev in Hrun.
  assert (negb (id =? 0) && negb (patch_id_of E rev =? id) = true) as Hb by lia.
  cbv iota in Hrun. rewrite Hb in Hrun.
  unfold do_command0, bind at 1, read_self. cbn [self]. rewrite Hf.
  unfold PowerUp_do_command0, bind at 1. rewrite Hrun. reflexivity.
Qed.

End Patching.

(** ** More on tuning *)

Section MoreTuning.

Variable E : Env.

Lemma wait_tune_after_early (fuel : nat) (m : Machine) (deadline : Q) :
  tune_after (radio m) = Fin deadline ->
  (forall j, (j <= fuel)%nat -> (clock E (ticks (radio m) + 2 * j) < deadline)%Q) ->
  TuneFrequency_wait_tune_after E fuel m =
  (Diverge, on_radio (set_ticks (S (ticks (radio m) + 2 * fuel))) m).
Proof.
  revert m. induction fuel as [|fuel IH]; intros m Hafter Hearly.
  - pose proof (Hearly 0%nat ltac:(lia)) as H0.
    replace (ticks (radio m) + 2 * 0)%nat with (ticks (radio m)) in * by lia.
    assert (Qltb (clock E (ticks (radio m))) deadline = true) as Hlt.
    { unfold Qltb. apply negb_true_iff. apply not_true_iff_false.
      rewrite Qle_bool_iff. apply Qlt_not_le, H0. }
    cbn [TuneFrequency_wait_tune_after].
    unfold bind, time_time, read. cbn [radio on_radio tune_after set_ticks].
    rewrite Hafter, Hlt. reflexivity.
  - pose proof (Hearly 0%nat ltac:(lia)) as H0.
    replace (ticks (radio m) + 2 * 0)%nat with (ticks (radio m)) in H0 by lia.
    assert (Qltb (clock E (ticks (radio m))) deadline = true) as Hlt.
    { unfold Qltb. apply negb_true_iff. apply not_true_iff_false.
      rewrite Qle_bool_iff. apply Qlt_not_le, H0. }
    cbn [TuneFrequency_wait_tune_after].
    unfold bind at 1, time_time at 1. unfold bind at 1, read at 1.
    cbn [radio on_radio tune_after set_ticks]. rewrite Hafter, Hlt.
    unfold bind at 1, time_time at 1. unfold bind at 1, time_sleep, ret at 1.
    set (m' := on_radio (fun r => set_ticks (S (ticks r)) r)
                 (on_radio (fun r => set_ticks (S (ticks r)) r) m)).
    assert (ticks (radio m') = S (S (ticks (radio m)))) as Hticks by reflexivity.
    rewrite (IH m' Hafter).
    + rewrite Hticks. unfold m', on_radio. cbn [radio self set_ticks].
      replace (S (S (S (ticks (radio m))) + 2 * fuel))
        with (S (ticks (radio m) + 2 * S fuel)) by lia.
      reflexivity.
    + intros j Hj. rewrite Hticks.
      replace (S (S (ticks (radio m))) + 2 * j)%nat
        with (ticks (radio m) + 2 * S j)%nat by lia.
      apply Hearly. lia.
Qed.

Lemma wait_stc_never (fuel : nat) (m : Machine) :
  (forall log, seek_tune_complete E log = false) ->
  TuneFrequency_wait_stc E fuel m =
  (Diverge, on_radio (set_io (io (radio m) ++ replicate (S fuel) check_interrupts)) m).
Proof.
  intros Hnever. revert m. induction fuel as [|fuel IH]; intros m.
  - cbn [TuneFrequency_wait_stc].
    unfold bind, radio_is_seek_tune_complete, log_io, update, read, bind.
    cbn [radio on_radio io set_io]. rewrite Hnever. reflexivity.
  - cbn [TuneFrequency_wait_stc].
    unfold bind at 1, radio_is_seek_tune_complete. unfold bind at 1, log_io, update.
    unfold read at 1. cbn [radio on_radio io set_io].
    rewrite Hnever.
    unfold bind at 1, time_sleep, ret at 1.
    rewrite IH. unfold on_radio. cbn [radio self io set_io replicate].
    rewrite <- app_assoc. reflexivity.
Qed.

Lemma wait_tune_after_over (fuel : nat) (m : Machine) :
  deadline_passed E (radio m) ->
  TuneFrequency_wait_tune_after E fuel m =
  (Ret tt, on_radio (set_ticks (S (ticks (radio m)))) m).
Proof.
  unfold deadline_passed. intros Hpassed.
  destruct (tune_after (radio m)) as [|deadline|] eqn:Hafter; [| |contradiction].
  - destruct fuel; cbn [TuneFrequency_wait_tune_after];
      unfold bind, time_time, read; cbn [radio on_radio tune_after set_ticks];
      rewrite Hafter; reflexivity.
  - apply (wait_tune_after_passed E fuel m deadline); assumption.
Qed.

(** X22. No tuning before [tune_after]: as long as the clock readings the
    wait loop takes are before the deadline, [TuneFrequency] goes on waiting;
    after any number of rounds it has written nothing to the bus and has not
    touched the tone stamp. *)
Theorem no_tuning_before_tune_after (fuel : nat) (cmd : CommandObject) (r : Radio)
    (frequency : Z) (rssi snr : option Z) (deadline : Q) :
  fields cmd = FTuneFrequency frequency rssi snr ->
  tune_after r = Fin deadline ->
  (forall j, (j <= fuel)%nat -> (clock E (ticks r + 2 * j) < deadline)%Q) ->
  let run := do_command0 E fuel {| self := cmd; radio := r |} in
  fst run = Diverge /\
  io (radio (snd run)) = io r /\
  tone_start (radio (snd run)) = tone_start r /\
  self (snd run) = cmd.
Proof.
  intros Hf Hafter Hearly.
  pose proof (wait_tune_after_early fuel {| self := cmd; radio := r |} deadline
                Hafter Hearly) as Hwait.
  assert (do_command0 E fuel {| self := cmd; radio := r |} =
          (Diverge,
           {| self := cmd; radio := set_ticks (S (ticks r + 2 * fuel)) r |})) as Hrun.
  { unfold do_command0, bind at 1, read_self. cbn [self]. rewrite Hf.
    unfold TuneFrequency_do_command0, bind at 1, read_self. cbn [self]. rewrite Hf.
    unfold bind at 1, read_self. unfold bind at 1. rewrite Hwait. reflexivity. }
  cbv zeta. rewrite Hrun. repeat split; reflexivity.
Qed.

(** X23. The wait for the end of the tuning has no timeout: once the
    deadline [tune_after] has passed, a [TuneFrequency] whose chip never
    reports seek/tune complete writes its request, clears the tone stamp and
    then polls the interrupts for ever; it never asks for the tune status and
    the command never completes. *)
Theorem tuning_has_no_timeout (fuel : nat) (cmd : CommandObject) (r : Radio)
    (frequency : Z) (rssi snr : option Z) :
  fields cmd = FTuneFrequency frequency rssi snr ->
  0 <= frequency < 65536 ->
  radio_power r = true ->
  deadline_passed E r ->
  (forall log, seek_tune_complete E log = false) ->
  do_command0 E fuel {| self := cmd; radio := r |} =
    (Diverge,
     {| self := cmd;
        radio := set_io (io r ++
                         writeList (value cmd) [0; Z.shiftr frequency 8; Z.land frequency 255]
                         :: replicate (S fuel) check_interrupts)
                   (set_tone_start None (set_ticks (S (ticks r)) r)) |}) /\
  fst (fst (execute E fuel cmd r)) = Diverge.
Proof.
  intros Hf Hrange Hon Hpassed Hnever.
  assert (do_command0 E fuel {| self := cmd; radio := r |} =
    (Diverge,
     {| self := cmd;
        radio := set_io (io r ++
                         writeList (value cmd) [0; Z.shiftr frequency 8; Z.land frequency 255]
                         :: replicate (S fuel) check_interrupts)
                   (set_tone_start None (set_ticks (S (ticks r)) r)) |})) as Hbody.
  { unfold do_command0, bind at 1, read_self. cbn [self]. rewrite Hf.
    unfold TuneFrequency_do_command0, bind at 1, read_self. cbn [self]. rewrite Hf.
    unfold bind at 1, read_self. unfold bind at 1.
    rewrite wait_tune_after_over by exact Hpassed.
    unfold bind at 1, pack_H.
    replace ((0 <=? frequency) && (frequency <? 65536)) with true by lia.
    unfold ret at 1.
    unfold bind at 1, hardware_io_writeList, log_io, update.
    unfold bind at 1, update. unfold bind at 1.
    rewrite wait_stc_never by exact Hnever.
    unfold on_radio. cbn [self radio io set_io set_tone_start set_ticks].
    rewrite <- app_assoc. reflexivity. }
  split; [exact Hbody|].
  unfold execute.
  rewrite do_command_admitted by (intros _; exact Hon).
  unfold Command_do_command, try_finally, try_except, bind at 1.
  rewrite Hbody. reflexivity.
Qed.

(** X24. The constructor of [TuneFrequency] rejects exactly the floats
    outside the band from the float [162.4] to the float [162.55], with a
    [ValueError]; for the others it stores [int(400 * frequency)], the
    truncated rounded product, which lies between 64960 and 65020 and so fits
    in sixteen bits: packing the request never fails. *)
Theorem tune_frequency_constructor (f : Q) :
  (TuneFrequency_init f = inl (ValueError (FrequencyOutOfRange (float f))) <->
   ~ in_weather_band (float f)) /\
  (in_weather_band (float f) ->
   exists field,
     TuneFrequency_init f = inr (new "WB_TUNE_FREQ" 80 (FTuneFrequency field None None)) /\
     field = int (float_mul 400 (float f)) /\
     64960 <= field <= 65020 /\
     forall m, exists packed, pack_H field m = (Ret packed, m) /\ length packed = 2%nat).
Proof.
  unfold TuneFrequency_init, in_weather_band. cbv zeta.
  destruct (Qle_bool (float 162.4) (float f)) eqn:Hlo;
    destruct (Qle_bool (float f) (float 162.55)) eqn:Hhi;
    cbn [andb negb].
  1: { apply Qle_bool_iff in Hlo, Hhi. split.
       - split; [discriminate|]. intros Hn. exfalso. apply Hn. split; assumption.
       - intros Hin. exists (int (float_mul 400 (float f))).
         split; [reflexivity|]. split; [reflexivity|].
         pose proof (frequency_field_range (float f) Hin) as Hr. split; [exact Hr|].
         intros m. unfold pack_H.
         replace ((0 <=? int (float_mul 400 (float f))) &&
                  (int (float_mul 400 (float f)) <? 65536)) with true by lia.
         eexists. split; reflexivity. }
  all: split; [split; [intros _|reflexivity]|];
    intros [Hl Hh]; apply Qle_bool_iff in Hl, Hh; congruence.
Qed.

End MoreTuning.

(** ** Who assigns what on the radio *)

Section RadioFrames.

Variable E : Env.

Context {B : Type} (f : Radio -> B).

(** Views of the radio blind to the logs of the clock and of the futures. *)
Hypothesis f_ticks : forall n r, f (set_ticks n r) = f r.
Hypothesis f_delivered : forall l r, f (set_delivered l r) = f r.

Lemma keeps_call_on_radio {A} (obj : CommandObject) (body : M A) :
  keeps (fun m => f (radio m)) body -> keeps (fun m => f (radio m)) (call_on obj body).
Proof.
  intros Hbody m. unfold call_on.
  specialize (Hbody {| self := obj; radio := radio m |}).
  destruct (body {| self := obj; radio := radio m |}) as [[a|e|] m1]; exact Hbody.
Qed.

Lemma Command_do_command_frame (body : M Value) (m : Machine) :
  f (radio (snd (Command_do_command E body m))) = f (radio (snd (body m))).
Proof.
  destruct (body m) as [[v|e|] m1] eqn:Hrun; cbn [snd].
  - rewrite (Command_do_command_returns E _ _ _ _ Hrun). cbn [snd].
    unfold finished, on_radio, on_self, deliver. cbn [radio self].
    rewrite f_ticks. destruct (future (self m1)); [rewrite f_delivered|]; reflexivity.
  - rewrite (Command_do_command_raises E _ _ _ _ Hrun). cbn [snd].
    unfold finished, on_radio, on_self, deliver. cbn [radio self].
    rewrite f_ticks. destruct (future (self m1)); [rewrite f_delivered|]; reflexivity.
  - unfold Command_do_command, try_finally, try_except, bind at 1. rewrite Hrun.
    reflexivity.
Qed.

Lemma do_command_frame (fuel : nat) (m : Machine) :
  f (radio (snd (do_command0 E fuel m))) = f (radio m) ->
  f (radio (snd (do_command E fuel m))) = f (radio m).
Proof.
  intros Hbody. unfold do_command, bind at 1, read_self.
  destruct (issubclass (type (self m)) CommandRequiringPowerUp).
  - unfold CommandRequiringPowerUp_do_command, bind, read, read_self.
    destruct (negb (radio_power (radio m))); [reflexivity|].
    etransitivity; [apply Command_do_command_frame|exact Hbody].
  - etransitivity; [apply Command_do_command_frame|exact Hbody].
Qed.

End RadioFrames.

Section Owners.

Variable E : Env.

Lemma power_view_io (l : list IoOp) (m : Machine) :
  power_view (on_radio (set_io l) m) = power_view m.
Proof. reflexivity. Qed.

Lemma power_view_ticks (n : nat) (m : Machine) :
  power_view (on_radio (set_ticks n) m) = power_view m.
Proof. reflexivity. Qed.

Lemma same_view_io (l : list IoOp) (m : Machine) :
  same_view (on_radio (set_io l) m) = same_view m.
Proof. reflexivity. Qed.

Lemma same_view_ticks (n : nat) (m : Machine) :
  same_view (on_radio (set_ticks n) m) = same_view m.
Proof. reflexivity. Qed.

Ltac unfold_commands :=
  unfold Command_do_command0, GetRevision_do_command0, PowerDown_do_command0,
    PowerUp_do_command0, PatchCommand_do_command00, PowerUp_do_command00,
    SetProperty_do_command0, GetProperty_do_command0, TuneFrequency_do_command0,
    TuneStatus_do_command0, ReceivedSignalQualityCheck_do_command0,
    AlertToneCheck_do_command0, SameInterruptCheck_do_command0,
    SameInterruptCheck_dispatch, SameInterruptCheck_poll,
    SameInterruptCheck_end_of_message, SameInterruptCheck_preamble,
    SameInterruptCheck_header_ready, same_messages_append, same_messages_renew,
    CommandRequiringPowerUp_do_command, Command_do_command, future_deliver,
    pack_H, bytes, chr, getitem,
    hardware_io_write8, hardware_io_writeList, hardware_io_readList,
    radio_wait_for_clear_to_send, radio_fire_event, radio_delay_event, radio_do_command,
    time_time, log_io.

Lemma do_command0_keeps_power (fuel : nat) (m : Machine) :
  type (self m) <> PowerUp -> type (self m) <> PatchCommand ->
  type (self m) <> PowerDown ->
  power_view (snd (do_command0 E fuel m)) = power_view m.
Proof.
  intros Hup Hpatch Hdown.
  pose proof (keeps_get_status E power_view power_view_io) as Hgs.
  pose proof (keeps_read_more E power_view power_view_io) as Hrm.
  pose proof (waiting_for_tune_after_keeps E power_view power_view_ticks) as Hwt.
  pose proof (waiting_for_stc_keeps E power_view power_view_io) as Hws.
  assert (forall obj,
            keeps power_view
              (call_on obj (CommandRequiringPowerUp_do_command E (TuneStatus_do_command0 E))))
    as Hts.
  { intros obj. apply (keeps_call_on_radio (fun r => (radio_power r, tune_after r))).
    unfold_commands. keeps_auto. }
  unfold do_command0, bind at 1, read_self. unfold type in *.
  destruct (fields (self m)); cbn [class_of] in *; try contradiction;
    match goal with
    | |- power_view (snd (?c m)) = power_view m =>
        revert m; change (keeps power_view c)
    end;
    unfold_commands; keeps_auto.
Qed.

Lemma do_command0_keeps_same (fuel : nat) (m : Machine) :
  type (self m) <> SameInterruptCheck ->
  same_view (snd (do_command0 E fuel m)) = same_view m.
Proof.
  intros Hsame.
  pose proof (waiting_for_tune_after_keeps E same_view same_view_ticks) as Hwt.
  pose proof (waiting_for_stc_keeps E same_view same_view_io) as Hws.
  assert (forall obj,
            keeps same_view
              (call_on obj (CommandRequiringPowerUp_do_command E (TuneStatus_do_command0 E))))
    as Hts.
  { intros obj.
    apply (keeps_call_on_radio
             (fun r => (heap r, same_messages r, averaged r, same_timeout r, last_EOM r))).
    unfold_commands. keeps_auto. }
  assert (forall obj, keeps same_view (call_on obj (GetRevision_do_command0 E))) as Hgr.
  { intros obj.
    apply (keeps_call_on_radio
             (fun r => (heap r, same_messages r, averaged r, same_timeout r, last_EOM r))).
    unfold_commands. keeps_auto. }
  unfold do_command0, bind at 1, read_self. unfold type in *.
  destruct (fields (self m)); cbn [class_of] in *; try contradiction;
    match goal with
    | |- same_view (snd (?c m)) = same_view m =>
        revert m; change (keeps same_view c)
    end;
    unfold_commands; keeps_auto.
Qed.

(** X25. Only the power transitions touch the power state: whatever a
    command of a class other than [PowerUp], [PatchCommand] and [PowerDown]
    does, and however it ends, the power flag and [tune_after] are
    afterwards what they were. *)
Theorem power_state_owners (fuel : nat) (cmd : CommandObject) (r : Radio) :
  type cmd <> PowerUp -> type cmd <> PatchCommand -> type cmd <> PowerDown ->
  radio_power (snd (execute E fuel cmd r)) = radio_power r /\
  tune_after (snd (execute E fuel cmd r)) = tune_after r.
Proof.
  intros Hup Hpatch Hdown.
  pose proof (do_command_frame E (fun r => (radio_power r, tune_after r))
                ltac:(reflexivity) ltac:(reflexivity) fuel
                {| self := cmd; radio := r |}
                (do_command0_keeps_power fuel {| self := cmd; radio := r |} Hup Hpatch Hdown)) as H.
  unfold execute.
  destruct (do_command E fuel {| self := cmd; radio := r |}) as [o m'].
  cbn [snd radio] in *. injection H as -> ->. split; reflexivity.
Qed.

(** X26. Only [SameInterruptCheck] touches the reception state: whatever a
    command of another class does, and however it ends, the reception buffer
    and the store of its lists, the deadline [same_timeout], the
    end-of-message stamp and the calls of the decoder are afterwards what
    they were. [AlertToneCheck] itself only hands a [SameInterruptCheck] to
    the controller. *)
Theorem reception_state_owner (fuel : nat) (cmd : CommandObject) (r : Radio) :
  type cmd <> SameInterruptCheck ->
  let r' := snd (execute E fuel cmd r) in
  heap r' = heap r /\
  same_messages r' = same_messages r /\
  averaged r' = averaged r /\
  same_timeout r' = same_timeout r /\
  last_EOM r' = last_EOM r.
Proof.
  intros Hsame.
  pose proof (do_command_frame E
                (fun r => (heap r, same_messages r, averaged r, same_timeout r, last_EOM r))
                ltac:(reflexivity) ltac:(reflexivity) fuel
                {| self := cmd; radio := r |}
                (do_command0_keeps_same fuel {| self := cmd; radio := r |} Hsame)) as H.
  cbv zeta. unfold execute.
  destruct (do_command E fuel {| self := cmd; radio := r |}) as [o m'].
  cbn [snd radio] in *. injection H as -> -> -> -> ->. repeat split.
Qed.

(** X27. Retuning forgets the alert tone: once the deadline [tune_after]
    has passed, a [TuneFrequency] clears the stamp [radio.tone_start] right
    after writing its request, and the stamp stays cleared however the
    command ends, whether the tuning completes, the frequency does not
    stick, the status cannot be read or the tuning never ends. *)
Theorem retune_clears_tone_stamp (fuel : nat) (cmd : CommandObject) (r : Radio)
    (frequency : Z) (rssi snr : option Z) :
  fields cmd = FTuneFrequency frequency rssi snr ->
  0 <= frequency < 65536 ->
  radio_power r = true ->
  deadline_passed E r ->
  tone_start (radio (snd (do_command0 E fuel {| self := cmd; radio := r |}))) = None /\
  tone_start (snd (execute E fuel cmd r)) = None.
Proof.
  intros Hf Hrange Hon Hpassed.
  set (view := fun m : Machine => tone_start (radio m)).
  assert (forall l m, view (on_radio (set_io l) m) = view m) as Hio by reflexivity.
  pose proof (waiting_for_stc_keeps E view Hio) as Hws.
  assert (forall obj,
            keeps view
              (call_on obj (CommandRequiringPowerUp_do_command E (TuneStatus_do_command0 E))))
    as Hts.
  { intros obj. apply (keeps_call_on_radio tone_start).
    unfold_commands. keeps_auto. }
  assert (tone_start (radio (snd (do_command0 E fuel {| self := cmd; radio := r |}))) = None)
    as Hbody.
  { unfold do_command0, bind at 1, read_self. cbn [self]. rewrite Hf.
    unfold TuneFrequency_do_command0, bind at 1, read_self. cbn [self]. rewrite Hf.
    unfold bind at 1, read_self. unfold bind at 1.
    rewrite wait_tune_after_over by exact Hpassed.
    unfold bind at 1, pack_H.
    replace ((0 <=? frequency) && (frequency <? 65536)) with true by lia.
    unfold ret at 1.
    unfold bind at 1, hardware_io_writeList, log_io, update.
    unfold bind at 1, update.
    match goal with
    | |- tone_start (radio (snd (?c ?m0))) = None =>
        assert (keeps view c) as K by keeps_auto;
        change (view (snd (c m0)) = None); rewrite (K m0)
    end.
    reflexivity. }
  split; [exact Hbody|].
  unfold execute.
  rewrite <- Hbody.
  destruct (do_command E fuel {| self := cmd; radio := r |}) as [o m'] eqn:Hrun.
  cbn [snd].
  replace m' with (snd (do_command E fuel {| self := cmd; radio := r |}))
    by (rewrite Hrun; reflexivity).
  rewrite do_command_admitted by (intros _; exact Hon).
  apply (Command_do_command_frame E tone_start); reflexivity.
Qed.

End Owners.

(** * The further properties on the bench *)

(** ** X2 on the bench *)

Lemma power_up_request_decodes_witness :
  PowerUp_init false true true false 3 5 = inr bench_power_up /\
  exists flags,
    Z.testbit flags 6 = true /\ Z.testbit flags 4 = true /\ Z.land flags 15 = 3.
Proof.
  split; [reflexivity|].
  destruct (power_up_request_decodes header_chip false true true false 3 5
              bench_power_up bench_radio_off eq_refl)
    as (flags & _ & _ & _ & H6 & _ & H4 & Hf & _).
  exists flags. repeat split; assumption.
Defined.

(** ** X3 on the bench *)

Lemma power_up_schedules_tuning_witness :
  let r' := radio (snd (do_command0 header_chip 1
                          {| self := bench_power_up; radio := bench_radio_off |})) in
  3 <> 15 /\
  radio_power r' = true /\
  tune_after r' = Fin (clock header_chip 0 + 0.5) /\
  delayed r' = [(ReadyToTuneEvent, (clock header_chip 0 + 0.5)%Q)].
Proof.
  assert (3 <> 15) as Hfun by lia.
  pose proof (power_up_schedules_tuning header_chip 1 bench_power_up bench_radio_off
                false true true false 3 5 eq_refl Hfun) as H.
  cbv beta zeta iota in H.
  destruct H as (_ & _ & _ & Hpower & _ & Hafter & _ & Hdelayed & _).
  cbv zeta. repeat split; assumption.
Defined.

(** ** X4 on the bench *)

Lemma power_up_query_library_id_witness :
  let r' := radio (snd (do_command0 header_chip 1
                          {| self := bench_query; radio := bench_radio_off |})) in
  radio_power r' = false /\
  revision r' = Some (PupRevision header_response) /\
  fired r' = [].
Proof.
  destruct (power_up_query_library_id header_chip 1 bench_query bench_radio_off
              false true true false 5 eq_refl)
    as (_ & Hrev & _ & Hpower & _ & Hfired & _).
  cbv zeta. repeat split; assumption.
Defined.

(** ** X5 on the bench *)

Lemma power_down_then_refused_witness :
  let r' := snd (execute header_chip 1 PowerDown_init bench_radio) in
  radio_power r' = false /\
  fired r' = [RadioPowerEvent false] /\
  execute header_chip 1 PowerDown_init r' =
    (Raise (ValueError (AttemptedWhenPoweredDown PowerDown)), PowerDown_init, r').
Proof.
  destruct (power_down_then_refused header_chip 1 PowerDown_init bench_radio
              eq_refl eq_refl)
    as (_ & _ & _ & Hpower & Hfired & _ & Hnext).
  cbv zeta. split; [exact Hpower|]. split; [exact Hfired|].
  apply (Hnext 1%nat PowerDown_init). reflexivity.
Defined.

(** ** X6 on the bench *)

Lemma property_round_trip_witness :
  let set := new "SET_PROPERTY" 18 (FSetProperty (bench_property (Some 300))) in
  let get := GetProperty_init (bench_property None) in
  io (radio (snd (do_command0 property_chip 1 {| self := set; radio := bench_radio |}))) =
    [writeList 18 [0; 81; 8; 1; 44]] /\
  fst (do_command0 property_chip 1 {| self := get; radio := bench_radio |}) =
    Ret (VInt 300).
Proof.
  intros set get.
  destruct (property_round_trip property_chip 1 set get bench_radio bench_radio
              "WB_MAX_TUNE_ERROR" "WB_MAX_TUNE_ERROR" 20744 300 None 128 0
              eq_refl eq_refl ltac:(lia) ltac:(lia) ltac:(lia) ltac:(lia))
    as (Hset & Hget).
  split.
  - rewrite Hset. reflexivity.
  - rewrite Hget; reflexivity.
Defined.

(** ** X7 on the bench *)

Lemma set_property_out_of_range_witness :
  let cmd := set_future (Some 7%nat)
               (new "SET_PROPERTY" 18 (FSetProperty (bench_property (Some 65536)))) in
  ~ (0 <= 20744 < 65536 /\ 0 <= 65536 < 65536) /\
  fst (do_command0 header_chip 1 {| self := cmd; radio := bench_radio |}) =
    Raise StructError /\
  io (snd (execute header_chip 1 cmd bench_radio)) = [] /\
  fst (fst (execute header_chip 1 cmd bench_radio)) = Ret tt /\
  delivered (snd (execute header_chip 1 cmd bench_radio)) =
    [(7%nat, Failure StructError)].
Proof.
  intros cmd.
  assert (~ (0 <= 20744 < 65536 /\ 0 <= 65536 < 65536)) as Hrange by lia.
  destruct (set_property_out_of_range header_chip 1 cmd bench_radio
              "WB_MAX_TUNE_ERROR" 20744 65536 eq_refl Hrange eq_refl)
    as (Hbody & _ & Hio & Hout & Hdelivered & _).
  split; [exact Hrange|].
  split; [rewrite Hbody; reflexivity|].
  split; [exact Hio|]. split; [exact Hout|exact Hdelivered].
Defined.

(** ** X8 on the bench *)

Lemma response_of_wrong_length_witness :
  let cmd := GetProperty_init (bench_property None) in
  length (chip header_chip (exchanged cmd [0; 81; 8] 4 [])) = 14%nat /\
  fst (do_command0 header_chip 1 {| self := cmd; radio := bench_radio |}) =
    Raise StructError.
Proof.
  intros cmd.
  split; [reflexivity|].
  rewrite (response_of_wrong_length header_chip 1 cmd bench_radio [0; 81; 8] 4 eq_refl).
  - reflexivity.
  - repeat constructor; lia.
  - vm_compute. discriminate.
Defined.

(** ** X9 on the bench *)

Lemma tune_status_decodes_witness :
  exists frequency rssi snr,
    fst (do_command0 tuned_chip 1 {| self := TuneStatus_init false; radio := bench_radio |}) =
      Ret (VTuneStatus (inject_Z frequency / 400) rssi snr) /\
    frequency = 253 * 256 + 252 /\ rssi mod 256 = 40 /\ snr mod 256 = 25.
Proof.
  destruct (tune_status_decodes tuned_chip 1 (TuneStatus_init false) bench_radio
              false None None None 128 1 253 252 40 25 eq_refl eq_refl)
    as (frequency & rssi & snr & Hrun & Hfreq & _ & _ & Hrssi & _ & Hsnr).
  - repeat constructor; lia.
  - exists frequency, rssi, snr. rewrite Hrun. repeat split; assumption.
Defined.

(** ** X10 on the bench *)

Lemma signal_quality_check_witness :
  let cmd := set_future (Some 7%nat) (ReceivedSignalQualityCheck_init false) in
  let cmd' := snd (fst (execute quality_chip 1 cmd bench_radio)) in
  let r' := snd (execute quality_chip 1 cmd bench_radio) in
  result cmd' = Some VSelfStr /\
  delivered r' = [(7%nat, Result VSelfStr)] /\
  fields cmd' =
    FReceivedSignalQualityCheck false (Some (-56)) (Some 12) (Some (-6))
      (Some false) (Some true) (Some true) (Some false) (Some true) (Some false).
Proof.
  intros cmd.
  destruct (signal_quality_check quality_chip 1 cmd bench_radio false
              None None None None None None None None None 128 10 1 0 200 12 0 250
              eq_refl eq_refl eq_refl)
    as (_ & Hresult & Hdelivered & _ & Hfields).
  - repeat constructor; lia.
  - cbv zeta. split; [exact Hresult|]. split; [exact Hdelivered|exact Hfields].
Defined.

(** ** X11 on the bench *)

Lemma preamble_poll_witness :
  let m := {| self := interrupt_poll; radio := bench_radio |} in
  let m1 := snd (do_command0 preamble_header_chip 4 m) in
  HDRRDY (polled_status preamble_header_chip false true m) = true /\
  same_timeout (radio m1) = Fin (clock preamble_header_chip 0 + 6) /\
  heap (radio m1) = [[]] /\
  fired (radio m1) = [].
Proof.
  intros m.
  destruct (preamble_poll preamble_header_chip 4 m None false false eq_refl)
    as (_ & Hdeadline & _ & _ & Hheap & _ & Hfired & _);
    try (vm_compute; reflexivity); try (vm_compute; lia).
  cbv zeta. split; [reflexivity|]. repeat split; assumption.
Defined.

(** ** X12 on the bench *)

Lemma end_of_message_masks_header_witness :
  let m := {| self := interrupt_poll; radio := bench_radio |} in
  let m1 := snd (do_command0 end_of_message_header_chip 4 m) in
  HDRRDY (polled_status end_of_message_header_chip false true m) = true /\
  io (radio m1) = [writeList 84 [1; 0]; wait_for_clear_to_send; readList 0 14] /\
  heap (radio m1) = [[]].
Proof.
  intros m.
  destruct (end_of_message_masks_header end_of_message_header_chip 4 m None false false
              eq_refl)
    as (_ & Hio & Hheap & _);
    try (vm_compute; reflexivity); try (vm_compute; lia).
  cbv zeta. split; [reflexivity|]. split; assumption.
Defined.

(** ** X13 on the bench *)

Lemma short_status_response_witness :
  let m := {| self := interrupt_poll; radio := bench_radio |} in
  (polled_length short_chip false true m < 6)%nat /\
  fst (do_command0 short_chip 4 m) = Raise IndexError /\
  fields (self (snd (do_command0 short_chip 4 m))) = fields interrupt_poll.
Proof.
  intros m.
  assert (polled_length short_chip false true m < 6)%nat as Hshort by (vm_compute; lia).
  destruct (short_status_response short_chip 4 m None true false false eq_refl Hshort)
    as (Hrun & _).
  split; [exact Hshort|]. rewrite Hrun. split; reflexivity.
Defined.

(** ** X14 on the bench *)

Lemma start_of_message_is_ignored_witness :
  let m := {| self := interrupt_poll; radio := bench_radio |} in
  let m1 := snd (do_command0 start_of_message_chip 4 m) in
  SOMDET (polled_status start_of_message_chip false true m) = true /\
  io (radio m1) = [writeList 84 [1; 0]; wait_for_clear_to_send; readList 0 14] /\
  same_timeout (radio m1) = PosInf /\
  ticks (radio m1) = 0%nat.
Proof.
  intros m.
  rewrite (start_of_message_is_ignored start_of_message_chip 4 m None false false eq_refl);
    try (vm_compute; reflexivity); try (vm_compute; lia).
  repeat split.
Defined.

(** ** X15 on the bench *)

Lemma header_read_loop_has_no_bound_witness :
  HDRRDY (polled_status truncating_chip false true
            {| self := interrupt_poll; radio := bench_radio |}) = true /\
  fst (fst (execute truncating_chip 1000 interrupt_poll bench_radio)) = Diverge.
Proof.
  split; [reflexivity|].
  apply (header_read_loop_has_no_bound truncating_chip 1000 interrupt_poll bench_radio
           None false eq_refl eq_refl).
  - intros log. reflexivity.
  - reflexivity.
  - reflexivity.
  - reflexivity.
  - vm_compute. reflexivity.
Defined.

(** ** X16 on the bench *)

Lemma header_reception_length_witness :
  let m := {| self := interrupt_poll; radio := bench_radio |} in
  MSGLEN (polled_status header_chip false true m) = 12 /\
  exists symbols confidences,
    buffer (radio (snd (do_command0 header_chip 4 m))) = [(symbols, confidences)] /\
    Z.of_nat (length symbols) = 13.
Proof.
  intros m.
  split; [reflexivity|].
  destruct (header_reception_length header_chip header_chip_answers 4 m None false false
              eq_refl)
    as (symbols & confidences & Hbuf & Hlen & _);
    try (vm_compute; reflexivity); try (vm_compute; lia).
  exists symbols, confidences. split; [exact Hbuf|exact Hlen].
Defined.

(** ** X17 on the bench *)

Lemma header_events_share_the_buffer_witness :
  let r1 := polled header_chip 31 interrupt_poll bench_radio in
  let r2 := polled header_chip 31 interrupt_poll r1 in
  let r3 := polled header_chip 31 (SameInterruptCheck_init false false true) r2 in
  fired r2 = [SAMEHeaderReceived 0; SAMEHeaderReceived 0] /\
  length (deref r2 0) = 2%nat /\
  length (deref r3 0) = 2%nat /\
  buffer r3 = [].
Proof.
  intros r1 r2 r3.
  destruct (header_events_share_the_buffer header_chip header_chip_answers 31
              bench_radio false false false)
    as (x1 & x2 & _ & _ & Hfired & Hd2 & _ & Hb3 & Hd3).
  - lia.
  - vm_compute. lia.
  - vm_compute. repeat split.
  - vm_compute. repeat split.
  - assert (buffer bench_radio = []) as Hb0 by reflexivity.
    rewrite Hb0 in Hd2, Hd3.
    split; [exact Hfired|].
    split; [exact (f_equal length Hd2)|].
    split; [exact (f_equal length Hd3)|exact Hb3].
Defined.

(** ** X18 on the bench *)

Lemma alert_tone_check_witness :
  let run := do_command0 tone_chip 1
               {| self := AlertToneCheck_init true; radio := bench_radio |} in
  1 <> 0 /\
  fst run = Ret VNone /\
  tone_start (radio (snd run)) = Some (clock tone_chip 0) /\
  exists poll,
    submitted (radio (snd run)) = [poll] /\
    fields poll = FSameInterruptCheck None false true true.
Proof.
  intros run.
  destruct (alert_tone_check tone_chip 1 (AlertToneCheck_init true) bench_radio true
              None None None None 128 1 1 eq_refl eq_refl)
    as (Hret & _ & (poll & Hsub & Hpoll & _) & Hon & _).
  - repeat constructor; lia.
  - assert (1 <> 0) as Hp by lia.
    destruct (Hon Hp) as (Hstamp & _).
    split; [exact Hp|]. split; [exact Hret|]. split; [exact Hstamp|].
    exists poll. split; [exact Hsub|exact Hpoll].
Defined.

(** ** X19 on the bench *)

Lemma tone_duration_between_checks_witness :
  let r1 := radio (snd (do_command0 tone_chip 1
                          {| self := AlertToneCheck_init true; radio := bench_radio |})) in
  let second := snd (do_command0 tone_chip 1
                       {| self := AlertToneCheck_init true; radio := r1 |}) in
  fields (self second) =
    FAlertToneCheck true (Some false) (Some true) (Some false)
      (Some (clock tone_chip 1 - clock tone_chip 0)%Q) /\
  tone_start (radio second) = None.
Proof.
  intros r1 second.
  refine ((fun H => _)
            (tone_duration_between_checks tone_chip 1 1
               (AlertToneCheck_init true) (AlertToneCheck_init true) bench_radio r1
               true true None None None None None None None None 128 1 1 128 2
               eq_refl eq_refl eq_refl _ _ eq_refl _ _)).
  - exact H.
  - repeat constructor; lia.
  - lia.
  - vm_compute. reflexivity.
  - repeat constructor; lia.
Defined.

(** ** X20 on the bench *)

Lemma patch_is_streamed_witness :
  let run := do_command0 header_chip 1
               {| self := bench_patch_command None; radio := bench_radio_off |} in
  bench_patch <> [] /\
  radio_power (radio (snd run)) = true /\
  written_bytes (patch_stream bench_patch) = bench_patch /\
  length (patch_stream bench_patch) = 6%nat.
Proof.
  intros run.
  assert (bench_patch <> []) as Hne by (vm_compute; discriminate).
  destruct (patch_is_streamed header_chip 1 (bench_patch_command None) bench_radio_off
              true true true 5 bench_patch bench_patch None eq_refl Hne eq_refl)
    as (_ & _ & _ & Hpower & Hbytes & _).
  - left. reflexivity.
  - split; [exact Hne|]. split; [exact Hpower|]. split; [exact Hbytes|reflexivity].
Defined.

(** ** X21 on the bench *)

Lemma patch_id_mismatch_witness :
  let run := do_command0 header_chip 1
               {| self := bench_patch_command (Some 53653); radio := bench_radio_off |} in
  53653 <> 0 /\
  fst run = Raise AssertionError /\
  radio_power (radio (snd run)) = false /\
  length (io (radio (snd run))) = 11%nat.
Proof.
  intros run.
  assert (bench_patch <> []) as Hne by (vm_compute; discriminate).
  assert (53653 <> 0) as Hid by lia.
  pose proof (patch_id_mismatch header_chip 1 (bench_patch_command (Some 53653))
                bench_radio_off true true true 5 bench_patch bench_patch 53653
                eq_refl Hne eq_refl Hid) as H.
  cbv zeta in H.
  split; [exact Hid|].
  unfold run. rewrite H by (vm_compute; discriminate).
  repeat split.
Defined.

(** ** X25 on the bench *)

Lemma power_state_owners_witness :
  radio_power (snd (execute header_chip 4 interrupt_poll bench_radio)) = true /\
  tune_after (snd (execute header_chip 4 interrupt_poll bench_radio)) = NegInf.
Proof.
  apply (power_state_owners header_chip 4 interrupt_poll bench_radio);
    vm_compute; discriminate.
Defined.

(** ** X26 on the bench *)

Lemma reception_state_owner_witness :
  let r' := snd (execute tone_chip 1 (AlertToneCheck_init true) loaded_radio) in
  heap r' = [[([90; 67; 90; 67], [3; 3; 2; 3])]] /\
  same_messages r' = 0%nat /\
  averaged r' = [] /\
  same_timeout r' = PosInf /\
  last_EOM r' = 0%Q.
Proof.
  apply (reception_state_owner tone_chip 1 (AlertToneCheck_init true) loaded_radio).
  vm_compute. discriminate.
Defined.

(** ** X22 on the bench *)

Lemma no_tuning_before_tune_after_witness :
  let run := do_command0 tuned_chip 3 {| self := bench_tune; radio := warming_radio |} in
  fst run = Diverge /\ io (radio (snd run)) = [].
Proof.
  intros run.
  destruct (no_tuning_before_tune_after tuned_chip 3 bench_tune warming_radio
              65020 None None 2000 eq_refl eq_refl)
    as (Hrun & Hio & _).
  - intros j Hj.
    assert (j = 0 \/ j = 1 \/ j = 2 \/ j = 3)%nat as [-> | [-> | [-> | ->]]] by lia;
      vm_compute; reflexivity.
  - split; [exact Hrun|exact Hio].
Defined.

(** ** X23 on the bench *)

Lemma tuning_has_no_timeout_witness :
  fst (fst (execute stuck_chip 50 bench_tune bench_radio)) = Diverge /\
  io (radio (snd (do_command0 stuck_chip 2 {| self := bench_tune; radio := bench_radio |}))) =
    [writeList 80 [0; 253; 252]; check_interrupts; check_interrupts; check_interrupts].
Proof.
  split.
  - destruct (tuning_has_no_timeout stuck_chip 50 bench_tune bench_radio 65020 None None
                eq_refl ltac:(lia) eq_refl I (fun _ => eq_refl)) as (_ & Hrun).
    exact Hrun.
  - destruct (tuning_has_no_timeout stuck_chip 2 bench_tune bench_radio 65020 None None
                eq_refl ltac:(lia) eq_refl I (fun _ => eq_refl)) as (Hbody & _).
    rewrite Hbody. reflexivity.
Defined.

(** ** X24 on the bench *)

Lemma tune_frequency_constructor_witness :
  in_weather_band (float 162.45) /\
  TuneFrequency_init 162.45 = inr (new "WB_TUNE_FREQ" 80 (FTuneFrequency 64979 None None)).
Proof.
  assert (in_weather_band (float 162.45)) as Hband by (split; vm_compute; discriminate).
  split; [exact Hband|].
  destruct (tune_frequency_constructor 162.45) as (_ & Hin).
  destruct (Hin Hband) as (field & Hinit & Hfield & _).
  rewrite Hinit, Hfield. vm_compute. reflexivity.
Defined.

(** ** X27 on the bench *)

Lemma retune_clears_tone_stamp_witness :
  let r := set_tone_start (Some 990%Q) bench_radio in
  tone_start r = Some 990%Q /\
  tone_start (snd (execute tuned_chip 1 bench_tune r)) = None /\
  tone_start (snd (execute stuck_chip 5 bench_tune r)) = None.
Proof.
  intros r.
  split; [reflexivity|].
  split.
  - destruct (retune_clears_tone_stamp tuned_chip 1 bench_tune r 65020 None None
                eq_refl ltac:(lia) eq_refl I) as (_ & H).
    exact H.
  - destruct (retune_clears_tone_stamp stuck_chip 5 bench_tune r 65020 None None
                eq_refl ltac:(lia) eq_refl I) as (_ & H).
    exact H.
Defined.
